(** * ark-api: query submission, streaming capability resolution and relay

    A shallow embedding of the request handlers of
    [services/ark-api/ark-api/src/ark_api/api/v1/openai.py] and
    [services/ark-api/ark-api/src/ark_api/api/v1/queries.py], and the
    properties of the streaming path proved about them.

    Layout:
    - Python values, truthiness, dictionary access and exceptions;
    - handler programs: a free monad over the calls a handler awaits on the
      resource client, on the clock and on the uuid generator, with Python's
      [try]/[except Exception];
    - the upstream HTTP connection of the relays and the two relay
      generators;
    - the handlers of [openai.py] and [queries.py] (their logging is left
      out);
    - what the properties say about resources and text, and a sample server;
    - the properties. *)

From Stdlib Require Import ZArith String Ascii List Lia Bool SpecFloat.
From stdpp Require Import base option gmap strings list pretty.
From Equations Require Import Equations.
From Equations.Prop Require Import Logic.


Local Open Scope Z_scope.

#[local] Set Warnings "-register-all".
#[local] Set Default Proof Using "Type".

(** ** Text *)

(** A Python [str] is modelled as a [string] whose characters are the code
    points 0..255. *)

Definition newline_char : ascii := "010"%char.
Definition NL : string := String newline_char EmptyString.
Definition DQ : string := String "034"%char EmptyString.

(** [str.isspace] on one character: the whitespace code points below 256. *)
Definition isspace (c : ascii) : bool :=
  let n := nat_of_ascii c in
  ((9 <=? n)%nat && (n <=? 13)%nat) || ((28 <=? n)%nat && (n <=? 32)%nat)
  || (n =? 133)%nat || (n =? 160)%nat.

(** [s.lstrip()], [s.rstrip()] and [s.strip()]. *)
Fixpoint lstrip (s : string) : string :=
  match s with
  | EmptyString => EmptyString
  | String c s' => if isspace c then lstrip s' else s
  end.

Fixpoint rstrip (s : string) : string :=
  match s with
  | EmptyString => EmptyString
  | String c s' =>
      match rstrip s' with
      | EmptyString => if isspace c then EmptyString else String c EmptyString
      | r => String c r
      end
  end.

Definition strip (s : string) : string := rstrip (lstrip s).

(** Truth value of a [str]: non-empty. *)
Definition str_truthy (s : string) : bool :=
  match s with EmptyString => false | String _ _ => true end.

(** [sep.join(parts)]. *)
Fixpoint join (sep : string) (parts : list string) : string :=
  match parts with
  | [] => EmptyString
  | [p] => p
  | p :: rest => p +:+ sep +:+ join sep rest
  end.

(** [s[:n]]. *)
Fixpoint take_chars (n : nat) (s : string) : string :=
  match n, s with
  | S n', String c s' => String c (take_chars n' s')
  | _, _ => EmptyString
  end.

(** ** Python values *)

(** The values a resource's [to_dict()] is made of.  A [dict] has string
    keys; its insertion order is not represented, and neither are numbers
    other than integers. *)
Inductive value : Type :=
| VNone
| VBool (b : bool)
| VInt (z : Z)
| VStr (s : string)
| VList (l : list value)
| VDict (d : gmap string value).

Definition type_name (v : value) : string :=
  match v with
  | VNone => "NoneType"
  | VBool _ => "bool"
  | VInt _ => "int"
  | VStr _ => "str"
  | VList _ => "list"
  | VDict _ => "dict"
  end.

(** [bool(v)]. *)
Definition py_truthy (v : value) : bool :=
  match v with
  | VNone => false
  | VBool b => b
  | VInt z => negb (z =? 0)
  | VStr s => str_truthy s
  | VList l => match l with [] => false | _ => true end
  | VDict d => negb (bool_decide (d = ∅))
  end.

(** [v == s] for a string literal [s]. *)
Definition py_eq_str (v : value) (s : string) : bool :=
  match v with
  | VStr s' => String.eqb s' s
  | _ => false
  end.

(** What [str(v)] gives for a value that is not a [str] is left open: for a
    [dict] it depends on the insertion order of the keys. *)
Class PyRepr := py_repr : value -> string.

(** [str(v)], which is also how an f-string formats [{v}]. *)
Definition py_str `{PyRepr} (v : value) : string :=
  match v with
  | VStr s => s
  | _ => py_repr v
  end.

(** ** Exceptions *)

(** The instances of [Exception] (what [except Exception] catches).
    [OtherError] stands for every class that is not told apart here: the
    resource client's API errors, httpx's transport errors, validation
    errors. *)
Inductive exn : Type :=
| AttributeError (msg : string)
| KeyError (msg : string)
| TypeError (msg : string)
| ValueError (msg : string)
| HTTPException (status_code : Z) (detail : string)
| OtherError (cls : string) (msg : string).

(** [str(e)]. *)
Definition exn_str (e : exn) : string :=
  match e with
  | AttributeError msg | KeyError msg | TypeError msg | ValueError msg => msg
  | HTTPException status_code detail => pretty status_code +:+ ": " +:+ detail
  | OtherError _ msg => msg
  end.

(** [isinstance(e, HTTPException)]. *)
Definition is_HTTPException (e : exn) : bool :=
  match e with HTTPException _ _ => true | _ => false end.

(** The outcome of evaluating an expression: a value or a raised exception. *)
Inductive result (A : Type) : Type :=
| Ok (a : A)
| Raise (e : exn).
Arguments Ok {A} a.
Arguments Raise {A} e.

#[export] Instance result_ret : MRet result := fun A a => Ok a.
#[export] Instance result_bind : MBind result := fun A B f r =>
  match r with
  | Ok a => f a
  | Raise e => Raise e
  end.

(** [v.get(key, default)]: only a [dict] has the method. *)
Definition py_get (v : value) (key : string) (dflt : value) : result value :=
  match v with
  | VDict d => Ok (default dflt (d !! key))
  | _ => Raise (AttributeError
                  ("'" +:+ type_name v +:+ "' object has no attribute 'get'"))
  end.

(** [v[key]] for a string key. *)
Definition py_getitem (v : value) (key : string) : result value :=
  match v with
  | VDict d =>
      match d !! key with
      | Some x => Ok x
      | None => Raise (KeyError ("'" +:+ key +:+ "'"))
      end
  | VList _ => Raise (TypeError "list indices must be integers or slices, not str")
  | VStr _ => Raise (TypeError "string indices must be integers, not 'str'")
  | _ => Raise (TypeError ("'" +:+ type_name v +:+ "' object is not subscriptable"))
  end.

(** The memory a query names: [memory_spec["name"]] when the query has a
    memory with a name, and ["default"] otherwise.  The same statements are
    in [try_get_streaming_url] and in [stream_query]. *)
Definition resolve_memory_name (memory_spec : value) : result value :=
  if py_truthy memory_spec
  then
    name ← py_get memory_spec "name" VNone;
    if py_truthy name then py_getitem memory_spec "name"
    else mret (VStr "default")
  else mret (VStr "default").

(** ** Resources and the resource client *)

(** An object of the SDK as the handlers use it: its [metadata] attribute
    and its [to_dict()] method. *)
Record resource : Type := Resource {
  metadata : value;
  to_dict : result value;
}.

(** The execution target [parse_model_to_query_target] returns. *)
Record query_target : Type := QueryTarget {
  target_type : string;
  target_name : string;
}.

Record QueryV1alpha1Spec : Type := {
  spec_input : string;
  spec_targets : list query_target;
}.

Record QueryV1alpha1 : Type := {
  query_metadata : gmap string value;
  query_spec : QueryV1alpha1Spec;
}.

(** The client [with_ark_client(namespace, version)] hands to its block. *)
Record ark_client : Type := ArkClient {
  client_namespace : string;
  client_version : string;
}.

(** The calls the handlers await on a client. *)
Inductive op : Type :=
| queries_a_create (body : QueryV1alpha1)
| queries_a_get (name : string)
| memories_a_get (name : value)
| agents_a_list
| teams_a_list
| models_a_list
| tools_a_list.

(** What a call returns when it does not raise. *)
Definition resp (o : op) : Type :=
  match o with
  | queries_a_create _ | queries_a_get _ | memories_a_get _ => resource
  | agents_a_list | teams_a_list | models_a_list | tools_a_list => list resource
  end.

(** ** Handler programs *)

(** The body of an [async def]: it returns, raises, awaits a call on a
    client (which returns or raises), reads the clock, or draws a uuid. *)
Inductive prog (A : Type) : Type :=
| Ret (a : A)
| Throw (e : exn)
| Call (c : ark_client) (o : op) (k : result (resp o) -> prog A)
| TimeTime (k : Z -> prog A)
| Uuid4Hex (k : string -> prog A).
Arguments Ret {A} a.
Arguments Throw {A} e.
Arguments Call {A} c o k.
Arguments TimeTime {A} k.
Arguments Uuid4Hex {A} k.

Fixpoint prog_bind {A B : Type} (f : A -> prog B) (p : prog A) : prog B :=
  match p with
  | Ret a => f a
  | Throw e => Throw e
  | Call c o k => Call c o (fun r => prog_bind f (k r))
  | TimeTime k => TimeTime (fun t => prog_bind f (k t))
  | Uuid4Hex k => Uuid4Hex (fun u => prog_bind f (k u))
  end.

#[export] Instance prog_ret : MRet prog := fun A a => Ret a.
#[export] Instance prog_mbind : MBind prog := fun A B f p => prog_bind f p.
#[export] Instance prog_fmap : FMap prog := fun A B f p =>
  prog_bind (fun a => Ret (f a)) p.

(** [try: p except Exception as e: h(e)]. *)
Fixpoint try_except {A : Type} (p : prog A) (h : exn -> prog A) : prog A :=
  match p with
  | Ret a => Ret a
  | Throw e => h e
  | Call c o k => Call c o (fun r => try_except (k r) h)
  | TimeTime k => TimeTime (fun t => try_except (k t) h)
  | Uuid4Hex k => Uuid4Hex (fun u => try_except (k u) h)
  end.

(** An expression evaluated inside a handler. *)
Definition lift {A : Type} (r : result A) : prog A :=
  match r with
  | Ok a => Ret a
  | Raise e => Throw e
  end.

(** [await c.<kind>.<method>(...)]. *)
Definition await (c : ark_client) (o : op) : prog (resp o) := Call c o lift.

(** [int(time.time())]. *)
Definition time_time : prog Z := TimeTime Ret.

(** [uuid.uuid4().hex]. *)
Definition uuid4_hex : prog string := Uuid4Hex Ret.

(** [async with with_ark_client(namespace, version) as ark_client: body].
    Entering and leaving the block are taken to succeed. *)
Definition with_ark_client {A : Type} (namespace version : string)
    (body : ark_client -> prog A) : prog A :=
  body (ArkClient namespace version).

(** *** Running a program against a backend *)

(** A call a handler made: the client it went through, the call, and what
    the backend answered. *)
Record event : Type := Event {
  ev_client : ark_client;
  ev_op : op;
  ev_response : result (resp ev_op);
}.

(** The world a handler runs in: how each call on a client is served, what
    the clock reads and which uuid is drawn, each of which may change the
    world. *)
Record backend (world : Type) : Type := {
  serve : ark_client -> forall o : op, world -> result (resp o) * world;
  clock : world -> Z * world;
  uuid4 : world -> string * world;
}.
Arguments serve {world} b c o w.
Arguments clock {world} b w.
Arguments uuid4 {world} b w.

Record outcome (world A : Type) : Type := Outcome {
  trace : list event;
  final : world;
  returned : result A;
}.
Arguments Outcome {world A} trace final returned.
Arguments trace {world A} o.
Arguments final {world A} o.
Arguments returned {world A} o.

Definition logged {world A : Type} (ev : event) (o : outcome world A) : outcome world A :=
  Outcome (ev :: trace o) (final o) (returned o).

Fixpoint run {world A : Type} (b : backend world) (p : prog A) (w : world)
    : outcome world A :=
  match p with
  | Ret a => Outcome [] w (Ok a)
  | Throw e => Outcome [] w (Raise e)
  | Call c o k =>
      let '(r, w') := serve b c o w in
      logged (Event c o r) (run b (k r) w')
  | TimeTime k => let '(t, w') := clock b w in run b (k t) w'
  | Uuid4Hex k => let '(u, w') := uuid4 b w in run b (k u) w'
  end.

(** ** The upstream connection of the relays *)

(** An async iterator of the response body: the items it delivers, and how
    it ends, by exhaustion ([None]) or by raising. *)
Record upstream : Type := {
  items : list string;
  failure : option exn;
}.

(** An httpx response: its status and its body, as [aiter_lines()] and as
    [aiter_text()] deliver it. *)
Record response : Type := {
  status_code : Z;
  aiter_lines : upstream;
  aiter_text : upstream;
}.

(** [client.stream(method, url)]: entering the block raises or gives a
    response. *)
Inductive connection : Type :=
| ConnectError (e : exn)
| Connected (r : response).

Class HttpClient := client_stream : string -> string -> connection.

(** What iterating an async generator to its end produces: the chunks it
    yields, and the exception it ends with, if any. *)
Record generated : Type := {
  yielded : list string;
  raised : option exn;
}.

(** The generator object a handler puts in its response. *)
Inductive generator : Type :=
| GenProxyStreamingResponse (streaming_url : string)
| GenStreamProxy (memory_stream_url : string).

Record StreamingResponse : Type := {
  body_iterator : generator;
  media_type : string;
  headers : gmap string string;
}.

(** *** openai.py, [proxy_streaming_response] *)

(** The [async for line in response.aiter_lines()] loop. *)
Fixpoint proxy_lines (lines : list string) : list string :=
  match lines with
  | [] => []
  | line :: rest =>
      if str_truthy (strip line)
      then (line +:+ NL +:+ NL) :: proxy_lines rest
      else proxy_lines rest
  end.

Definition proxy_streaming_response `{HttpClient} (streaming_url : string)
    : generated :=
  match client_stream "GET" streaming_url with
  | ConnectError e => {| yielded := []; raised := Some e |}
  | Connected response =>
      if negb (status_code response =? 200)
      then {| yielded := []; raised := None |}
      else {| yielded := proxy_lines (items (aiter_lines response));
              raised := failure (aiter_lines response) |}
  end.

(** *** queries.py, [stream_proxy] *)

(** [buffer.split(NL, 1)] when the newline is in [buffer], [None] when it is
    not. *)
Fixpoint split_first_newline (buffer : string) : option (string * string) :=
  match buffer with
  | EmptyString => None
  | String c s =>
      if Ascii.eqb c newline_char then Some (EmptyString, s)
      else match split_first_newline s with
           | Some (line, rest) => Some (String c line, rest)
           | None => None
           end
  end.

Lemma split_first_newline_shorter (buffer line rest : string) :
  split_first_newline buffer = Some (line, rest) ->
  (String.length rest < String.length buffer)%nat.
Proof.
  revert line. induction buffer as [|c s IH]; intros line; simpl; [discriminate|].
  destruct (Ascii.eqb c newline_char).
  - intros [= <- <-]. lia.
  - destruct (split_first_newline s) as [[l r]|]; [|discriminate].
    intros [= <- <-]. specialize (IH _ eq_refl). lia.
Qed.

(** The [while NL in buffer] loop: the chunks it yields and the buffer it
    leaves. *)
Equations? drain (buffer : string) : list string * string
    by wf (String.length buffer) lt :=
  drain buffer with inspect (split_first_newline buffer) := {
    | exist _ (Some (line, rest)) _ =>
        let '(out, buffer') := drain rest in
        ((if str_truthy (strip line) then [line +:+ NL] else []) ++ out, buffer');
    | exist _ None _ => ([], buffer) }.
Proof. eapply split_first_newline_shorter; eauto. Qed.

(** The [async for chunk in response.aiter_text()] loop. *)
Fixpoint stream_chunks (buffer : string) (chunks : list string)
    : list string * string :=
  match chunks with
  | [] => ([], buffer)
  | chunk :: rest =>
      let '(out, buffer') := drain (buffer +:+ chunk) in
      let '(outs, buffer'') := stream_chunks buffer' rest in
      (out ++ outs, buffer'')
  end.

(** The event [data: {"error": "<msg>"}] followed by a blank line. *)
Definition error_event (msg : string) : string :=
  "data: {" +:+ DQ +:+ "error" +:+ DQ +:+ ": " +:+ DQ +:+ msg +:+ DQ +:+ "}"
  +:+ NL +:+ NL.

Definition stream_proxy `{HttpClient} (memory_stream_url : string) : generated :=
  match client_stream "GET" memory_stream_url with
  | ConnectError e =>
      {| yielded := [error_event ("Streaming failed: " +:+ exn_str e)];
         raised := None |}
  | Connected response =>
      if negb (status_code response =? 200)
      then {| yielded := [error_event ("Memory service returned "
                                       +:+ pretty (status_code response))];
              raised := None |}
      else
        let out := fst (stream_chunks "" (items (aiter_text response))) in
        match failure (aiter_text response) with
        | None => {| yielded := out; raised := None |}
        | Some e =>
            {| yielded := out ++ [error_event ("Streaming failed: " +:+ exn_str e)];
               raised := None |}
        end
  end.

(** Iterating the body of a response. *)
Definition iterate `{HttpClient} (g : generator) : generated :=
  match g with
  | GenProxyStreamingResponse streaming_url => proxy_streaming_response streaming_url
  | GenStreamProxy memory_stream_url => stream_proxy memory_stream_url
  end.

(** ** openai.py *)

Definition TIMESTAMP_FORMAT : string := "%Y-%m-%dT%H:%M:%SZ".

(** The [time] module: [time.strptime(s, fmt)] and
    [int(time.mktime(t))], which depends on the server's local time zone. *)
Class TimeLib := {
  struct_time : Type;
  strptime : string -> string -> result struct_time;
  mktime : struct_time -> result Z;
}.

(** The modules of the package that [openai.py] imports:
    [utils.query_targets], [utils.query_polling], [constants.annotations],
    and the chat completion object the poller builds. *)
Class Utils := {
  ChatCompletion : Type;
  parse_model_to_query_target : string -> result query_target;
  poll_query_completion :
    ark_client -> string -> string -> string -> prog ChatCompletion;
  STREAMING_ENABLED_ANNOTATION : string;
}.

Section openai.
Context `{PyRepr} `{TimeLib} `{Utils}.

Definition _parse_timestamp (metadata : value) : prog Z :=
  created_timestamp ← lift (py_get metadata "creationTimestamp" VNone);
  if py_truthy created_timestamp
  then
    match created_timestamp with
    | VStr s => lift (t ← strptime s TIMESTAMP_FORMAT; mktime t)
    | v => Throw (TypeError ("strptime() argument 0 must be str, not <class '"
                             +:+ type_name v +:+ "'>"))
    end
  else time_time.

Record Model : Type := {
  id : string;
  object : string;
  created : Z;
  owned_by : string;
}.

Definition _create_model_entry (resource_id : string) (metadata : value)
    : prog Model :=
  created ← _parse_timestamp metadata;
  mret {| id := resource_id; object := "model"; created := created;
          owned_by := "ark" |}.

Record ChatMessage : Type := {
  role : string;
  content : string;
}.

Record ChatCompletionRequest : Type := {
  model : string;
  messages : list ChatMessage;
  temperature : SpecFloat.spec_float;
  max_tokens : option Z;
  stream : bool;
}.

(** The [try] block of [try_get_streaming_url]. *)
Definition streaming_url_lookup (ark_client : ark_client) (query_name : string)
    : prog (option string) :=
  query ← await ark_client (queries_a_get query_name);
  query_dict ← lift (to_dict query);
  spec ← lift (py_get query_dict "spec" (VDict ∅));
  memory_spec ← lift (py_get spec "memory" VNone);
  memory_name ← lift (resolve_memory_name memory_spec);
  memory ← await ark_client (memories_a_get memory_name);
  memory_dict ← lift (to_dict memory);
  metadata ← lift (py_get memory_dict "metadata" (VDict ∅));
  annotations ← lift (py_get metadata "annotations" (VDict ∅));
  annotation ← lift (py_get annotations
                       "ark.mckinsey.com/memory-event-stream-enabled" VNone);
  let streaming_enabled := py_eq_str annotation "true" in
  if negb streaming_enabled then mret None
  else
    status ← lift (py_get memory_dict "status" (VDict ∅));
    base_url ← lift (py_get status "lastResolvedAddress" VNone);
    if negb (py_truthy base_url) then mret None
    else
      mret (Some (py_str base_url +:+ "/stream/" +:+ query_name
                  +:+ "?from-beginning=true&wait-for-query=30s")).

Definition try_get_streaming_url (ark_client : ark_client) (query_name : string)
    (namespace : string) : prog (option string) :=
  try_except (streaming_url_lookup ark_client query_name) (fun _ => mret None).

Inductive chat_response : Type :=
| Completed (completion : ChatCompletion)
| Streaming (r : StreamingResponse).

Definition chat_completions (request : ChatCompletionRequest)
    : prog chat_response :=
  let model := model request in
  let messages := messages request in
  target ← lift (parse_model_to_query_target model);
  let input_text :=
    join NL (map (fun msg => role msg +:+ ": " +:+ content msg) messages) in
  hex ← uuid4_hex;
  let query_name := "openai-query-" +:+ take_chars 8 hex in
  let metadata : gmap string value :=
    <["namespace" := VStr "default"]> (<["name" := VStr query_name]> ∅) in
  let metadata :=
    if stream request
    then <["annotations" :=
             VDict (<[STREAMING_ENABLED_ANNOTATION := VStr "true"]> ∅)]> metadata
    else metadata in
  let query_resource :=
    {| query_metadata := metadata;
       query_spec := {| spec_input := input_text; spec_targets := [target] |} |} in
  try_except
    (with_ark_client "default" "v1alpha1" (fun ark_client =>
       _ ← await ark_client (queries_a_create query_resource);
       let complete :=
         Completed <$> poll_query_completion ark_client query_name model input_text in
       if stream request
       then
         streaming_url ← try_get_streaming_url ark_client query_name "default";
         match streaming_url with
         | Some url =>
             if str_truthy url
             then mret (Streaming
                    {| body_iterator := GenProxyStreamingResponse url;
                       media_type := "text/event-stream";
                       headers := <["Connection" := "keep-alive"]>
                                    (<["Cache-Control" := "no-cache"]> ∅) |})
             else complete
         | None => complete
         end
       else complete))
    (fun e =>
       if is_HTTPException e then Throw e
       else Throw (HTTPException 500 (exn_str e))).

(** Runs [p] and hands its outcome, returned or raised, to what follows:
    the first half of a [try] statement whose handler needs the state as the
    exception left it. *)
Definition attempt {A : Type} (p : prog A) : prog (result A) :=
  try_except (Ok <$> p) (fun e => mret (Raise e)).

(** The [for] loop of one kind in [list_models], on the list
    [models_list] it appends to: the list when the loop ends, and the
    exception that ended it, if any. *)
Fixpoint append_entries (prefix : string) (items : list resource)
    (models_list : list Model) : prog (list Model * option exn) :=
  match items with
  | [] => mret (models_list, None)
  | item :: rest =>
      step ← attempt
        (name ← lift (py_getitem (metadata item) "name");
         _create_model_entry (prefix +:+ py_str name) (metadata item));
      match step with
      | Ok entry => append_entries prefix rest (models_list ++ [entry])
      | Raise e => mret (models_list, Some e)
      end
  end.

(** One [try] statement of [list_models]: the listing call, the loop, and
    the handler, which logs the exception and goes on. *)
Definition list_kind (listing : prog (list resource)) (prefix : string)
    (models_list : list Model) : prog (list Model) :=
  fetched ← attempt listing;
  match fetched with
  | Ok items =>
      '(models_list, _) ← append_entries prefix items models_list;
      mret models_list
  | Raise _ => mret models_list
  end.

Record ModelList : Type := {
  list_object : string;
  data : list Model;
}.

Definition list_models : prog ModelList :=
  let models_list := [] in
  with_ark_client "default" "v1alpha1" (fun ark_client =>
    models_list ← list_kind (await ark_client agents_a_list) "agent/" models_list;
    models_list ← list_kind (await ark_client teams_a_list) "team/" models_list;
    models_list ← list_kind (await ark_client models_a_list) "model/" models_list;
    models_list ← list_kind (await ark_client tools_a_list) "tool/" models_list;
    mret {| list_object := "list"; data := models_list |}).
End openai.

(** ** queries.py *)

Definition VERSION : string := "v1alpha1".

Section queries.
Context `{PyRepr}.

(** Modelled from the spec: the decorator [handle_k8s_errors] of
    [api/v1/exceptions.py], which is not among the sources.  The spec's
    error handling design (section 7): every unanticipated exception at the
    request boundary becomes a generic 500 that keeps the message, except
    where a more specific status was already raised. *)
Definition handle_k8s_errors {A : Type} (operation resource_type : string)
    (handler : prog A) : prog A :=
  try_except handler
    (fun e =>
       if is_HTTPException e then Throw e
       else Throw (HTTPException 500 (exn_str e))).

(** The body of [stream_query], under its decorator in [stream_query]
    below. *)
Definition stream_query_body (namespace query_name : string)
    : prog StreamingResponse :=
  with_ark_client namespace VERSION (fun ark_client =>
    query ← await ark_client (queries_a_get query_name);
    query_dict ← lift (to_dict query);
    metadata ← lift (py_get query_dict "metadata" (VDict ∅));
    annotations ← lift (py_get metadata "annotations" (VDict ∅));
    annotation ← lift (py_get annotations "ark.mckinsey.com/streaming-enabled" VNone);
    let streaming_enabled := py_eq_str annotation "true" in
    if negb streaming_enabled
    then Throw (HTTPException 400 "Streaming not enabled for this query")
    else
      spec ← lift (py_get query_dict "spec" (VDict ∅));
      memory_spec ← lift (py_get spec "memory" VNone);
      memory_name ← lift (resolve_memory_name memory_spec);
      memory ← await ark_client (memories_a_get memory_name);
      memory_dict ← lift (to_dict memory);
      status ← lift (py_get memory_dict "status" (VDict ∅));
      base_url ← lift (py_get status "lastResolvedAddress" VNone);
      if negb (py_truthy base_url)
      then Throw (HTTPException 502 "Memory service address not resolved")
      else
        spec ← lift (py_get query_dict "spec" (VDict ∅));
        session ← lift (py_get spec "sessionId" VNone);
        session_id ←
          (if py_truthy session then mret session
           else
             metadata ← lift (py_get query_dict "metadata" (VDict ∅));
             uid ← lift (py_get metadata "uid" (VStr ""));
             mret (VStr (py_str uid)));
        let memory_stream_url :=
          py_str base_url +:+ "/stream/" +:+ py_str session_id in
        mret {| body_iterator := GenStreamProxy memory_stream_url;
                media_type := "text/plain; charset=utf-8";
                headers :=
                  <["Access-Control-Allow-Headers" := "*"]>
                    (<["Access-Control-Allow-Origin" := "*"]>
                       (<["Connection" := "keep-alive"]>
                          (<["Cache-Control" := "no-cache"]> ∅))) |}).

Definition stream_query (namespace query_name : string) : prog StreamingResponse :=
  handle_k8s_errors "stream" "query" (stream_query_body namespace query_name).
End queries.

(** ** Reading a resource *)

(** What the properties below say about a resource is said on its
    dictionary, independently of how the handlers walk it. *)

Definition dict_field (v : value) (key : string) : option value :=
  match v with
  | VDict d => d !! key
  | _ => None
  end.

(** The value found by following [path] down nested dictionaries. *)
Fixpoint dict_path (v : value) (path : list string) : option value :=
  match path with
  | [] => Some v
  | key :: rest =>
      match dict_field v key with
      | Some v' => dict_path v' rest
      | None => None
      end
  end.

(** The annotation a resource carries under [key], if any. *)
Definition annotation_of (resource_dict : value) (key : string) : option value :=
  dict_path resource_dict ["metadata"; "annotations"; key].

(** The address a memory's status carries, if any. *)
Definition address_of (memory_dict : value) : option value :=
  dict_path memory_dict ["status"; "lastResolvedAddress"].

(** The name of the memory a query refers to, ["default"] when it names
    none. *)
Definition memory_ref (query_dict : value) : value :=
  match dict_path query_dict ["spec"; "memory"; "name"] with
  | Some name => if py_truthy name then name else VStr "default"
  | None => VStr "default"
  end.

(** The session a query belongs to: its [sessionId], or else its uid. *)
Definition session_of `{PyRepr} (query_dict : value) : value :=
  let uid := default (VStr "") (dict_path query_dict ["metadata"; "uid"]) in
  match dict_path query_dict ["spec"; "sessionId"] with
  | Some session => if py_truthy session then session else VStr (py_str uid)
  | None => VStr (py_str uid)
  end.

Definition absent_or_dict (o : option value) : bool :=
  match o with
  | None | Some (VDict _) => true
  | Some _ => false
  end.

Definition absent_none_or_dict (o : option value) : bool :=
  match o with
  | None | Some VNone | Some (VDict _) => true
  | Some _ => false
  end.

(** The shape of a resource as the API server gives it: a dictionary whose
    [metadata], [spec] and [status], when present, are dictionaries, as are
    the metadata's [annotations] and the spec's [memory] reference (which
    may also be [None]). *)
Definition resource_shaped (v : value) : bool :=
  match v with
  | VDict _ =>
      absent_or_dict (dict_path v ["metadata"])
      && absent_or_dict (dict_path v ["metadata"; "annotations"])
      && absent_or_dict (dict_path v ["spec"])
      && absent_none_or_dict (dict_path v ["spec"; "memory"])
      && absent_or_dict (dict_path v ["status"])
  | _ => false
  end.

(** A line with a character that is not whitespace. *)
Fixpoint not_blank (line : string) : bool :=
  match line with
  | EmptyString => false
  | String c s => negb (isspace c) || not_blank s
  end.

(** A text without a newline. *)
Fixpoint no_newline (s : string) : bool :=
  match s with
  | EmptyString => true
  | String c s' => negb (Ascii.eqb c newline_char) && no_newline s'
  end.

(** The text of [lines], each ended by a newline. *)
Fixpoint unlines (lines : list string) : string :=
  match lines with
  | [] => EmptyString
  | line :: rest => line +:+ NL +:+ unlines rest
  end.

(** The body a sequence of chunks adds up to. *)
Fixpoint concat_chunks (chunks : list string) : string :=
  match chunks with
  | [] => EmptyString
  | chunk :: rest => chunk +:+ concat_chunks rest
  end.

(** [needle] occurs in [text]. *)
Definition contains (needle text : string) : Prop :=
  ∃ before after, text = before +:+ needle +:+ after.

(** Every client call of a program satisfies [P], whatever the backend
    answers. *)
Fixpoint calls_in {A : Type} (P : ark_client → op → Prop) (p : prog A) : Prop :=
  match p with
  | Ret _ | Throw _ => True
  | Call c o k => P c o ∧ ∀ r, calls_in P (k r)
  | TimeTime k => ∀ t, calls_in P (k t)
  | Uuid4Hex k => ∀ u, calls_in P (k u)
  end.

(** The lines of a text that end with a newline, and what follows its last
    newline. *)
Fixpoint split_lines (text : string) : list string * string :=
  match text with
  | EmptyString => ([], EmptyString)
  | String c s =>
      let '(lines, rest) := split_lines s in
      if Ascii.eqb c newline_char then (EmptyString :: lines, rest)
      else
        match lines with
        | [] => ([], String c rest)
        | line :: lines' => (String c line :: lines', rest)
        end
  end.

Definition complete_lines (text : string) : list string := (split_lines text).1.
Definition partial_line (text : string) : string := (split_lines text).2.

(** The lines of a body: the complete ones, and the last one when the body
    does not end with a newline. *)
Definition body_lines (text : string) : list string :=
  complete_lines text
  ++ (if str_truthy (partial_line text) then [partial_line text] else []).

(** The last character of a text is a newline. *)
Fixpoint ends_with_newline (text : string) : bool :=
  match text with
  | EmptyString => false
  | String c EmptyString => Ascii.eqb c newline_char
  | String _ s => ends_with_newline s
  end.

(** The handlers' own reading of a resource: of an annotation, of the
    address, and of the memory a query names. *)
Definition read_annotation (resource_dict : value) (key : string) : result value :=
  metadata ← py_get resource_dict "metadata" (VDict ∅);
  annotations ← py_get metadata "annotations" (VDict ∅);
  py_get annotations key VNone.

Definition read_address (memory_dict : value) : result value :=
  status ← py_get memory_dict "status" (VDict ∅);
  py_get status "lastResolvedAddress" VNone.

Definition read_memory_name (query_dict : value) : result value :=
  spec ← py_get query_dict "spec" (VDict ∅);
  memory_spec ← py_get spec "memory" VNone;
  resolve_memory_name memory_spec.

(** A resolved address: one that is there and is not empty. *)
Definition resolved_address (memory_dict : value) : option value :=
  match address_of memory_dict with
  | Some base_url => if py_truthy base_url then Some base_url else None
  | None => None
  end.

Definition read_session `{PyRepr} (query_dict : value) : result value :=
  spec ← py_get query_dict "spec" (VDict ∅);
  session ← py_get spec "sessionId" VNone;
  if py_truthy session then Ok session
  else
    metadata ← py_get query_dict "metadata" (VDict ∅);
    uid ← py_get metadata "uid" (VStr "");
    Ok (VStr (py_str uid)).

(** *** The entries of the models listing *)

Section models_spec.
Context `{PyRepr} `{TimeLib}.

(** The creation time a resource's metadata gives, when it gives one. *)
Definition timestamp_of (metadata : value) : option value :=
  match dict_field metadata "creationTimestamp" with
  | Some v => if py_truthy v then Some v else None
  | None => None
  end.

(** [int(time.mktime(time.strptime(s, TIMESTAMP_FORMAT)))]. *)
Definition parse_time (v : value) : result Z :=
  match v with
  | VStr s => t ← strptime s TIMESTAMP_FORMAT; mktime t
  | _ => Raise (TypeError ("strptime() argument 0 must be str, not <class '"
                           +:+ type_name v +:+ "'>"))
  end.

(** An item of a listing that [list_models] can turn into an entry: its
    metadata is a dictionary with a name, and its creation time, when it has
    one, parses. *)
Definition convertible (item : resource) : bool :=
  match metadata item with
  | VDict d =>
      match d !! "name", timestamp_of (metadata item) with
      | Some _, Some v => match parse_time v with Ok _ => true | Raise _ => false end
      | Some _, None => true
      | None, _ => false
      end
  | _ => false
  end.

(** [entry] is the entry of [item] under the prefix of its kind. *)
Definition entry_of (prefix : string) (item : resource) (entry : Model) : Prop :=
  (∃ name, dict_field (metadata item) "name" = Some name
           ∧ id entry = prefix +:+ py_str name)
  ∧ object entry = "model"
  ∧ owned_by entry = "ark"
  ∧ (∀ v, timestamp_of (metadata item) = Some v → parse_time v = Ok (created entry)).

(** The items of a listing that [list_models] turns into entries: those
    before the first item that cannot be converted, all of them when there
    is no such item. *)
Fixpoint converted_items (items : list resource) : list resource :=
  match items with
  | [] => []
  | item :: rest => if convertible item then item :: converted_items rest else []
  end.

(** What one kind contributes: nothing when its listing call fails, and
    otherwise one entry for each of its items before the first item that
    cannot be converted, in the order of the listing. *)
Definition kind_entries (prefix : string) (listing : result (list resource))
    (entries : list Model) : Prop :=
  match listing with
  | Raise _ => entries = []
  | Ok items => Forall2 (entry_of prefix) (converted_items items) entries
  end.
End models_spec.

Arguments annotation_of : simpl never.
Arguments address_of : simpl never.
Arguments memory_ref : simpl never.
Arguments session_of : simpl never.

(** ** A server to run the handlers on *)

(** The instances below give the examples something to run on: a
    formatter for scalars, the [time] module of a server in UTC, a backend
    that answers from a fixed table, and upstreams of the relays. *)

(** [str(v)] for the scalars; the examples format no list or dict. *)
Definition scalar_repr : PyRepr := λ v,
  match v with
  | VNone => "None"
  | VBool true => "True"
  | VBool false => "False"
  | VInt z => pretty z
  | VStr s => s
  | VList _ => "[...]"
  | VDict _ => "{...}"
  end.

Record tm : Type := {
  tm_year : Z; tm_mon : Z; tm_mday : Z;
  tm_hour : Z; tm_min : Z; tm_sec : Z;
}.

Definition digit (c : ascii) : option Z :=
  let n := nat_of_ascii c in
  if ((48 <=? n)%nat && (n <=? 57)%nat)%bool then Some (Z.of_nat n - 48) else None.

(** A directive of one or two digits, as the patterns of [_strptime] read
    it before a separator: two digits whose number is in [lo2..hi], or one
    digit in [lo1..9]. *)
Definition read_field (lo2 hi lo1 : Z) (s : string) : option (Z * string) :=
  match s with
  | String a rest =>
      match digit a with
      | Some x =>
          match rest with
          | String b rest' =>
              match digit b with
              | Some y =>
                  let n := 10 * x + y in
                  if ((lo2 <=? n) && (n <=? hi))%bool then Some (n, rest') else None
              | None => if lo1 <=? x then Some (x, rest) else None
              end
          | EmptyString => if lo1 <=? x then Some (x, rest) else None
          end
      | None => None
      end
  | EmptyString => None
  end.

(** [%Y]: four digits. *)
Definition read_year (s : string) : option (Z * string) :=
  match s with
  | String a (String b (String c (String d rest))) =>
      match digit a, digit b, digit c, digit d with
      | Some x, Some y, Some z, Some t => Some (1000 * x + 100 * y + 10 * z + t, rest)
      | _, _, _, _ => None
      end
  | _ => None
  end.

(** [%d] also takes a space before a single digit. *)
Definition read_day (s : string) : option (Z * string) :=
  match s with
  | String " " (String b rest) =>
      match digit b with
      | Some y => if 1 <=? y then Some (y, rest) else None
      | None => None
      end
  | _ => read_field 1 31 1 s
  end.

(** A literal of the format; the match ignores case. *)
Definition read_literal (upper lower : ascii) (s : string) : option string :=
  match s with
  | String c rest =>
      if (Ascii.eqb c upper || Ascii.eqb c lower)%bool then Some rest else None
  | EmptyString => None
  end.

Definition is_leap (y : Z) : bool :=
  ((y mod 4 =? 0) && (negb (y mod 100 =? 0) || (y mod 400 =? 0)))%bool.

Definition days_in_month (y m : Z) : Z :=
  if m =? 2 then (if is_leap y then 29 else 28)
  else if ((m =? 4) || (m =? 6) || (m =? 9) || (m =? 11))%bool then 30 else 31.

Definition parse_iso (s : string) : option tm :=
  '(year, s) ← read_year s;
  s ← read_literal "-" "-" s;
  '(mon, s) ← read_field 1 12 1 s;
  s ← read_literal "-" "-" s;
  '(mday, s) ← read_day s;
  s ← read_literal "T" "t" s;
  '(hour, s) ← read_field 0 23 0 s;
  s ← read_literal ":" ":" s;
  '(min, s) ← read_field 0 59 0 s;
  s ← read_literal ":" ":" s;
  '(sec, s) ← read_field 0 61 0 s;
  s ← read_literal "Z" "z" s;
  match s with
  | EmptyString =>
      if ((1 <=? year) && (mday <=? days_in_month year mon))%bool
      then Some {| tm_year := year; tm_mon := mon; tm_mday := mday;
                   tm_hour := hour; tm_min := min; tm_sec := sec |}
      else None
  | String _ _ => None
  end.

(** Days from 1970-01-01 to a date of the proleptic Gregorian calendar. *)
Definition days_from_civil (y m d : Z) : Z :=
  let y := if m <=? 2 then y - 1 else y in
  let era := y / 400 in
  let yoe := y - era * 400 in
  let doy := (153 * (if 2 <? m then m - 3 else m + 9) + 2) / 5 + d - 1 in
  let doe := yoe * 365 + yoe / 4 - yoe / 100 + doy in
  era * 146097 + doe - 719468.

(** [time.strptime] on [TIMESTAMP_FORMAT] (the one format the handlers use)
    and [time.mktime] on a server whose local time is UTC. *)
Definition utc_time : TimeLib := {|
  struct_time := tm;
  strptime := λ s fmt,
    if String.eqb fmt TIMESTAMP_FORMAT
    then
      match parse_iso s with
      | Some t => Ok t
      | None => Raise (ValueError ("time data '" +:+ s +:+ "' does not match format '"
                                   +:+ fmt +:+ "'"))
      end
    else Raise (OtherError "NotImplementedError" fmt);
  mktime := λ t,
    Ok (days_from_civil (tm_year t) (tm_mon t) (tm_mday t) * 86400
        + tm_hour t * 3600 + tm_min t * 60 + tm_sec t);
|}.

(** The answers of a backend that does not change. *)
Record fixture : Type := {
  fx_query : string → result resource;
  fx_memory : value → result resource;
  fx_agents : result (list resource);
  fx_teams : result (list resource);
  fx_models : result (list resource);
  fx_tools : result (list resource);
  fx_now : Z;
  fx_hex : string;
}.

Definition fixed_backend (fx : fixture) : backend unit := {|
  serve := λ c o w,
    (match o return result (resp o) with
     | queries_a_create body =>
         Ok {| metadata := VDict (query_metadata body);
               to_dict := Ok (VDict (<["metadata" := VDict (query_metadata body)]> ∅)) |}
     | queries_a_get name => fx_query fx name
     | memories_a_get name => fx_memory fx name
     | agents_a_list => fx_agents fx
     | teams_a_list => fx_teams fx
     | models_a_list => fx_models fx
     | tools_a_list => fx_tools fx
     end, w);
  clock := λ w, (fx_now fx, w);
  uuid4 := λ w, (fx_hex fx, w);
|}.

(** A resource with the given dictionary. *)
Definition resource_of (d : gmap string value) : resource :=
  {| metadata := default (VDict ∅) (d !! "metadata"); to_dict := Ok (VDict d) |}.

Definition not_found (kind : string) : exn :=
  OtherError "ApiException" ("(404) " +:+ kind +:+ " not found").

(** An upstream that answers 200 and delivers [lines] to [aiter_lines()]
    and [chunks] to [aiter_text()]. *)
Definition upstream_of (lines chunks : list string) : HttpClient := λ _ _,
  Connected {| status_code := 200;
               aiter_lines := {| items := lines; failure := None |};
               aiter_text := {| items := chunks; failure := None |} |}.

(** An upstream that answers with another status. *)
Definition upstream_status (status : Z) : HttpClient := λ _ _,
  Connected {| status_code := status;
               aiter_lines := {| items := []; failure := None |};
               aiter_text := {| items := []; failure := None |} |}.

(** A text cut at its first slash. *)
Fixpoint split_first_slash (s : string) : option (string * string) :=
  match s with
  | EmptyString => None
  | String c s' =>
      if Ascii.eqb c "/"%char then Some (EmptyString, s')
      else match split_first_slash s' with
           | Some (kind, name) => Some (String c kind, name)
           | None => None
           end
  end.

(** Modelled from the spec: [parse_model_to_query_target] of
    [utils/query_targets.py], which is not among the sources.  Section 4.1:
    the identifier is [<kind>/<name>], split at the first separator, the
    name kept as it is; a kind that is not one of the four is an error. *)
Definition parse_target (model : string) : result query_target :=
  match split_first_slash model with
  | Some (kind, name) =>
      if bool_decide (kind ∈ ["agent"; "team"; "model"; "tool"])
      then Ok (QueryTarget kind name)
      else Raise (ValueError ("Invalid target: " +:+ model))
  | None => Raise (ValueError ("Invalid target: " +:+ model))
  end.

(** Modelled from the spec: [poll_query_completion] of
    [utils/query_polling.py], which is not among the sources.  Section 4.3:
    fetch the job; when its status is terminal, translate it, a failed or
    canceled job into an error; otherwise fetch it again, within a bound. *)
Fixpoint poll_for (attempts : nat) (ark_client : ark_client)
    (query_name model input_text : string) : prog value :=
  match attempts with
  | O => Throw (HTTPException 504 "Query did not complete in time")
  | S attempts' =>
      query ← await ark_client (queries_a_get query_name);
      query_dict ← lift (to_dict query);
      status ← lift (py_get query_dict "status" (VDict ∅));
      phase ← lift (py_get status "phase" VNone);
      if py_eq_str phase "Done" then mret status
      else if (py_eq_str phase "Error" || py_eq_str phase "Canceled")%bool
      then Throw (HTTPException 500 ("Query " +:+ query_name +:+ " failed"))
      else poll_for attempts' ark_client query_name model input_text
  end.

Definition sample_utils : Utils := {|
  ChatCompletion := value;
  parse_model_to_query_target := parse_target;
  poll_query_completion := poll_for 3;
  STREAMING_ENABLED_ANNOTATION := "ark.mckinsey.com/streaming-enabled";
|}.

(** A memory that streams, one that has an address but does not say it
    streams, and one whose address is not resolved. *)
Definition streaming_memory : gmap string value :=
  <["status" := VDict (<["lastResolvedAddress" := VStr "https://mem.example"]> ∅)]>
  (<["metadata" := VDict
       (<["annotations" := VDict
            (<["ark.mckinsey.com/memory-event-stream-enabled" := VStr "true"]> ∅)]>
          (<["name" := VStr "events"]> ∅))]> ∅).

Definition plain_memory : gmap string value :=
  <["status" := VDict (<["lastResolvedAddress" := VStr "http://memory:8080"]> ∅)]>
  (<["metadata" := VDict (<["name" := VStr "default"]> ∅)]> ∅).

Definition unresolved_memory : gmap string value :=
  <["metadata" := VDict (<["name" := VStr "cold"]> ∅)]> ∅.

(** A query with the given name, streaming annotation and memory. *)
Definition query_dict_of (name : string) (streaming : option string)
    (memory : option string) : gmap string value :=
  <["spec" := VDict
      (match memory with
       | Some m => <["memory" := VDict (<["name" := VStr m]> ∅)]>
       | None => λ spec, spec
       end (<["input" := VStr "user: hello"]> ∅))]>
  (<["metadata" := VDict
       (match streaming with
        | Some flag =>
            <["annotations" := VDict
                (<["ark.mckinsey.com/streaming-enabled" := VStr flag]> ∅)]>
        | None => λ metadata, metadata
        end (<["uid" := VStr "7f3a"]> (<["name" := VStr name]> ∅)))]> ∅).

(** An agent of the listing, with or without a creation time. *)
Definition listed (name : string) (created : option string) : resource :=
  {| metadata := VDict
       (match created with
        | Some ts => <["creationTimestamp" := VStr ts]>
        | None => λ metadata, metadata
        end (<["name" := VStr name]> ∅));
     to_dict := Ok (VDict ∅) |}.

Definition sample_fixture : fixture := {|
  fx_query := λ name,
    if String.eqb name "q-stream"
    then Ok (resource_of (query_dict_of name (Some "true") (Some "events")))
    else if String.eqb name "q-raw"
    then Ok (resource_of (query_dict_of name (Some "true") None))
    else if String.eqb name "q-cold"
    then Ok (resource_of (query_dict_of name (Some "true") (Some "cold")))
    else if String.eqb name "q-plain"
    then Ok (resource_of (query_dict_of name None None))
    else Raise (not_found "query");
  fx_memory := λ name,
    if py_eq_str name "events" then Ok (resource_of streaming_memory)
    else if py_eq_str name "default" then Ok (resource_of plain_memory)
    else if py_eq_str name "cold" then Ok (resource_of unresolved_memory)
    else Raise (not_found "memory");
  fx_agents := Ok [listed "planner" (Some "2024-01-15T10:30:00Z"); listed "coder" None];
  fx_teams := Raise (OtherError "ApiException" "(503) teams unavailable");
  fx_models := Ok [listed "gpt" None];
  fx_tools := Ok [];
  fx_now := 1700000000;
  fx_hex := "0123456789abcdef0123456789abcdef";
|}.

(** The client of the OpenAI endpoints. *)
Definition default_client : ark_client := ArkClient "default" "v1alpha1".

(** The text a chat request is flattened to. *)
Definition input_text_of (request : ChatCompletionRequest) : string :=
  join NL (map (λ msg, role msg +:+ ": " +:+ content msg) (messages request)).

(** A streaming chat request. *)
Definition hello_request : ChatCompletionRequest := {|
  model := "agent/planner";
  messages := [{| role := "user"; content := "hello" |}];
  temperature := S754_zero false;
  max_tokens := None;
  stream := true;
|}.

(** A line that is not empty, blank or not. *)
Definition non_empty (line : string) : bool := str_truthy line.

(** ** queries.py, the conversions and the other routes *)

(** [key in v] for a string [key]: a key of a [dict], an element of a
    [list], a part of a [str]. *)
Definition py_in (key : string) (v : value) : result bool :=
  match v with
  | VDict d => Ok (bool_decide (is_Some (d !! key)))
  | VList l => Ok (existsb (λ x, py_eq_str x key) l)
  | VStr s => Ok (match String.index 0 key s with Some _ => true | None => false end)
  | _ => Raise (TypeError ("argument of type '" +:+ type_name v
                           +:+ "' is not iterable"))
  end.

(** [s.replace(old, new)] for an [old] of one character. *)
Fixpoint replace_char (old : ascii) (new s : string) : string :=
  match s with
  | EmptyString => EmptyString
  | String c s' =>
      if Ascii.eqb c old then new +:+ replace_char old new s'
      else String c (replace_char old new s')
  end.

(** [v.replace(old, new)]: only a [str] has the method. *)
Definition py_replace (v : value) (old : ascii) (new : string) : result string :=
  match v with
  | VStr s => Ok (replace_char old new s)
  | _ => Raise (AttributeError
                  ("'" +:+ type_name v +:+ "' object has no attribute 'replace'"))
  end.

(** [a or b]. *)
Definition py_or (a b : value) : value := if py_truthy a then a else b.

(** [datetime.fromisoformat]. *)
Class DateTimeLib := {
  datetime : Type;
  fromisoformat : string -> result datetime;
}.

Section conversions.
Context `{PyRepr} `{DateTimeLib}.

(** Modelled from the spec: the response models of [models/queries.py],
    which is not among the sources.  Section 3: a query's response is a
    pure projection of the resource, so a response holds the arguments it
    is built from. *)
Record QueryResponse : Type := {
  response_name : value;
  response_namespace : value;
  response_input : value;
  response_memory : value;
  response_sessionId : value;
  response_status : value;
  response_creationTimestamp : option datetime;
}.

Record StreamingInfo : Type := {
  info_enabled : bool;
  info_url : string;
  info_sessionId : value;
}.

Record QueryDetailResponse : Type := {
  detail_name : value;
  detail_namespace : value;
  detail_input : value;
  detail_memory : value;
  detail_parameters : value;
  detail_selector : value;
  detail_serviceAccount : value;
  detail_sessionId : value;
  detail_streaming : option StreamingInfo;
  detail_targets : value;
  detail_timeout : value;
  detail_ttl : value;
  detail_cancel : value;
  detail_evaluators : value;
  detail_evaluatorSelector : value;
  detail_status : value;
}.

Record QueryListResponse : Type := {
  list_items : list QueryResponse;
  list_count : nat;
}.

Definition query_to_response (query : value) : result QueryResponse :=
  metadata ← py_getitem query "metadata";
  present ← py_in "creationTimestamp" metadata;
  creation_timestamp ←
    (if present : bool
     then
       metadata ← py_getitem query "metadata";
       timestamp ← py_getitem metadata "creationTimestamp";
       text ← py_replace timestamp "Z" "+00:00";
       parsed ← fromisoformat text;
       mret (Some parsed)
     else mret None);
  metadata ← py_getitem query "metadata";
  name ← py_getitem metadata "name";
  metadata ← py_getitem query "metadata";
  namespace ← py_getitem metadata "namespace";
  spec ← py_getitem query "spec";
  input ← py_getitem spec "input";
  spec ← py_getitem query "spec";
  memory ← py_get spec "memory" VNone;
  spec ← py_getitem query "spec";
  sessionId ← py_get spec "sessionId" VNone;
  status ← py_get query "status" VNone;
  mret {| response_name := name;
          response_namespace := namespace;
          response_input := input;
          response_memory := memory;
          response_sessionId := sessionId;
          response_status := status;
          response_creationTimestamp := creation_timestamp |}.

Definition query_to_detail_response (query : value) : result QueryDetailResponse :=
  spec ← py_getitem query "spec";
  metadata ← py_getitem query "metadata";
  annotations ← py_get metadata "annotations" (VDict ∅);
  annotation ← py_get annotations "ark.mckinsey.com/streaming-enabled" VNone;
  streaming_info ←
    (if py_eq_str annotation "true"
     then
       session ← py_get spec "sessionId" VNone;
       session_id ←
         (if py_truthy session then mret session
          else
            uid ← py_get metadata "uid" (VStr "");
            mret (VStr (py_str uid)));
       namespace ← py_getitem metadata "namespace";
       name ← py_getitem metadata "name";
       mret (Some {| info_enabled := true;
                     info_url := "/api/v1/namespaces/" +:+ py_str namespace
                                 +:+ "/queries/" +:+ py_str name +:+ "/stream";
                     info_sessionId := session_id |})
     else mret None);
  name ← py_getitem metadata "name";
  namespace ← py_getitem metadata "namespace";
  input ← py_getitem spec "input";
  memory ← py_get spec "memory" VNone;
  parameters ← py_get spec "parameters" VNone;
  selector ← py_get spec "selector" VNone;
  serviceAccount ← py_get spec "serviceAccount" VNone;
  sessionId ← py_get spec "sessionId" VNone;
  targets ← py_get spec "targets" VNone;
  timeout ← py_get spec "timeout" VNone;
  ttl ← py_get spec "ttl" VNone;
  cancel ← py_get spec "cancel" VNone;
  evaluators ← py_get spec "evaluators" VNone;
  evaluatorSelector ← py_get spec "evaluatorSelector" VNone;
  status ← py_get query "status" VNone;
  mret {| detail_name := name;
          detail_namespace := namespace;
          detail_input := input;
          detail_memory := memory;
          detail_parameters := parameters;
          detail_selector := selector;
          detail_serviceAccount := serviceAccount;
          detail_sessionId := sessionId;
          detail_streaming := streaming_info;
          detail_targets := targets;
          detail_timeout := timeout;
          detail_ttl := ttl;
          detail_cancel := cancel;
          detail_evaluators := evaluators;
          detail_evaluatorSelector := evaluatorSelector;
          detail_status := status |}.

Definition get_query (namespace query_name : string) : prog QueryDetailResponse :=
  handle_k8s_errors "get" "query"
    (with_ark_client namespace VERSION (fun ark_client =>
       result ← await ark_client (queries_a_get query_name);
       query_dict ← lift (to_dict result);
       lift (query_to_detail_response query_dict))).
End conversions.

(** ** queries.py, the routes that list and change queries *)

(** [v[key] = x] for a string key: the container afterwards. *)
Definition py_setitem (v : value) (key : string) (x : value) : result value :=
  match v with
  | VDict d => Ok (VDict (<[key := x]> d))
  | VList _ => Raise (TypeError "list indices must be integers or slices, not str")
  | _ => Raise (TypeError ("'" +:+ type_name v
                           +:+ "' object does not support item assignment"))
  end.

(** [v is not None]. *)
Definition is_not_None (v : value) : bool :=
  match v with VNone => false | _ => true end.

(** The calls of the resource client these routes make: those of the
    handlers above, and five more of [ark_client.queries].  The creation is
    recorded with the metadata and the spec its object is built from, and
    stands for building the object and making the call; the update is
    handed the object that the route has built before. *)
Inductive query_op : Type :=
| reading (o : op)
| queries_a_list
| queries_a_create_from (metadata spec : gmap string value)
| queries_a_update (body : resource)
| queries_a_patch (name : string) (patch : value)
| queries_a_delete (name : string).

Definition query_resp (o : query_op) : Type :=
  match o with
  | reading o => resp o
  | queries_a_list => list resource
  | queries_a_create_from _ _ | queries_a_update _ | queries_a_patch _ _ => resource
  | queries_a_delete _ => unit
  end.

(** A route: it returns or raises, or awaits a call and goes on with what
    the call gave. *)
Inductive route (A : Type) : Type :=
| Return (a : A)
| Raised (e : exn)
| Await (c : ark_client) (o : query_op) (k : result (query_resp o) -> route A).
Arguments Return {A} a.
Arguments Raised {A} e.
Arguments Await {A} c o k.

Fixpoint route_bind {A B : Type} (f : A -> route B) (p : route A) : route B :=
  match p with
  | Return a => f a
  | Raised e => Raised e
  | Await c o k => Await c o (fun r => route_bind f (k r))
  end.

#[export] Instance route_ret : MRet route := fun A a => Return a.
#[export] Instance route_mbind : MBind route := fun A B f p => route_bind f p.

(** An expression evaluated inside a route. *)
Definition evaluate {A : Type} (r : result A) : route A :=
  match r with
  | Ok a => Return a
  | Raise e => Raised e
  end.

(** [await ark_client.queries.<call>]. *)
Definition awaiting (c : ark_client) (o : query_op) : route (query_resp o) :=
  Await c o evaluate.

(** Modelled from the spec: the decorator [handle_k8s_errors] on these
    routes, as [handle_k8s_errors] above. *)
Fixpoint route_handle_k8s_errors {A : Type} (operation resource_type : string)
    (handler : route A) : route A :=
  match handler with
  | Return a => Return a
  | Raised e =>
      if is_HTTPException e then Raised e
      else Raised (HTTPException 500 (exn_str e))
  | Await c o k =>
      Await c o (fun r => route_handle_k8s_errors operation resource_type (k r))
  end.

(** A call a route made, and the run of a route against a server. *)
Record query_event : Type := QueryEvent {
  qev_client : ark_client;
  qev_op : query_op;
  qev_response : result (query_resp qev_op);
}.

Record query_backend (world : Type) : Type := {
  query_serve : ark_client -> forall o : query_op, world -> result (query_resp o) * world;
}.
Arguments query_serve {world} _ _ _ _.

Record route_outcome (world A : Type) : Type := RouteOutcome {
  calls : list query_event;
  left_in : world;
  answered : result A;
}.
Arguments RouteOutcome {world A} _ _ _.
Arguments calls {world A} _.
Arguments left_in {world A} _.
Arguments answered {world A} _.

Fixpoint route_run {world A : Type} (b : query_backend world) (p : route A) (w : world)
    : route_outcome world A :=
  match p with
  | Return a => RouteOutcome [] w (Ok a)
  | Raised e => RouteOutcome [] w (Raise e)
  | Await c o k =>
      let '(r, w') := query_serve b c o w in
      let o' := route_run b (k r) w' in
      RouteOutcome (QueryEvent c o r :: calls o') (left_in o') (answered o')
  end.

(** The request models of [models/queries.py], which is not among the
    sources, are parameters.  A request gives the attributes the routes
    read: a text or a flag as a value, [None] when it is not given; a
    nested model as its [model_dump()], a list of models as the list of
    theirs, and no value when it is not given.  A model that is given
    counts as true. *)
Class QueryRequests := {
  QueryCreateRequest : Type;
  create_name : QueryCreateRequest -> value;
  create_input : QueryCreateRequest -> value;
  create_memory : QueryCreateRequest -> option value;
  create_parameters : QueryCreateRequest -> option (list value);
  create_selector : QueryCreateRequest -> option value;
  create_serviceAccount : QueryCreateRequest -> value;
  create_sessionId : QueryCreateRequest -> value;
  create_targets : QueryCreateRequest -> option (list value);
  create_timeout : QueryCreateRequest -> value;
  create_ttl : QueryCreateRequest -> value;
  create_cancel : QueryCreateRequest -> value;
  create_evaluators : QueryCreateRequest -> option (list value);
  create_evaluatorSelector : QueryCreateRequest -> option value;
  create_streaming : QueryCreateRequest -> value;
  QueryUpdateRequest : Type;
  update_input : QueryUpdateRequest -> value;
  update_memory : QueryUpdateRequest -> option value;
  update_parameters : QueryUpdateRequest -> option (list value);
  update_selector : QueryUpdateRequest -> option value;
  update_serviceAccount : QueryUpdateRequest -> value;
  update_sessionId : QueryUpdateRequest -> value;
  update_targets : QueryUpdateRequest -> option (list value);
  update_timeout : QueryUpdateRequest -> value;
  update_ttl : QueryUpdateRequest -> value;
  update_cancel : QueryUpdateRequest -> value;
  update_evaluators : QueryUpdateRequest -> option (list value);
  update_evaluatorSelector : QueryUpdateRequest -> option value;
}.

(** [if models: spec[key] = [m.model_dump() for m in models]]. *)
Definition with_models (key : string) (models : option (list value))
    (spec : gmap string value) : gmap string value :=
  match models with
  | Some (m :: ms) => <[key := VList (m :: ms)]> spec
  | _ => spec
  end.

(** [if model: spec[key] = model.model_dump()]. *)
Definition with_model (key : string) (model : option value)
    (spec : gmap string value) : gmap string value :=
  match model with
  | Some dump => <[key := dump]> spec
  | None => spec
  end.

(** [if x: spec[key] = x], and [if x is not None: spec[key] = x]. *)
Definition with_true (key : string) (x : value) (spec : gmap string value)
    : gmap string value :=
  if py_truthy x then <[key := x]> spec else spec.

Definition with_given (key : string) (x : value) (spec : gmap string value)
    : gmap string value :=
  if is_not_None x then <[key := x]> spec else spec.

(** The same on the spec of a fetched query, which need not be a [dict]:
    [if x is not None: spec[key] = x]. *)
Definition set_given (key : string) (x : option value) (spec : value) : result value :=
  match x with
  | Some x => py_setitem spec key x
  | None => Ok spec
  end.

(** The value an attribute of an update stores, if it is given. *)
Definition given (x : value) : option value :=
  if is_not_None x then Some x else None.

Definition given_models (models : option (list value)) : option value :=
  VList <$> models.

(** What an update asks for under a key of the spec, if anything. *)
Definition requested `{QueryRequests} (query : QueryUpdateRequest) (key : string)
    : option value :=
  if String.eqb key "input" then given (update_input query)
  else if String.eqb key "memory" then update_memory query
  else if String.eqb key "parameters" then given_models (update_parameters query)
  else if String.eqb key "selector" then update_selector query
  else if String.eqb key "serviceAccount" then given (update_serviceAccount query)
  else if String.eqb key "sessionId" then given (update_sessionId query)
  else if String.eqb key "targets" then given_models (update_targets query)
  else if String.eqb key "timeout" then given (update_timeout query)
  else if String.eqb key "ttl" then given (update_ttl query)
  else if String.eqb key "cancel" then given (update_cancel query)
  else if String.eqb key "evaluators" then given_models (update_evaluators query)
  else if String.eqb key "evaluatorSelector" then update_evaluatorSelector query
  else None.

(** The model of a query of [ark_sdk], which is not among the sources, is
    a parameter: the constructor [QueryV1alpha1], called with a dictionary
    as its keyword arguments, checks them against the model, and gives the
    object, a resource as the client returns them, or raises. *)
Class QueryModels := {
  QueryV1alpha1_kwargs : value -> result resource;
}.

Section routes.
Context `{PyRepr} `{DateTimeLib} `{QueryRequests} `{QueryModels}.

Definition list_queries (namespace : string) : route QueryListResponse :=
  route_handle_k8s_errors "list" "query"
    (let ark_client := ArkClient namespace VERSION in
     result ← awaiting ark_client queries_a_list;
     queries ← evaluate
       (mapM (fun item : resource =>
                item_dict ← to_dict item; query_to_response item_dict) result);
     mret {| list_items := queries; list_count := length queries |}).

(** The spec and the metadata [create_query] builds from a request. *)
Definition create_spec (query : QueryCreateRequest) : gmap string value :=
  let spec : gmap string value := <["input" := create_input query]> ∅ in
  let spec := with_model "memory" (create_memory query) spec in
  let spec := with_models "parameters" (create_parameters query) spec in
  let spec := with_model "selector" (create_selector query) spec in
  let spec := with_true "serviceAccount" (create_serviceAccount query) spec in
  let spec := with_true "sessionId" (create_sessionId query) spec in
  let spec := with_models "targets" (create_targets query) spec in
  let spec := with_true "timeout" (create_timeout query) spec in
  let spec := with_true "ttl" (create_ttl query) spec in
  let spec := with_given "cancel" (create_cancel query) spec in
  let spec := with_models "evaluators" (create_evaluators query) spec in
  with_model "evaluatorSelector" (create_evaluatorSelector query) spec.

Definition create_metadata (namespace : string) (query : QueryCreateRequest)
    : gmap string value :=
  let metadata : gmap string value :=
    <["namespace" := VStr namespace]> (<["name" := create_name query]> ∅) in
  if py_truthy (create_streaming query)
  then <["annotations" :=
           VDict (<["ark.mckinsey.com/streaming-enabled" := VStr "true"]> ∅)]>
         metadata
  else metadata.

Definition create_query (namespace : string) (query : QueryCreateRequest)
    : route QueryDetailResponse :=
  route_handle_k8s_errors "create" "query"
    (let ark_client := ArkClient namespace VERSION in
     let spec := create_spec query in
     let metadata := create_metadata namespace query in
     created ← awaiting ark_client (queries_a_create_from metadata spec);
     created_dict ← evaluate (to_dict created);
     evaluate (query_to_detail_response created_dict)).

(** The statements of [update_query] on the spec of the fetched query:
    each attribute that is given is stored. *)
Definition update_spec (query : QueryUpdateRequest) (spec : value) : result value :=
  spec ← set_given "input" (given (update_input query)) spec;
  spec ← set_given "memory" (update_memory query) spec;
  spec ← set_given "parameters" (given_models (update_parameters query)) spec;
  spec ← set_given "selector" (update_selector query) spec;
  spec ← set_given "serviceAccount" (given (update_serviceAccount query)) spec;
  spec ← set_given "sessionId" (given (update_sessionId query)) spec;
  spec ← set_given "targets" (given_models (update_targets query)) spec;
  spec ← set_given "timeout" (given (update_timeout query)) spec;
  spec ← set_given "ttl" (given (update_ttl query)) spec;
  spec ← set_given "cancel" (given (update_cancel query)) spec;
  spec ← set_given "evaluators" (given_models (update_evaluators query)) spec;
  set_given "evaluatorSelector" (update_evaluatorSelector query) spec.

Definition update_query (namespace query_name : string) (query : QueryUpdateRequest)
    : route QueryDetailResponse :=
  route_handle_k8s_errors "update" "query"
    (let ark_client := ArkClient namespace VERSION in
     current ← awaiting ark_client (reading (queries_a_get query_name));
     current_dict ← evaluate (to_dict current);
     spec ← evaluate (py_getitem current_dict "spec");
     spec ← evaluate (update_spec query spec);
     current_dict ← evaluate (to_dict current);
     current_dict ← evaluate (py_setitem current_dict "spec" spec);
     updated_query_obj ← evaluate (QueryV1alpha1_kwargs current_dict);
     updated ← awaiting ark_client (queries_a_update updated_query_obj);
     updated_dict ← evaluate (to_dict updated);
     evaluate (query_to_detail_response updated_dict)).

Definition cancel_query (namespace query_name : string) : route QueryDetailResponse :=
  route_handle_k8s_errors "update" "query"
    (let ark_client := ArkClient namespace VERSION in
     let patch := VDict (<["spec" := VDict (<["cancel" := VBool true]> ∅)]> ∅) in
     updated ← awaiting ark_client (queries_a_patch query_name patch);
     updated_dict ← evaluate (to_dict updated);
     evaluate (query_to_detail_response updated_dict)).

Definition delete_query (namespace query_name : string) : route unit :=
  route_handle_k8s_errors "delete" "query"
    (let ark_client := ArkClient namespace VERSION in
     _ ← awaiting ark_client (queries_a_delete query_name);
     mret tt).
End routes.

(** ** reverse_tool.py *)

(** [message[::-1]]: the characters of the message, the last one first. *)
Fixpoint reverse_message (message : string) : string :=
  match message with
  | EmptyString => EmptyString
  | String c rest => reverse_message rest +:+ String c EmptyString
  end.

(** ** discover_tools.py *)

(** The syntax trees of Python's [ast] module, as far as the discoverer
    reads them.  A [Constant] holds a value that the discoverer stores and
    never looks into.  Of an expression of another class the discoverer
    reads nothing; it may hand it to [ast.unparse], so [OtherExpr] stands
    for it by its text in the source.  The discoverer has methods for three
    kinds of statement only, and no expression holds a statement: an
    expression statement, which is what a docstring is, is kept with its
    expression, and of every other node only the statements below it matter,
    in the order [generic_visit] reaches them: [Other] stands for such a
    node, a class, a loop, a [return], an [async def], the module itself. *)
Module ast.
Section ast.
Context {constant : Type}.

Inductive expr : Type :=
| Name (id : string)
| Constant (value : constant)
| Call (func : expr) (args : list expr) (keywords : list (option string * expr))
| Attribute (value : expr) (attr : string)
| OtherExpr (source : string).

Record arg : Type := {
  arg_name : string;
  annotation : option expr;
}.

Record alias : Type := {
  name : string;
  asname : option string;
}.

Inductive stmt : Type :=
| ImportFrom (module : option string) (names : list alias)
| Assign (targets : list expr) (value : expr)
| FunctionDef (name : string) (args : list arg) (body : list stmt)
    (decorator_list : list expr) (returns : option expr)
    (* [args] is [node.args.args] *)
| Expr (value : expr)
| Other (children : list stmt).
End ast.
Arguments expr : clear implicits.
Arguments arg : clear implicits.
Arguments stmt : clear implicits.
End ast.

(** [ast.unparse], [ast.get_docstring] on the body of a function (the
    docstring is the constant of the expression statement the body starts
    with, when it is a text), [repr] of a constant, and whether this Python
    has [ast.unparse]. *)
Class AstLib (constant : Type) := {
  has_unparse : bool;
  unparse : ast.expr constant -> string;
  get_docstring : list (ast.stmt constant) -> option string;
  repr : constant -> string;
}.

Section discoverer.
Context {constant : Type} `{AstLib constant}.

(** What a tool's description holds under a key. *)
Inductive info_value : Type :=
| InfoNone
| InfoStr (s : string)
| InfoParameters (parameters : list (string * option string))
| InfoConstant (c : constant).

(** The description of a tool: a [dict]; the keyword of a decorator that is
    spelled [**x] has the key [None]. *)
Local Abbreviation tool_info := (gmap (option string) info_value).

(** The attributes of an [MCPToolDiscoverer]; [server_name] is set by the
    first assignment that gives one. *)
Record MCPToolDiscoverer : Type := {
  tools : list tool_info;
  mcp_var_name : option string;
  imports : gmap string string;
  server_name : option constant;
}.

Definition __init__ : MCPToolDiscoverer :=
  {| tools := []; mcp_var_name := None; imports := ∅; server_name := None |}.

Definition unparse_annotation (annotation : ast.expr constant) : string :=
  match annotation with
  | ast.Name id => id
  | ast.Constant value => repr value
  | _ => "Any"
  end.

(** [ast.unparse(x) if hasattr(ast, 'unparse') else self.unparse_annotation(x)]. *)
Definition unparsed (annotation : ast.expr constant) : string :=
  if has_unparse then unparse annotation else unparse_annotation annotation.

Definition extract_function_info (name : string) (args : list (ast.arg constant))
    (body : list (ast.stmt constant)) (returns : option (ast.expr constant))
    : tool_info :=
  let parameters :=
    map (fun arg => (ast.arg_name arg, unparsed <$> ast.annotation arg)) args in
  let return_type :=
    match returns with
    | Some annotation => InfoStr (unparsed annotation)
    | None => InfoNone
    end in
  <[Some "return_type" := return_type]>
    (<[Some "parameters" := InfoParameters parameters]>
       (<[Some "docstring" :=
            match get_docstring body with
            | Some doc => InfoStr doc
            | None => InfoNone
            end]>
          (<[Some "name" := InfoStr name]> ∅))).

Definition visit_ImportFrom (self : MCPToolDiscoverer) (module : option string)
    (names : list ast.alias) : MCPToolDiscoverer :=
  match module with
  | Some module =>
      if String.eqb module "fastmcp"
      then
        foldl (fun self alias =>
                 if String.eqb (ast.name alias) "FastMCP"
                 then
                   let bound :=
                     match ast.asname alias with
                     | Some asname => if str_truthy asname then asname else ast.name alias
                     | None => ast.name alias
                     end in
                   {| tools := tools self;
                      mcp_var_name := mcp_var_name self;
                      imports := <["FastMCP" := bound]> (imports self);
                      server_name := server_name self |}
                 else self)
          self names
      else self
  | None => self
  end.

(** [id in self.imports.values()]. *)
Definition imported (id : string) (imports : gmap string string) : bool :=
  existsb (String.eqb id) (map_to_list imports).*2.

Definition visit_Assign (self : MCPToolDiscoverer) (targets : list (ast.expr constant))
    (value : ast.expr constant) : MCPToolDiscoverer :=
  match targets with
  | [ast.Name var_name] =>
      match value with
      | ast.Call (ast.Name id) args _ =>
          if imported id (imports self)
          then
            {| tools := tools self;
               mcp_var_name := Some var_name;
               imports := imports self;
               server_name :=
                 match args with
                 | ast.Constant value :: _ => Some value
                 | _ => server_name self
                 end |}
          else self
      | _ => self
      end
  | _ => self
  end.

(** [x == self.mcp_var_name] for a string [x]. *)
Definition is_mcp_var (self : MCPToolDiscoverer) (id : string) : bool :=
  match mcp_var_name self with
  | Some var_name => String.eqb id var_name
  | None => false
  end.

(** One turn of the loop over the decorators: whether the decorator is
    [@mcp.tool] or [@mcp.tool(...)], and the configuration its constant
    keywords give. *)
Definition tool_decorator (self : MCPToolDiscoverer) (decorator : ast.expr constant)
    : option tool_info :=
  match decorator with
  | ast.Call (ast.Attribute (ast.Name id) attr) _ keywords =>
      if is_mcp_var self id && String.eqb attr "tool"
      then Some (foldl (fun tool_config keyword =>
                          match keyword.2 with
                          | ast.Constant value =>
                              <[keyword.1 := InfoConstant value]> tool_config
                          | _ => tool_config
                          end) (∅ : tool_info) keywords)
      else None
  | ast.Attribute (ast.Name id) attr =>
      if is_mcp_var self id && String.eqb attr "tool" then Some ∅ else None
  | _ => None
  end.

(** The loop of [visit_FunctionDef]: [tool_info.update(tool_config)] lets
    the configuration win. *)
Definition record_tools (self : MCPToolDiscoverer) (info : tool_info)
    (decorator_list : list (ast.expr constant)) : MCPToolDiscoverer :=
  foldl (fun self' decorator =>
           match tool_decorator self decorator with
           | Some tool_config =>
               {| tools := tools self' ++ [tool_config ∪ info];
                  mcp_var_name := mcp_var_name self';
                  imports := imports self';
                  server_name := server_name self' |}
           | None => self'
           end)
    self decorator_list.

(** [self.visit(node)]: the method for the node's class, and
    [generic_visit], which visits the statements below it. *)
Fixpoint visit (self : MCPToolDiscoverer) (node : ast.stmt constant)
    : MCPToolDiscoverer :=
  match node with
  | ast.ImportFrom module names => visit_ImportFrom self module names
  | ast.Assign targets value => visit_Assign self targets value
  | ast.FunctionDef name args body decorator_list returns =>
      let self :=
        record_tools self (extract_function_info name args body returns)
          decorator_list in
      foldl visit self body
  | ast.Expr _ => self
  | ast.Other children => foldl visit self children
  end.

(** A [from fastmcp import FastMCP] somewhere in the tree, and an
    assignment somewhere in the tree. *)
Fixpoint imports_FastMCP (node : ast.stmt constant) : bool :=
  match node with
  | ast.ImportFrom (Some module) names =>
      String.eqb module "fastmcp"
      && existsb (λ alias, String.eqb (ast.name alias) "FastMCP") names
  | ast.ImportFrom None _ | ast.Assign _ _ | ast.Expr _ => false
  | ast.FunctionDef _ _ body _ _ => existsb imports_FastMCP body
  | ast.Other children => existsb imports_FastMCP children
  end.

Fixpoint assigns (node : ast.stmt constant) : bool :=
  match node with
  | ast.ImportFrom _ _ | ast.Expr _ => false
  | ast.Assign _ _ => true
  | ast.FunctionDef _ _ body _ _ => existsb assigns body
  | ast.Other children => existsb assigns children
  end.

(** What [discover_tools_in_file] returns: the dictionary of a file that
    was read and parsed, or the one of a failure. *)
Inductive file_result : Type :=
| Discovered (file : string) (tools : list tool_info) (uses_fastmcp : bool)
    (mcp_instance : option string) (server_name : option constant)
| Failed (file : string) (error : string).

(** [file_result.get('tools', [])] and [file_result.get('uses_fastmcp')]. *)
Definition get_tools (file_result : file_result) : list tool_info :=
  match file_result with
  | Discovered _ tools _ _ _ => tools
  | Failed _ _ => []
  end.

Definition get_uses_fastmcp (file_result : file_result) : bool :=
  match file_result with
  | Discovered _ _ uses_fastmcp _ _ => uses_fastmcp
  | Failed _ _ => false
  end.

Definition get_file (file_result : file_result) : string :=
  match file_result with
  | Discovered file _ _ _ _ | Failed file _ => file
  end.

(** [isinstance(e, SyntaxError)], by the name of the class. *)
Definition is_SyntaxError (e : exn) : bool :=
  match e with
  | OtherError cls _ =>
      bool_decide (cls ∈ ["SyntaxError"; "IndentationError"; "TabError"])
  | _ => false
  end.

(** The files: reading and parsing one ([open], [read], [ast.parse], which
    give the body of the module or raise), [os.listdir], [os.path.isfile]
    and [os.path.join]. *)
Class FileSystem := {
  parse_file : string -> result (list (ast.stmt constant));
  listdir : string -> result (list string);
  isfile : string -> bool;
  path_join : string -> string -> string;
}.

Context `{FileSystem}.

Definition discover_tools_in_file (filepath : string) : file_result :=
  match parse_file filepath with
  | Ok tree =>
      let discoverer := visit __init__ (ast.Other tree) in
      Discovered filepath (tools discoverer)
        (match mcp_var_name discoverer with
         | Some var_name => str_truthy var_name
         | None => false
         end)
        (mcp_var_name discoverer) (server_name discoverer)
  | Raise e =>
      if is_SyntaxError e
      then Failed filepath ("Syntax error: " +:+ exn_str e)
      else Failed filepath (exn_str e)
  end.

(** [s.endswith(suffix)]. *)
Definition endswith (s suffix : string) : bool :=
  (String.length suffix <=? String.length s)%nat
  && String.eqb
       (String.substring (String.length s - String.length suffix)
          (String.length suffix) s)
       suffix.

Record directory_result : Type := {
  directory : string;
  files : list file_result;
  total_tools : nat;
  uses_fastmcp : bool;
}.

Definition discover_tools_in_directory (dirpath : string) : result directory_result :=
  let results :=
    {| directory := dirpath; files := []; total_tools := 0%nat;
       uses_fastmcp := false |} in
  listing ← listdir dirpath;
  mret
    (foldl (fun results file =>
              if endswith file ".py"
              then
                let filepath := path_join dirpath file in
                if isfile filepath
                then
                  let file_result := discover_tools_in_file filepath in
                  {| directory := directory results;
                     files := files results ++ [file_result];
                     total_tools :=
                       (total_tools results + length (get_tools file_result))%nat;
                     uses_fastmcp :=
                       if get_uses_fastmcp file_result then true
                       else uses_fastmcp results |}
                else results
              else results)
       results listing).
End discoverer.
Arguments MCPToolDiscoverer : clear implicits.
Arguments info_value : clear implicits.
Arguments file_result : clear implicits.
Arguments directory_result : clear implicits.

Abbreviation tool_info constant := (gmap (option string) (info_value constant)).


(** ** Further servers and requests *)

(** The exception a request boundary raises for [e]: an HTTP error as it
    is, anything else as a 500 that keeps its message. *)
Definition at_boundary (e : exn) : exn :=
  if is_HTTPException e then e else HTTPException 500 (exn_str e).

(** An upstream that cannot be reached. *)
Definition upstream_refusing (e : exn) : HttpClient := λ _ _, ConnectError e.

(** An upstream that answers 200, delivers [lines] or [chunks], and then
    breaks with [e]. *)
Definition upstream_breaking (lines chunks : list string) (e : exn) : HttpClient :=
  λ _ _,
  Connected {| status_code := 200;
               aiter_lines := {| items := lines; failure := Some e |};
               aiter_text := {| items := chunks; failure := Some e |} |}.

(** The sample server, on which the query of the chat endpoint is found,
    done, and attached to the memory that streams. *)
Definition chat_fixture : fixture := {|
  fx_query := λ name,
    if String.eqb name "openai-query-01234567"
    then Ok (resource_of
               (<["status" := VDict (<["phase" := VStr "Done"]> ∅)]>
                  (query_dict_of name (Some "true") (Some "events"))))
    else fx_query sample_fixture name;
  fx_memory := fx_memory sample_fixture;
  fx_agents := fx_agents sample_fixture;
  fx_teams := fx_teams sample_fixture;
  fx_models := fx_models sample_fixture;
  fx_tools := fx_tools sample_fixture;
  fx_now := fx_now sample_fixture;
  fx_hex := fx_hex sample_fixture;
|}.

(** The sample server when it lists three agents and the second has a
    creation time that does not parse. *)
Definition misdated_agents : list resource :=
  [listed "planner" (Some "2024-01-15T10:30:00Z");
   listed "draft" (Some "yesterday");
   listed "coder" None].

Definition misdated_fixture : fixture := {|
  fx_query := fx_query sample_fixture;
  fx_memory := fx_memory sample_fixture;
  fx_agents := Ok misdated_agents;
  fx_teams := fx_teams sample_fixture;
  fx_models := fx_models sample_fixture;
  fx_tools := fx_tools sample_fixture;
  fx_now := fx_now sample_fixture;
  fx_hex := fx_hex sample_fixture;
|}.

(** A server that refuses to create a query. *)
Definition rejecting_backend (fx : fixture) : backend unit := {|
  serve := λ c o w,
    match o return result (resp o) * unit with
    | queries_a_create body =>
        (Raise (OtherError "ApiException" "(409) query already exists"), w)
    | o => serve (fixed_backend fx) c o w
    end;
  clock := clock (fixed_backend fx);
  uuid4 := uuid4 (fixed_backend fx);
|}.

(** A chat request that does not ask for a stream, and one whose model
    names no kind. *)
Definition quiet_request : ChatCompletionRequest := {|
  model := "agent/planner";
  messages := [{| role := "system"; content := "be brief" |};
               {| role := "user"; content := "hello" |}];
  temperature := S754_zero false;
  max_tokens := None;
  stream := false;
|}.

Definition unnamed_request : ChatCompletionRequest := {|
  model := "planner";
  messages := [{| role := "user"; content := "hello" |}];
  temperature := S754_zero false;
  max_tokens := None;
  stream := true;
|}.

(** The query the chat endpoint creates on the sample server. *)
Definition created_query (streaming : bool) (input_text : string) : QueryV1alpha1 := {|
  query_metadata :=
    (if streaming
     then <["annotations" :=
              VDict (<["ark.mckinsey.com/streaming-enabled" := VStr "true"]> ∅)]>
     else λ metadata, metadata)
      (<["namespace" := VStr "default"]>
         (<["name" := VStr "openai-query-01234567"]> ∅));
  query_spec := {| spec_input := input_text;
                   spec_targets := [QueryTarget "agent" "planner"] |};
|}.

(** What the sample server answers when it has created [body]. *)
Definition created_resource (body : QueryV1alpha1) : resource :=
  {| metadata := VDict (query_metadata body);
     to_dict := Ok (VDict (<["metadata" := VDict (query_metadata body)]> ∅)) |}.

(** A [datetime] kept as its ISO text.  As Python does before 3.11,
    [fromisoformat] refuses a text with a [Z] in it. *)
Definition iso_text : DateTimeLib := {|
  datetime := string;
  fromisoformat := λ s,
    match String.index 0 "Z" s with
    | Some _ => Raise (ValueError ("Invalid isoformat string: '" +:+ s +:+ "'"))
    | None => Ok s
    end;
|}.

(** A query as the API server stores it, with or without the streaming
    annotation and a session. *)
Definition stored_metadata (name : string) (streaming : bool) : gmap string value :=
  (if streaming
   then <["annotations" :=
            VDict (<["ark.mckinsey.com/streaming-enabled" := VStr "true"]> ∅)]>
   else λ metadata, metadata)
    (<["creationTimestamp" := VStr "2024-01-15T10:30:00Z"]>
       (<["uid" := VStr "7f3a"]>
          (<["namespace" := VStr "default"]> (<["name" := VStr name]> ∅)))).

Definition stored_spec (session : option string) : gmap string value :=
  match session with
  | Some s => <["sessionId" := VStr s]>
  | None => λ spec, spec
  end (<["timeout" := VStr "5m"]> (<["input" := VStr "user: hello"]> ∅)).

Definition stored_query (name : string) (streaming : bool) (session : option string)
    : gmap string value :=
  <["status" := VDict (<["phase" := VStr "Done"]> ∅)]>
    (<["spec" := VDict (stored_spec session)]>
       (<["metadata" := VDict (stored_metadata name streaming)]> ∅)).

(** The sample server with two stored queries. *)
Definition stored_fixture : fixture := {|
  fx_query := λ name,
    if String.eqb name "q-live"
    then Ok (resource_of (stored_query name true (Some "s-1")))
    else if String.eqb name "q-done"
    then Ok (resource_of (stored_query name false None))
    else Raise (not_found "query");
  fx_memory := fx_memory sample_fixture;
  fx_agents := fx_agents sample_fixture;
  fx_teams := fx_teams sample_fixture;
  fx_models := fx_models sample_fixture;
  fx_tools := fx_tools sample_fixture;
  fx_now := fx_now sample_fixture;
  fx_hex := fx_hex sample_fixture;
|}.

(** A server for the routes that list and change queries: it lists the two
    stored queries, answers a creation with what was sent, an update with
    the resource it was given, and a patch with the query canceled. *)
Definition stored_backend : query_backend unit := {|
  query_serve := λ c o w,
    (match o return result (query_resp o) with
     | reading o => (serve (fixed_backend stored_fixture) c o w).1
     | queries_a_list =>
         Ok [resource_of (stored_query "q-live" true (Some "s-1"));
             resource_of (stored_query "q-done" false None)]
     | queries_a_create_from metadata spec =>
         Ok (resource_of (<["spec" := VDict spec]> (<["metadata" := VDict metadata]> ∅)))
     | queries_a_update body => Ok body
     | queries_a_patch name patch =>
         Ok (resource_of
               (<["spec" := VDict (<["cancel" := VBool true]> (stored_spec None))]>
                  (stored_query name false None)))
     | queries_a_delete name => Ok tt
     end, w);
|}.

(** A server that lists a query without a namespace among the others. *)
Definition broken_backend : query_backend unit := {|
  query_serve := λ c o w,
    match o return result (query_resp o) * unit with
    | queries_a_list =>
        (Ok [resource_of (stored_query "q-live" true (Some "s-1"));
             resource_of (query_dict_of "q-plain" None None)], w)
    | o => query_serve stored_backend c o w
    end;
|}.

(** The requests: one to create a streaming query, and one to change the
    input and the timeout of a query. *)
Definition sample_requests : QueryRequests := {|
  QueryCreateRequest := unit;
  create_name := λ _, VStr "q-new";
  create_input := λ _, VStr "user: hello";
  create_memory := λ _, Some (VDict (<["name" := VStr "events"]> ∅));
  create_parameters := λ _, Some [];
  create_selector := λ _, None;
  create_serviceAccount := λ _, VNone;
  create_sessionId := λ _, VStr "";
  create_targets := λ _,
    Some [VDict (<["name" := VStr "planner"]> (<["type" := VStr "agent"]> ∅))];
  create_timeout := λ _, VStr "5m";
  create_ttl := λ _, VNone;
  create_cancel := λ _, VBool false;
  create_evaluators := λ _, None;
  create_evaluatorSelector := λ _, None;
  create_streaming := λ _, VBool true;
  QueryUpdateRequest := unit;
  update_input := λ _, VStr "user: hello again";
  update_memory := λ _, None;
  update_parameters := λ _, None;
  update_selector := λ _, None;
  update_serviceAccount := λ _, VNone;
  update_sessionId := λ _, VNone;
  update_targets := λ _, None;
  update_timeout := λ _, VStr "";
  update_ttl := λ _, VNone;
  update_cancel := λ _, VNone;
  update_evaluators := λ _, None;
  update_evaluatorSelector := λ _, None;
|}.

(** Two models of a query: one takes any dictionary as the query it
    describes, and one refuses a query whose timeout is an empty text. *)
Definition lenient_models : QueryModels := {|
  QueryV1alpha1_kwargs := λ kwargs,
    match kwargs with
    | VDict d => Ok (resource_of d)
    | _ => Raise (TypeError "argument after ** must be a mapping")
    end;
|}.

Definition strict_models : QueryModels := {|
  QueryV1alpha1_kwargs := λ kwargs,
    match kwargs with
    | VDict d =>
        match dict_path kwargs ["spec"; "timeout"] with
        | Some (VStr "") =>
            Raise (OtherError "ValidationError"
                     "1 validation error for QueryV1alpha1Spec: timeout")
        | _ => Ok (resource_of d)
        end
    | _ => Raise (TypeError "argument after ** must be a mapping")
    end;
|}.

(** [s[n:]]. *)
Fixpoint drop_chars (n : nat) (s : string) : string :=
  match n, s with
  | S n', String _ s' => drop_chars n' s'
  | _, _ => s
  end.

(** The lines at the front of a list that are empty, dropped. *)
Fixpoint drop_empty (lines : list string) : list string :=
  match lines with
  | line :: rest => if str_truthy line then lines else drop_empty rest
  | [] => []
  end.

(** [inspect.cleandoc] on a text without tabs: the first line loses the
    space it starts with, the other lines the indentation that the least
    indented of those that are not blank has, and the empty lines at both
    ends are dropped. *)
Definition cleandoc (doc : string) : string :=
  let lines := complete_lines doc ++ [partial_line doc] in
  let first := hd EmptyString lines in
  let rest := tl lines in
  let indents :=
    omap (λ line, if not_blank line
                  then Some (String.length line - String.length (lstrip line))%nat
                  else None) rest in
  let rest :=
    match indents with
    | indent :: others => map (drop_chars (foldr Nat.min indent others)) rest
    | [] => rest
    end in
  join NL (drop_empty (rev (drop_empty (rev (lstrip first :: rest))))).

(** A Python whose constants are texts, with an [ast.unparse] that gives a
    name as it is and another expression as the source has it. *)
Definition sample_ast : AstLib string := {|
  has_unparse := true;
  unparse := λ annotation,
    match annotation with
    | ast.Name id => id
    | ast.Constant value => "'" +:+ value +:+ "'"
    | ast.OtherExpr source => source
    | _ => "..."
    end;
  get_docstring := λ body,
    match body with
    | ast.Expr (ast.Constant text) :: _ => Some (cleandoc text)
    | _ => None
    end;
  repr := λ value, "'" +:+ value +:+ "'";
|}.

(** The docstring of the tool in [reverse_tool.py], as the file has it. *)
Definition reverse_message_doc : string :=
  join NL [""; "    Reverses the text of a message"; "    "; "    Args:";
           "        message: The message text to reverse"; "        ";
           "    Returns:"; "        The reversed message text"; "    "].

(** The tree of [reverse_tool.py]: the docstring of the module, the import,
    the instance, the tool with its docstring and its [return], and the
    block that runs the server. *)
Definition reverse_tool_tree : list (ast.stmt string) :=
  [ ast.Expr
      (ast.Constant
         (join NL [""; "Simple FastMCP tool for testing - reverses text messages"; ""]));
    ast.ImportFrom (Some "fastmcp") [{| ast.name := "FastMCP"; ast.asname := None |}];
    ast.Assign [ast.Name "mcp"]
      (ast.Call (ast.Name "FastMCP") [ast.Constant "reverse_tool"] []);
    ast.FunctionDef "reverse_message"
      [{| ast.arg_name := "message"; ast.annotation := Some (ast.Name "str") |}]
      [ast.Expr (ast.Constant reverse_message_doc); ast.Other []]
      [ast.Call (ast.Attribute (ast.Name "mcp") "tool") [] []]
      (Some (ast.Name "str"));
    ast.Other
      [ast.Other [];
       ast.Assign [ast.Name "port"]
         (ast.Call (ast.Name "int")
            [ast.Call
               (ast.Attribute (ast.Attribute (ast.Name "os") "environ") "get")
               [ast.Constant "PORT"; ast.Constant "8080"] []] []);
       ast.Expr
         (ast.Call (ast.Attribute (ast.Name "mcp") "run") []
            [(Some "transport", ast.Constant "http");
             (Some "host", ast.Constant "0.0.0.0");
             (Some "port", ast.Name "port");
             (Some "path", ast.Constant "/")])] ].

(** The same tool in a file that imports the package and not the class. *)
Definition unqualified_tree : list (ast.stmt string) :=
  [ ast.Other [];
    ast.Assign [ast.Name "mcp"]
      (ast.Call (ast.Attribute (ast.Name "fastmcp") "FastMCP")
         [ast.Constant "reverse_tool"] []);
    ast.FunctionDef "reverse_message"
      [{| ast.arg_name := "message"; ast.annotation := Some (ast.Name "str") |}]
      [ast.Expr (ast.Constant reverse_message_doc); ast.Other []]
      [ast.Call (ast.Attribute (ast.Name "mcp") "tool") [] []]
      (Some (ast.Name "str")) ].

(** A directory with the two files, a file that does not parse, a text,
    and a directory whose name ends with [.py]. *)
Definition sample_files : @FileSystem string := {|
  parse_file := λ filepath,
    if String.eqb filepath "tools/reverse_tool.py" then Ok reverse_tool_tree
    else if String.eqb filepath "tools/unqualified.py" then Ok unqualified_tree
    else if String.eqb filepath "tools/broken.py"
    then Raise (OtherError "SyntaxError" "invalid syntax (<unknown>, line 3)")
    else Raise (OtherError "FileNotFoundError"
                  ("[Errno 2] No such file or directory: '" +:+ filepath +:+ "'"));
  listdir := λ dirpath,
    if String.eqb dirpath "tools"
    then Ok ["reverse_tool.py"; "README.md"; "broken.py"; "cache.py"; "unqualified.py"]
    else Raise (OtherError "FileNotFoundError"
                  ("[Errno 2] No such file or directory: '" +:+ dirpath +:+ "'"));
  isfile := λ filepath, negb (String.eqb filepath "tools/cache.py");
  path_join := λ dirpath file, dirpath +:+ "/" +:+ file;
|}.

(** * Properties *)

Arguments _parse_timestamp : simpl never.
Arguments _create_model_entry : simpl never.
Arguments take_chars : simpl never.
Arguments join : simpl never.

(** ** Running programs *)

Section run_facts.
Context {world : Type} (b : backend world).

Lemma outcome_eta {A : Type} (o : outcome world A) :
  Outcome (trace o) (final o) (returned o) = o.
Proof. by destruct o. Qed.

Lemma run_bind {A B : Type} (p : prog A) (f : A → prog B) (w : world) :
  run b (p ≫= f) w =
  match returned (run b p w) with
  | Ok a =>
      let o := run b (f a) (final (run b p w)) in
      Outcome (trace (run b p w) ++ trace o) (final o) (returned o)
  | Raise e => Outcome (trace (run b p w)) (final (run b p w)) (Raise e)
  end.
Proof.
  revert w. induction p as [a|e|c o k IH|k IH|k IH]; intros w; cbn.
  - by rewrite outcome_eta.
  - done.
  - destruct (serve b c o w) as [r w']. unfold logged. cbn.
    change (prog_bind f (k r)) with (k r ≫= f). rewrite IH.
    by destruct (returned (run b (k r) w')).
  - destruct (clock b w) as [t w']. apply IH.
  - destruct (uuid4 b w) as [u w']. apply IH.
Qed.

Lemma run_try_except {A : Type} (p : prog A) (h : exn → prog A) (w : world) :
  run b (try_except p h) w =
  match returned (run b p w) with
  | Ok a => run b p w
  | Raise e =>
      let o := run b (h e) (final (run b p w)) in
      Outcome (trace (run b p w) ++ trace o) (final o) (returned o)
  end.
Proof.
  revert w. induction p as [a|e|c o k IH|k IH|k IH]; intros w; cbn.
  - done.
  - by rewrite outcome_eta.
  - destruct (serve b c o w) as [r w']. unfold logged. rewrite IH.
    destruct (returned (run b (k r) w')) eqn:E; cbn; by rewrite ?E.
  - destruct (clock b w) as [t w']. apply IH.
  - destruct (uuid4 b w) as [u w']. apply IH.
Qed.

Lemma run_fmap {A B : Type} (f : A → B) (p : prog A) (w : world) :
  run b (f <$> p) w =
  Outcome (trace (run b p w)) (final (run b p w))
    (match returned (run b p w) with Ok a => Ok (f a) | Raise e => Raise e end).
Proof.
  change (f <$> p) with (p ≫= λ a, Ret (f a)). rewrite run_bind.
  destruct (returned (run b p w)); cbn; by rewrite ?app_nil_r.
Qed.

Lemma run_lift {A : Type} (r : result A) (w : world) :
  run b (lift r) w = Outcome [] w r.
Proof. by destruct r. Qed.

Lemma run_await (c : ark_client) (o : op) (w : world) :
  run b (await c o) w =
  Outcome [Event c o (serve b c o w).1] (serve b c o w).2 (serve b c o w).1.
Proof.
  unfold await. cbn. destruct (serve b c o w) as [r w']. cbn.
  by rewrite run_lift.
Qed.

(** A program all of whose calls satisfy [P] leaves a trace of such calls. *)
Lemma calls_in_trace {A : Type} (P : ark_client → op → Prop) (p : prog A) (w : world) :
  calls_in P p →
  Forall (λ ev, P (ev_client ev) (ev_op ev)) (trace (run b p w)).
Proof.
  revert w. induction p as [a|e|c o k IH|k IH|k IH]; intros w Hp; cbn.
  - constructor.
  - constructor.
  - destruct Hp as [Hc Hk]. destruct (serve b c o w) as [r w']. cbn.
    constructor; [done|]. by apply IH.
  - destruct (clock b w) as [t w']. by apply IH.
  - destruct (uuid4 b w) as [u w']. by apply IH.
Qed.
End run_facts.

Lemma calls_in_bind {A B : Type} (P : ark_client → op → Prop)
    (p : prog A) (f : A → prog B) :
  calls_in P p → (∀ a, calls_in P (f a)) → calls_in P (p ≫= f).
Proof.
  intros Hp Hf. induction p as [a|e|c o k IH|k IH|k IH]; cbn in *.
  - apply Hf.
  - done.
  - destruct Hp as [Hc Hk]. split; [done|]. intros r. by apply IH.
  - intros t. by apply IH.
  - intros u. by apply IH.
Qed.

Lemma calls_in_try_except {A : Type} (P : ark_client → op → Prop)
    (p : prog A) (h : exn → prog A) :
  calls_in P p → (∀ e, calls_in P (h e)) → calls_in P (try_except p h).
Proof.
  intros Hp Hh. induction p as [a|e|c o k IH|k IH|k IH]; cbn in *.
  - done.
  - apply Hh.
  - destruct Hp as [Hc Hk]. split; [done|]. intros r. by apply IH.
  - intros t. by apply IH.
  - intros u. by apply IH.
Qed.

Lemma calls_in_lift {A : Type} (P : ark_client → op → Prop) (r : result A) :
  calls_in P (lift r).
Proof. by destruct r. Qed.

Lemma calls_in_await (P : ark_client → op → Prop) (c : ark_client) (o : op) :
  P c o → calls_in P (await c o).
Proof. intros Hc. split; [done|]. intros r. apply calls_in_lift. Qed.

(** ** Reading resources and building text *)

Lemma lift_bind2 {A B C : Type} (r : result A) (f : A → result B) (k : B → prog C) :
  (x ← lift r; y ← lift (f x); k y) = (y ← lift (x ← r; f x); k y).
Proof. by destruct r. Qed.

Lemma lift_bind3 {A B C D : Type} (r : result A) (f : A → result B)
    (g : B → result C) (k : C → prog D) :
  (x ← lift r; y ← lift (f x); z ← lift (g y); k z)
  = (z ← lift (x ← r; y ← f x; g y); k z).
Proof. destruct r as [a|e]; cbn; [|done]. by destruct (f a). Qed.

Lemma read_memory_name_shaped (query_dict : value) :
  resource_shaped query_dict = true →
  read_memory_name query_dict = Ok (memory_ref query_dict).
Proof.
  destruct query_dict as [| | | | |d]; try done.
  unfold resource_shaped, memory_ref, read_memory_name. cbn.
  destruct (d !! "spec") as [[| | | | |s]|] eqn:Hs; cbn; rewrite ?andb_false_r; try done.
  destruct (s !! "memory") as [[| | | | |m]|] eqn:Hm; cbn; rewrite ?andb_false_r; try done.
  unfold resolve_memory_name. cbn.
  case_bool_decide as Hempty; cbn.
  - subst m. by rewrite lookup_empty.
  - destruct (m !! "name") as [name|] eqn:Hn; cbn; [|done].
    destruct (py_truthy name); cbn; [|done]. by rewrite ?Hn.
Qed.

Lemma read_annotation_spec (resource_dict : value) (key : string) :
  match read_annotation resource_dict key with
  | Ok a => a = default VNone (annotation_of resource_dict key)
  | Raise _ => annotation_of resource_dict key = None
  end.
Proof.
  unfold read_annotation, annotation_of.
  destruct resource_dict as [| | | | |d]; try done. cbn.
  destruct (d !! "metadata") as [[| | | | |m]|]; cbn; rewrite ?lookup_empty; try done.
  destruct (m !! "annotations") as [[| | | | |a]|]; cbn; rewrite ?lookup_empty; try done.
  by destruct (a !! key).
Qed.

Lemma read_address_spec (memory_dict : value) :
  match read_address memory_dict with
  | Ok a => a = default VNone (address_of memory_dict)
  | Raise _ => address_of memory_dict = None
  end.
Proof.
  unfold read_address, address_of.
  destruct memory_dict as [| | | | |d]; try done. cbn.
  destruct (d !! "status") as [[| | | | |s]|]; cbn; rewrite ?lookup_empty; try done.
  by destruct (s !! "lastResolvedAddress").
Qed.

Lemma py_eq_str_default (o : option value) (s : string) :
  py_eq_str (default VNone o) s = true ↔ o = Some (VStr s).
Proof.
  destruct o as [[| | |s'| |]|]; cbn; try (split; [done|congruence]).
  rewrite String.eqb_eq. split; congruence.
Qed.

Lemma py_truthy_default (o : option value) :
  py_truthy (default VNone o) = true ↔ ∃ v, o = Some v ∧ py_truthy v = true.
Proof.
  destruct o as [v|]; cbn.
  - split; [eauto|]. intros (v' & Hv & Ht). injection Hv as ->. done.
  - split; [done|]. intros (v' & Hv & Ht). done.
Qed.

Lemma string_app_cons (c : ascii) (a s : string) :
  String c a +:+ s = String c (a +:+ s).
Proof. reflexivity. Qed.

Lemma string_app_nil_r (s : string) : s +:+ "" = s.
Proof. induction s as [|x s IH]; [done|]. by rewrite string_app_cons, IH. Qed.

Lemma string_app_assoc (a b c : string) : (a +:+ b) +:+ c = a +:+ b +:+ c.
Proof.
  induction a as [|x a IH]; [done|]. by rewrite !string_app_cons, IH.
Qed.

Lemma read_annotation_shaped (resource_dict : value) (key : string) :
  resource_shaped resource_dict = true →
  read_annotation resource_dict key = Ok (default VNone (annotation_of resource_dict key)).
Proof.
  intros Hshape. pose proof (read_annotation_spec resource_dict key) as Hspec.
  destruct (read_annotation resource_dict key) as [a|e] eqn:E; [by subst|].
  exfalso. revert Hshape E. clear Hspec.
  destruct resource_dict as [| | | | |d]; try done.
  unfold resource_shaped, read_annotation. cbn.
  destruct (d !! "metadata") as [[| | | | |m]|]; cbn; try done.
  destruct (m !! "annotations") as [[| | | | |a]|]; cbn; try done.
Qed.

Lemma read_address_shaped (memory_dict : value) :
  resource_shaped memory_dict = true →
  read_address memory_dict = Ok (default VNone (address_of memory_dict)).
Proof.
  intros Hshape. pose proof (read_address_spec memory_dict) as Hspec.
  destruct (read_address memory_dict) as [a|e] eqn:E; [by subst|].
  exfalso. revert Hshape E. clear Hspec.
  destruct memory_dict as [| | | | |d]; try done.
  unfold resource_shaped, read_address. cbn.
  destruct (d !! "status") as [[| | | | |m]|]; cbn; rewrite ?andb_false_r; try done.
Qed.

Lemma read_address_some (memory_dict base_url : value) :
  address_of memory_dict = Some base_url → read_address memory_dict = Ok base_url.
Proof.
  intros Haddr. pose proof (read_address_spec memory_dict) as Hspec.
  destruct (read_address memory_dict) as [a|e]; [|congruence].
  subst a. by rewrite Haddr.
Qed.

Lemma read_session_shaped `{PyRepr} (query_dict : value) :
  resource_shaped query_dict = true →
  read_session query_dict = Ok (session_of query_dict).
Proof.
  destruct query_dict as [| | | | |d]; try done.
  unfold resource_shaped, read_session, session_of. cbn.
  destruct (d !! "metadata") as [[| | | | |m]|]; cbn; try done;
    destruct (d !! "spec") as [[| | | | |s]|]; cbn;
    rewrite ?andb_false_r, ?lookup_empty; try done; cbn;
    try (destruct (s !! "sessionId") as [session|]; cbn;
         [destruct (py_truthy session); [done|]|]);
    try (by destruct (m !! "uid")); done.
Qed.

(** ** The streaming capability resolver *)

Section resolver.
Context `{PyRepr} {world : Type} (b : backend world).

Lemma try_get_streaming_url_returned
    (c : ark_client) (query_name namespace : string) (w : world) :
  returned (run b (try_get_streaming_url c query_name namespace) w)
  = match returned (run b (streaming_url_lookup c query_name) w) with
    | Ok url => Ok url
    | Raise _ => Ok None
    end.
Proof.
  unfold try_get_streaming_url. rewrite run_try_except.
  destruct (returned (run b (streaming_url_lookup c query_name) w)) eqn:E; cbn;
    by rewrite ?E.
Qed.

Lemma streaming_url_lookup_returned
    (c : ark_client) (query_name : string) (w : world)
    (query : resource) (w1 : world) (query_dict : value)
    (memory : resource) (w2 : world) (memory_dict : value) :
  serve b c (queries_a_get query_name) w = (Ok query, w1) →
  to_dict query = Ok query_dict →
  resource_shaped query_dict = true →
  serve b c (memories_a_get (memory_ref query_dict)) w1 = (Ok memory, w2) →
  to_dict memory = Ok memory_dict →
  returned (run b (streaming_url_lookup c query_name) w)
  = (annotation ← read_annotation memory_dict
                    "ark.mckinsey.com/memory-event-stream-enabled";
     if py_eq_str annotation "true"
     then
       base_url ← read_address memory_dict;
       if py_truthy base_url
       then Ok (Some (py_str base_url +:+ "/stream/" +:+ query_name
                      +:+ "?from-beginning=true&wait-for-query=30s"))
       else Ok None
     else Ok None).
Proof.
  intros Hq Hqd Hshape Hm Hmd.
  unfold streaming_url_lookup. cbn. rewrite Hq. cbn. rewrite Hqd. cbn.
  rewrite lift_bind3. fold (read_memory_name query_dict).
  rewrite read_memory_name_shaped by done. cbn. rewrite Hm. cbn. rewrite Hmd. cbn.
  rewrite lift_bind3.
  fold (read_annotation memory_dict "ark.mckinsey.com/memory-event-stream-enabled").
  destruct (read_annotation memory_dict _) as [a|e]; cbn; [|done].
  destruct (py_eq_str a "true"); cbn; [|done].
  rewrite lift_bind2. fold (read_address memory_dict).
  destruct (read_address memory_dict) as [base|e]; cbn; [|done].
  by destruct (py_truthy base).
Qed.

Lemma try_get_streaming_url_without_capability
    (c : ark_client) (query_name namespace : string) (w : world)
    (query : resource) (w1 : world) (query_dict : value)
    (memory : resource) (w2 : world) (memory_dict : value) :
  serve b c (queries_a_get query_name) w = (Ok query, w1) →
  to_dict query = Ok query_dict →
  resource_shaped query_dict = true →
  serve b c (memories_a_get (memory_ref query_dict)) w1 = (Ok memory, w2) →
  to_dict memory = Ok memory_dict →
  annotation_of memory_dict "ark.mckinsey.com/memory-event-stream-enabled"
    ≠ Some (VStr "true") →
  returned (run b (try_get_streaming_url c query_name namespace) w) = Ok None.
Proof.
  intros Hq Hqd Hshape Hm Hmd Hcap.
  rewrite try_get_streaming_url_returned.
  rewrite (streaming_url_lookup_returned _ _ _ _ _ _ _ _ _ Hq Hqd Hshape Hm Hmd).
  pose proof (read_annotation_spec memory_dict
                "ark.mckinsey.com/memory-event-stream-enabled") as Hann.
  destruct (read_annotation memory_dict _) as [a|e]; cbn; [|done].
  subst a. destruct (py_eq_str _ "true") eqn:E; [|done].
  by apply py_eq_str_default in E.
Qed.

(** C1: the streaming capability resolver never raises.  On every backend
    it returns a result; whenever its [try] block raises, at whatever step,
    the result is [None]; in particular when the query fetch fails and when
    the memory fetch fails. *)
Theorem try_get_streaming_url_never_raises
    (c : ark_client) (query_name namespace : string) (w : world) :
  (∃ url, returned (run b (try_get_streaming_url c query_name namespace) w) = Ok url)
  ∧ (∀ e, returned (run b (streaming_url_lookup c query_name) w) = Raise e →
          returned (run b (try_get_streaming_url c query_name namespace) w) = Ok None)
  ∧ (∀ e w', serve b c (queries_a_get query_name) w = (Raise e, w') →
          returned (run b (try_get_streaming_url c query_name namespace) w) = Ok None)
  ∧ (∀ query w1 query_dict e w2,
        serve b c (queries_a_get query_name) w = (Ok query, w1) →
        to_dict query = Ok query_dict →
        resource_shaped query_dict = true →
        serve b c (memories_a_get (memory_ref query_dict)) w1 = (Raise e, w2) →
        returned (run b (try_get_streaming_url c query_name namespace) w) = Ok None).
Proof.
  assert (Hcatch : ∀ e,
    returned (run b (streaming_url_lookup c query_name) w) = Raise e →
    returned (run b (try_get_streaming_url c query_name namespace) w) = Ok None).
  { intros e He. unfold try_get_streaming_url. rewrite run_try_except, He. done. }
  split; [|split; [done|split]].
  - unfold try_get_streaming_url. rewrite run_try_except.
    destruct (returned (run b (streaming_url_lookup c query_name) w)) as [url|e] eqn:E.
    + by exists url.
    + by exists None.
  - intros e w' Hq. apply (Hcatch e).
    unfold streaming_url_lookup. cbn. by rewrite Hq.
  - intros query w1 qd e w2 Hq Hqd Hshape Hm. apply (Hcatch e).
    unfold streaming_url_lookup. cbn. rewrite Hq. cbn. rewrite Hqd. cbn.
    rewrite lift_bind3. fold (read_memory_name qd).
    rewrite read_memory_name_shaped by done. cbn. by rewrite Hm.
Qed.

(** C5: once the query and its memory are fetched, the resolver yields a
    URL exactly when the memory's capability annotation is the string
    ["true"] and its status carries a resolved address; that URL is the
    address, the path segment of the job id, and the replay-from-beginning
    and 30s wait-window parameters. *)
Theorem try_get_streaming_url_capability
    (c : ark_client) (query_name namespace : string) (w : world)
    (query : resource) (w1 : world) (query_dict : value)
    (memory : resource) (w2 : world) (memory_dict : value) (url : string) :
  serve b c (queries_a_get query_name) w = (Ok query, w1) →
  to_dict query = Ok query_dict →
  resource_shaped query_dict = true →
  serve b c (memories_a_get (memory_ref query_dict)) w1 = (Ok memory, w2) →
  to_dict memory = Ok memory_dict →
  returned (run b (try_get_streaming_url c query_name namespace) w) = Ok (Some url)
  ↔ annotation_of memory_dict "ark.mckinsey.com/memory-event-stream-enabled"
      = Some (VStr "true")
    ∧ ∃ base_url,
        address_of memory_dict = Some base_url ∧ py_truthy base_url = true
        ∧ url = py_str base_url +:+ "/stream/" +:+ query_name
                +:+ "?from-beginning=true&wait-for-query=30s"
        ∧ contains (py_str base_url) url ∧ contains query_name url
        ∧ contains "from-beginning=true" url
        ∧ contains "wait-for-query=30s" url.
Proof.
  intros Hq Hqd Hshape Hm Hmd.
  rewrite try_get_streaming_url_returned.
  rewrite (streaming_url_lookup_returned _ _ _ _ _ _ _ _ _ Hq Hqd Hshape Hm Hmd).
  pose proof (read_annotation_spec memory_dict
                "ark.mckinsey.com/memory-event-stream-enabled") as Hann.
  pose proof (read_address_spec memory_dict) as Haddr.
  pose proof (py_eq_str_default
                (annotation_of memory_dict "ark.mckinsey.com/memory-event-stream-enabled")
                "true") as Heq.
  pose proof (py_truthy_default (address_of memory_dict)) as Htr.
  destruct (read_annotation memory_dict _) as [a|e]; cbn.
  2:{ split; [done|]. intros [Hc _]. congruence. }
  subst a. destruct (py_eq_str _ "true").
  2:{ split; [done|]. intros [Hc _]. apply Heq in Hc. discriminate Hc. }
  destruct (read_address memory_dict) as [base|e]; cbn.
  2:{ split; [done|]. intros (_ & base & Hb & _). congruence. }
  subst base. destruct (py_truthy (default VNone (address_of memory_dict))).
  2:{ split; [done|]. intros (_ & base & Hb & Ht & _).
      assert (false = true) by (apply Htr; eauto). done. }
  destruct Htr as [(base & Hbase & Htruthy) _]; [done|].
  rewrite Hbase. cbn. split.
  - intros [= <-]. split; [by apply Heq|]. exists base. repeat split; try done.
    + by exists "", ("/stream/" +:+ query_name
                     +:+ "?from-beginning=true&wait-for-query=30s").
    + exists (py_str base +:+ "/stream/"), "?from-beginning=true&wait-for-query=30s".
      by rewrite string_app_assoc.
    + exists (py_str base +:+ "/stream/" +:+ query_name +:+ "?"), "&wait-for-query=30s".
      by rewrite !string_app_assoc.
    + exists (py_str base +:+ "/stream/" +:+ query_name +:+ "?from-beginning=true&"), "".
      by rewrite !string_app_assoc.
  - intros (_ & base' & [= <-] & _ & -> & _). done.
Qed.
End resolver.

(** ** The relays *)

Lemma str_truthy_rstrip (s : string) : str_truthy (rstrip s) = not_blank s.
Proof.
  induction s as [|c s IH]; [done|]. cbn. rewrite <- IH.
  destruct (rstrip s); cbn; [|by rewrite orb_true_r].
  by destruct (isspace c).
Qed.

Lemma not_blank_lstrip (s : string) : not_blank (lstrip s) = not_blank s.
Proof.
  induction s as [|c s IH]; [done|]. cbn.
  destruct (isspace c) eqn:E; cbn; [done|]. by rewrite E.
Qed.

Lemma str_truthy_strip (s : string) : str_truthy (strip s) = not_blank s.
Proof. unfold strip. by rewrite str_truthy_rstrip, not_blank_lstrip. Qed.

Lemma proxy_lines_filter (lines : list string) :
  proxy_lines lines = map (λ line, line +:+ NL +:+ NL) (List.filter not_blank lines).
Proof.
  induction lines as [|line lines IH]; [done|]. cbn.
  rewrite str_truthy_strip, IH. by destruct (not_blank line).
Qed.

Lemma split_lines_first_newline (text : string) :
  split_lines text =
  match split_first_newline text with
  | Some (line, rest) => (line :: complete_lines rest, partial_line rest)
  | None => ([], text)
  end.
Proof.
  unfold complete_lines, partial_line.
  induction text as [|c s IH]; [done|]. cbn. rewrite IH.
  destruct (Ascii.eqb c newline_char);
    destruct (split_first_newline s) as [[line rest]|]; cbn; by rewrite ?IH.
Qed.

Lemma drain_split_lines (buffer : string) :
  drain buffer =
  (map (λ line, line +:+ NL) (List.filter not_blank (complete_lines buffer)),
   partial_line buffer).
Proof.
  funelim (drain buffer); unfold complete_lines, partial_line;
    rewrite split_lines_first_newline, e; cbn; [|done].
  rewrite H. cbn. rewrite str_truthy_strip. by destruct (not_blank line).
Qed.

Lemma split_lines_app (a b : string) :
  split_lines (a +:+ b) =
  (complete_lines a ++ complete_lines (partial_line a +:+ b),
   partial_line (partial_line a +:+ b)).
Proof.
  unfold complete_lines, partial_line.
  induction a as [|c a IH].
  - cbn. change ("" +:+ b) with b. by destruct (split_lines b).
  - rewrite string_app_cons. cbn. rewrite IH.
    destruct (split_lines a) as [lines rest]. cbn.
    destruct (Ascii.eqb c newline_char) eqn:E; cbn; [done|].
    destruct lines as [|line lines]; cbn.
    + rewrite string_app_cons. cbn. rewrite E.
      by destruct (split_lines (rest +:+ b)) as [[|l ls] t].
    + done.
Qed.

Lemma complete_lines_app (a b : string) :
  complete_lines (a +:+ b) = complete_lines a ++ complete_lines (partial_line a +:+ b).
Proof. unfold complete_lines at 1. by rewrite split_lines_app. Qed.

Lemma partial_line_app (a b : string) :
  partial_line (a +:+ b) = partial_line (partial_line a +:+ b).
Proof. unfold partial_line at 1. by rewrite split_lines_app. Qed.

Lemma split_lines_partial (text : string) :
  split_lines (partial_line text) = ([], partial_line text).
Proof.
  unfold partial_line. induction text as [|c s IH]; [done|]. cbn.
  destruct (split_lines s) as [lines rest]. cbn in *.
  destruct (Ascii.eqb c newline_char) eqn:E; cbn; [done|].
  destruct lines as [|line lines]; cbn; [|done].
  by rewrite IH, E.
Qed.

Lemma stream_chunks_split_lines (chunks : list string) (buffer : string) :
  split_lines buffer = ([], buffer) →
  stream_chunks buffer chunks =
  (map (λ line, line +:+ NL)
     (List.filter not_blank (complete_lines (buffer +:+ concat_chunks chunks))),
   partial_line (buffer +:+ concat_chunks chunks)).
Proof.
  revert buffer. induction chunks as [|chunk chunks IH]; intros buffer Hb; cbn.
  - rewrite string_app_nil_r. unfold complete_lines, partial_line. by rewrite Hb.
  - rewrite drain_split_lines.
    rewrite IH by apply split_lines_partial.
    rewrite <- string_app_assoc.
    rewrite (complete_lines_app (buffer +:+ chunk)), (partial_line_app (buffer +:+ chunk)).
    by rewrite List.filter_app, map_app.
Qed.

(** [split_lines] cuts a text at its newlines and at nothing else. *)
Lemma split_lines_unlines (text : string) :
  text = unlines (complete_lines text) +:+ partial_line text
  ∧ forallb no_newline (complete_lines text) = true
  ∧ no_newline (partial_line text) = true.
Proof.
  unfold complete_lines, partial_line.
  induction text as [|c s (IH1 & IH2 & IH3)]; [done|]. cbn.
  destruct (split_lines s) as [lines rest]. cbn in *.
  destruct (Ascii.eqb c newline_char) eqn:E; cbn.
  - apply Ascii.eqb_eq in E as ->. split; [|done]. by rewrite IH1 at 1.
  - destruct lines as [|line lines]; cbn in *.
    + rewrite E. split; [by rewrite IH1 at 1|done].
    + rewrite E. split; [by rewrite IH1 at 1|]. done.
Qed.

Lemma partial_line_nonempty (text : string) :
  text ≠ "" → ends_with_newline text = false → partial_line text ≠ "".
Proof.
  unfold partial_line.
  induction text as [|c s IH]; [done|]. intros _. cbn.
  destruct s as [|c' s'].
  - cbn. intros ->. done.
  - intros Hend. specialize (IH ltac:(done) Hend).
    destruct (split_lines (String c' s')) as [lines rest]. cbn in *.
    destruct (Ascii.eqb c newline_char); cbn; [done|].
    by destruct lines.
Qed.

Section relay.
Context `{HttpClient}.

Lemma stream_proxy_ok (url : string) (r : response) :
  client_stream "GET" url = Connected r →
  status_code r = 200 →
  stream_proxy url =
  {| yielded :=
       map (λ line, line +:+ NL)
         (List.filter not_blank (complete_lines (concat_chunks (items (aiter_text r)))))
       ++ match failure (aiter_text r) with
          | None => []
          | Some e => [error_event ("Streaming failed: " +:+ exn_str e)]
          end;
     raised := None |}.
Proof.
  intros Hconn Hstatus. unfold stream_proxy. rewrite Hconn, Hstatus. cbn.
  rewrite stream_chunks_split_lines by done. cbn.
  change ("" +:+ ?s) with s.
  destruct (failure (aiter_text r)); [done|]. by rewrite app_nil_r.
Qed.

(** C4: when the upstream answers with a status other than 200, the relay
    of the OpenAI path yields nothing and ends without an error, and the
    relay of the raw path yields one event, a [data:] line that names the
    status, and ends. *)
Theorem relay_upstream_not_success (url : string) (r : response) :
  client_stream "GET" url = Connected r →
  status_code r ≠ 200 →
  proxy_streaming_response url = {| yielded := []; raised := None |}
  ∧ stream_proxy url =
    {| yielded := [error_event ("Memory service returned " +:+ pretty (status_code r))];
       raised := None |}
  ∧ contains "data: " (error_event ("Memory service returned " +:+ pretty (status_code r)))
  ∧ contains (pretty (status_code r))
      (error_event ("Memory service returned " +:+ pretty (status_code r))).
Proof.
  intros Hconn Hstatus.
  assert (Hne : (status_code r =? 200) = false) by (by apply Z.eqb_neq).
  unfold proxy_streaming_response, stream_proxy. rewrite Hconn, Hne. cbn.
  repeat split.
  - by eexists "", _.
  - unfold error_event.
    exists ("data: {" +:+ DQ +:+ "error" +:+ DQ +:+ ": " +:+ DQ +:+ "Memory service returned "),
      (DQ +:+ "}" +:+ NL +:+ NL).
    by rewrite !string_app_assoc.
Qed.

(** C8: on the raw path, when the upstream body does not end with a
    newline, what follows its last newline stays in the buffer and is not
    forwarded: the relay yields the non-blank lines that a newline ends,
    and nothing else. *)
Theorem stream_proxy_keeps_partial_line (url : string) (r : response) :
  client_stream "GET" url = Connected r →
  status_code r = 200 →
  failure (aiter_text r) = None →
  ends_with_newline (concat_chunks (items (aiter_text r))) = false →
  (stream_chunks "" (items (aiter_text r))).2
    = partial_line (concat_chunks (items (aiter_text r)))
  ∧ (concat_chunks (items (aiter_text r)) ≠ "" →
     partial_line (concat_chunks (items (aiter_text r))) ≠ "")
  ∧ stream_proxy url =
    {| yielded := map (λ line, line +:+ NL)
                    (List.filter not_blank
                       (complete_lines (concat_chunks (items (aiter_text r)))));
       raised := None |}
  ∧ concat_chunks (items (aiter_text r))
    = unlines (complete_lines (concat_chunks (items (aiter_text r))))
      +:+ partial_line (concat_chunks (items (aiter_text r)))
  ∧ forallb no_newline (complete_lines (concat_chunks (items (aiter_text r)))) = true
  ∧ no_newline (partial_line (concat_chunks (items (aiter_text r)))) = true.
Proof.
  intros Hconn Hstatus Hfail Hend.
  split; [|split; [|split]].
  - by rewrite stream_chunks_split_lines.
  - intros Hne. by apply partial_line_nonempty.
  - rewrite (stream_proxy_ok url r) by done. rewrite Hfail. by rewrite app_nil_r.
  - apply split_lines_unlines.
Qed.

(** C2, as amended: from an upstream that answers 200, each relay forwards
    exactly the lines that have a character other than whitespace, in
    order and unchanged, one chunk per line: the OpenAI path those among
    the lines the line iterator delivers, each followed by a blank line;
    the raw path those among the lines of the body that a newline ends,
    each ended by a newline. *)
Theorem relay_forwards_nonblank_lines (url : string) (r : response) :
  client_stream "GET" url = Connected r →
  status_code r = 200 →
  (proxy_streaming_response url =
     {| yielded := map (λ line, line +:+ NL +:+ NL)
                     (List.filter not_blank (items (aiter_lines r)));
        raised := failure (aiter_lines r) |})
  ∧ (failure (aiter_text r) = None →
     stream_proxy url =
       {| yielded := map (λ line, line +:+ NL)
                       (List.filter not_blank
                          (complete_lines (concat_chunks (items (aiter_text r)))));
          raised := None |}).
Proof.
  intros Hconn Hstatus. split.
  - unfold proxy_streaming_response. rewrite Hconn, Hstatus. cbn.
    by rewrite proxy_lines_filter.
  - intros Hfail. rewrite (stream_proxy_ok url r) by done.
    rewrite Hfail. by rewrite app_nil_r.
Qed.

Lemma stream_proxy_newline_terminated (url : string) :
  Forall (λ chunk, ∃ line, chunk = line +:+ NL) (yielded (stream_proxy url)).
Proof.
  assert (Herr : ∀ msg, ∃ line, error_event msg = line +:+ NL).
  { intros msg. unfold error_event.
    exists ("data: {" +:+ DQ +:+ "error" +:+ DQ +:+ ": " +:+ DQ +:+ msg +:+ DQ +:+ "}" +:+ NL).
    by rewrite !string_app_assoc. }
  unfold stream_proxy. destruct (client_stream "GET" url) as [e|r]; cbn.
  { constructor; [apply Herr|constructor]. }
  destruct (negb (status_code r =? 200)); cbn.
  { constructor; [apply Herr|constructor]. }
  rewrite stream_chunks_split_lines by done. cbn.
  assert (Hlines : Forall (λ chunk, ∃ line, chunk = line +:+ NL)
    (map (λ line : string, line +:+ NL)
       (List.filter not_blank
          (complete_lines ("" +:+ concat_chunks (items (aiter_text r))))))).
  { apply Forall_map, Forall_forall. intros line _. by exists line. }
  destruct (failure (aiter_text r)); cbn; [|done].
  apply Forall_app. split; [done|]. constructor; [apply Herr|constructor].
Qed.
End relay.


(** ** The raw streaming endpoint *)

Section raw_endpoint.
Context `{PyRepr} {world : Type} (b : backend world).

Lemma run_handle_k8s_errors {A : Type} (operation resource_type : string)
    (handler : prog A) (w : world) :
  run b (handle_k8s_errors operation resource_type handler) w =
  Outcome (trace (run b handler w)) (final (run b handler w))
    (match returned (run b handler w) with
     | Ok a => Ok a
     | Raise e => Raise (if is_HTTPException e then e else HTTPException 500 (exn_str e))
     end).
Proof.
  unfold handle_k8s_errors. rewrite run_try_except.
  destruct (returned (run b handler w)) as [a|e] eqn:E.
  - by rewrite <- E, outcome_eta.
  - destruct (is_HTTPException e); cbn; by rewrite app_nil_r.
Qed.

Lemma session_prog {A : Type} (query_dict : value) (k : value → prog A) :
  (spec ← lift (py_get query_dict "spec" (VDict ∅));
   session ← lift (py_get spec "sessionId" VNone);
   session_id ←
     (if py_truthy session then mret session
      else
        metadata ← lift (py_get query_dict "metadata" (VDict ∅));
        uid ← lift (py_get metadata "uid" (VStr ""));
        mret (VStr (py_str uid)));
   k session_id)
  = (session_id ← lift (read_session query_dict); k session_id).
Proof.
  unfold read_session.
  destruct (py_get query_dict "spec" (VDict ∅)) as [spec|]; cbn; [|done].
  destruct (py_get spec "sessionId" VNone) as [session|]; cbn; [|done].
  destruct (py_truthy session); cbn; [done|].
  destruct (py_get query_dict "metadata" (VDict ∅)) as [metadata|]; cbn; [|done].
  by destruct (py_get metadata "uid" (VStr "")).
Qed.

Lemma stream_query_body_not_enabled
    (namespace query_name : string) (w : world)
    (query : resource) (w1 : world) (query_dict : value) :
  serve b (ArkClient namespace VERSION) (queries_a_get query_name) w = (Ok query, w1) →
  to_dict query = Ok query_dict →
  resource_shaped query_dict = true →
  annotation_of query_dict "ark.mckinsey.com/streaming-enabled" ≠ Some (VStr "true") →
  run b (stream_query_body namespace query_name) w =
  Outcome [Event (ArkClient namespace VERSION) (queries_a_get query_name) (Ok query)] w1
    (Raise (HTTPException 400 "Streaming not enabled for this query")).
Proof.
  intros Hq Hqd Hshape Hann.
  unfold stream_query_body, with_ark_client. cbn. rewrite Hq. cbn. rewrite Hqd. cbn.
  rewrite lift_bind3. fold (read_annotation query_dict "ark.mckinsey.com/streaming-enabled").
  rewrite read_annotation_shaped by done. cbn.
  destruct (py_eq_str _ "true") eqn:E; cbn; [|done].
  by apply py_eq_str_default in E.
Qed.

Lemma stream_query_body_enabled
    (namespace query_name : string) (w : world)
    (query : resource) (w1 : world) (query_dict : value)
    (memory : resource) (w2 : world) (memory_dict : value) :
  serve b (ArkClient namespace VERSION) (queries_a_get query_name) w = (Ok query, w1) →
  to_dict query = Ok query_dict →
  resource_shaped query_dict = true →
  annotation_of query_dict "ark.mckinsey.com/streaming-enabled" = Some (VStr "true") →
  serve b (ArkClient namespace VERSION) (memories_a_get (memory_ref query_dict)) w1
    = (Ok memory, w2) →
  to_dict memory = Ok memory_dict →
  run b (stream_query_body namespace query_name) w =
  Outcome
    [Event (ArkClient namespace VERSION) (queries_a_get query_name) (Ok query);
     Event (ArkClient namespace VERSION) (memories_a_get (memory_ref query_dict)) (Ok memory)]
    w2
    (base_url ← read_address memory_dict;
     if py_truthy base_url
     then Ok {| body_iterator :=
                  GenStreamProxy (py_str base_url +:+ "/stream/"
                                  +:+ py_str (session_of query_dict));
                media_type := "text/plain; charset=utf-8";
                headers :=
                  <["Access-Control-Allow-Headers" := "*"]>
                    (<["Access-Control-Allow-Origin" := "*"]>
                       (<["Connection" := "keep-alive"]>
                          (<["Cache-Control" := "no-cache"]> ∅))) |}
     else Raise (HTTPException 502 "Memory service address not resolved")).
Proof.
  intros Hq Hqd Hshape Hann Hm Hmd.
  unfold stream_query_body, with_ark_client. cbn. rewrite Hq. cbn. rewrite Hqd. cbn.
  rewrite lift_bind3. fold (read_annotation query_dict "ark.mckinsey.com/streaming-enabled").
  rewrite read_annotation_shaped by done. cbn. rewrite Hann. cbn.
  rewrite lift_bind3. fold (read_memory_name query_dict).
  rewrite read_memory_name_shaped by done. cbn. rewrite Hm. cbn. rewrite Hmd. cbn.
  rewrite lift_bind2. fold (read_address memory_dict).
  destruct (read_address memory_dict) as [base_url|e]; cbn; [|done].
  destruct (py_truthy base_url); cbn; [|done].
  rewrite session_prog, read_session_shaped by done. done.
Qed.

(** C3: on the raw streaming endpoint, a query whose streaming annotation
    is not ["true"] is refused with a 400 after the query fetch alone, before
    any memory fetch and without a response whose body could connect; a
    streaming-enabled query whose memory carries no resolved address is
    refused with a 502; otherwise the response is a [text/plain] stream of
    newline-terminated chunks with permissive CORS headers.  The errors are
    those the handler body raises, and the decorator lets them through. *)
Theorem stream_query_gates
    (namespace query_name : string) (w : world)
    (query : resource) (w1 : world) (query_dict : value) :
  serve b (ArkClient namespace VERSION) (queries_a_get query_name) w = (Ok query, w1) →
  to_dict query = Ok query_dict →
  resource_shaped query_dict = true →
  (annotation_of query_dict "ark.mckinsey.com/streaming-enabled" ≠ Some (VStr "true") →
     returned (run b (stream_query namespace query_name) w)
       = Raise (HTTPException 400 "Streaming not enabled for this query")
     ∧ returned (run b (stream_query_body namespace query_name) w)
       = Raise (HTTPException 400 "Streaming not enabled for this query")
     ∧ trace (run b (stream_query namespace query_name) w)
       = [Event (ArkClient namespace VERSION) (queries_a_get query_name) (Ok query)])
  ∧ (annotation_of query_dict "ark.mckinsey.com/streaming-enabled" = Some (VStr "true") →
     ∀ (memory : resource) (w2 : world) (memory_dict : value),
       serve b (ArkClient namespace VERSION) (memories_a_get (memory_ref query_dict)) w1
         = (Ok memory, w2) →
       to_dict memory = Ok memory_dict →
       resource_shaped memory_dict = true →
       match resolved_address memory_dict with
       | None =>
           returned (run b (stream_query namespace query_name) w)
             = Raise (HTTPException 502 "Memory service address not resolved")
           ∧ returned (run b (stream_query_body namespace query_name) w)
             = Raise (HTTPException 502 "Memory service address not resolved")
       | Some base_url =>
           ∃ r, returned (run b (stream_query namespace query_name) w) = Ok r
             ∧ media_type r = "text/plain; charset=utf-8"
             ∧ headers r !! "Access-Control-Allow-Origin" = Some "*"
             ∧ headers r !! "Access-Control-Allow-Headers" = Some "*"
             ∧ body_iterator r
               = GenStreamProxy (py_str base_url +:+ "/stream/"
                                 +:+ py_str (session_of query_dict))
             ∧ ∀ http : HttpClient,
                 Forall (λ chunk, ∃ line, chunk = line +:+ NL)
                   (yielded (iterate (body_iterator r)))
       end).
Proof.
  intros Hq Hqd Hshape. split.
  - intros Hann. unfold stream_query. rewrite run_handle_k8s_errors.
    by rewrite (stream_query_body_not_enabled _ _ _ _ _ _ Hq Hqd Hshape Hann).
  - intros Hann memory w2 memory_dict Hm Hmd Hmshape.
    unfold stream_query. rewrite run_handle_k8s_errors.
    rewrite (stream_query_body_enabled _ _ _ _ _ _ _ _ _ Hq Hqd Hshape Hann Hm Hmd).
    cbn. rewrite read_address_shaped by done. unfold resolved_address. cbn.
    destruct (address_of memory_dict) as [base_url|]; cbn; [|done].
    destruct (py_truthy base_url); cbn; [|done].
    eexists. split; [done|]. cbn. repeat split.
    intros http. apply stream_proxy_newline_terminated.
Qed.

(** C9: the raw streaming endpoint does not look at the memory's
    event-stream capability annotation.  For a query whose own streaming
    annotation is ["true"] and a memory whose status carries a resolved
    address, it returns the stream whatever else the memory's dictionary
    holds; where the capability annotation is absent or not ["true"], the
    resolver of the OpenAI path answers [None] for the same query on the
    same backend. *)
Theorem stream_query_ignores_memory_capability
    (namespace query_name : string) (w : world)
    (query : resource) (w1 : world) (query_dict : value)
    (memory : resource) (w2 : world) (memory_dict base_url : value) :
  serve b (ArkClient namespace VERSION) (queries_a_get query_name) w = (Ok query, w1) →
  to_dict query = Ok query_dict →
  resource_shaped query_dict = true →
  annotation_of query_dict "ark.mckinsey.com/streaming-enabled" = Some (VStr "true") →
  serve b (ArkClient namespace VERSION) (memories_a_get (memory_ref query_dict)) w1
    = (Ok memory, w2) →
  to_dict memory = Ok memory_dict →
  address_of memory_dict = Some base_url →
  py_truthy base_url = true →
  (∃ r, returned (run b (stream_query namespace query_name) w) = Ok r
     ∧ body_iterator r
       = GenStreamProxy (py_str base_url +:+ "/stream/" +:+ py_str (session_of query_dict)))
  ∧ (annotation_of memory_dict "ark.mckinsey.com/memory-event-stream-enabled"
       ≠ Some (VStr "true") →
     returned (run b (try_get_streaming_url (ArkClient namespace VERSION)
                        query_name "default") w) = Ok None).
Proof.
  intros Hq Hqd Hshape Hann Hm Hmd Haddr Htruthy. split.
  - unfold stream_query. rewrite run_handle_k8s_errors.
    rewrite (stream_query_body_enabled _ _ _ _ _ _ _ _ _ Hq Hqd Hshape Hann Hm Hmd).
    cbn. rewrite (read_address_some _ _ Haddr). cbn. rewrite Htruthy.
    eexists. split; done.
  - intros Hcap.
    by apply (try_get_streaming_url_without_capability b _ _ _ _ _ _ _ _ _ _
                Hq Hqd Hshape Hm Hmd).
Qed.
End raw_endpoint.

(** ** The models listing and its timestamps *)

Section models.
Context `{PyRepr} `{TimeLib} {world : Type} (b : backend world).

Lemma run_attempt {A : Type} (p : prog A) (w : world) :
  run b (attempt p) w =
  Outcome (trace (run b p w)) (final (run b p w)) (Ok (returned (run b p w))).
Proof.
  unfold attempt. rewrite run_try_except, run_fmap. cbn.
  destruct (returned (run b p w)); cbn; by rewrite ?app_nil_r.
Qed.

Lemma run_parse_timestamp (metadata : value) (w : world) :
  trace (run b (_parse_timestamp metadata) w) = []
  ∧ returned (run b (_parse_timestamp metadata) w) =
    (created_timestamp ← py_get metadata "creationTimestamp" VNone;
     if py_truthy created_timestamp then parse_time created_timestamp
     else Ok (clock b w).1).
Proof.
  unfold _parse_timestamp.
  destruct (py_get metadata "creationTimestamp" VNone) as [ts|e]; cbn; [|done].
  destruct (py_truthy ts) eqn:E; cbn.
  - destruct ts; cbn; try done. by rewrite run_lift.
  - by destruct (clock b w).
Qed.

Lemma run_entry (prefix : string) (item : resource) (w : world) :
  trace (run b (name ← lift (py_getitem (metadata item) "name");
                _create_model_entry (prefix +:+ py_str name) (metadata item)) w) = []
  ∧ match returned (run b (name ← lift (py_getitem (metadata item) "name");
                           _create_model_entry (prefix +:+ py_str name) (metadata item)) w)
    with
    | Ok entry => entry_of prefix item entry ∧ convertible item = true
    | Raise _ => convertible item = false
    end.
Proof.
  unfold convertible, entry_of, timestamp_of.
  destruct (metadata item) as [| | | | |d] eqn:Hmd; cbn; try done.
  destruct (d !! "name") as [name|] eqn:Hname; cbn; [|done].
  unfold _create_model_entry. rewrite run_bind.
  destruct (run_parse_timestamp (VDict d) w) as [Htrace Hret].
  rewrite Htrace, Hret. cbn.
  destruct (d !! "creationTimestamp") as [ts|] eqn:Hts; cbn.
  - destruct (py_truthy ts) eqn:Htruthy; cbn.
    + destruct (parse_time ts) as [t|e] eqn:Hparse; cbn; [|done].
      split; [done|]. split; [|done]. repeat split; eauto.
      intros v [= <-]. done.
    + split; [done|]. split; [|done]. repeat split; eauto. done.
  - split; [done|]. split; [|done]. repeat split; eauto. done.
Qed.

Lemma run_append_entries (prefix : string) (items : list resource)
    (models_list : list Model) (w : world) :
  ∃ entries pending w',
    run b (append_entries prefix items models_list) w
    = Outcome [] w' (Ok (models_list ++ entries, pending))
    ∧ Forall2 (entry_of prefix) (converted_items items) entries.
Proof.
  revert models_list w. induction items as [|item items IH]; intros models_list w.
  - exists [], None, w. cbn. rewrite app_nil_r. split; [done|constructor].
  - cbn [append_entries converted_items]. rewrite run_bind, run_attempt.
    destruct (run_entry prefix item w) as [Htrace Hret].
    rewrite Htrace. cbn.
    destruct (returned (run b _ w)) as [entry|e] eqn:E.
    + destruct Hret as [Hentry Hconv]. rewrite Hconv.
      destruct (IH (models_list ++ [entry])
                  (final (run b (name ← lift (py_getitem (metadata item) "name");
                     _create_model_entry (prefix +:+ py_str name) (metadata item)) w)))
        as (entries & pending & w' & Hrun & Hall).
      exists (entry :: entries), pending, w'.
      rewrite Hrun. cbn. rewrite <- app_assoc. cbn.
      split; [done|by constructor].
    + rewrite Hret. eexists [], (Some e), _. cbn. rewrite app_nil_r.
      split; [done|constructor].
Qed.

Lemma run_list_kind (listing : prog (list resource)) (prefix : string)
    (models_list : list Model) (w : world) :
  ∃ entries w',
    run b (list_kind listing prefix models_list) w
    = Outcome (trace (run b listing w)) w' (Ok (models_list ++ entries))
    ∧ kind_entries prefix (returned (run b listing w)) entries.
Proof.
  unfold list_kind. rewrite run_bind, run_attempt. cbn.
  destruct (returned (run b listing w)) as [items|e] eqn:E; cbn.
  - destruct (run_append_entries prefix items models_list (final (run b listing w)))
      as (entries & pending & w' & Hrun & Hall).
    exists entries, w'. rewrite run_bind, Hrun. cbn. rewrite !app_nil_r.
    split; done.
  - exists [], (final (run b listing w)). by rewrite !app_nil_r.
Qed.

(** The items that are converted are a prefix of the listing that holds
    items that can be converted only; it is the whole listing when every
    item can be converted, and it stops where the listing has an item that
    cannot. *)
Lemma converted_items_prefix (items : list resource) :
  converted_items items `prefix_of` items
  ∧ forallb convertible (converted_items items) = true.
Proof.
  induction items as [|item items [IHp IHc]]; cbn; [split; [done|done]|].
  destruct (convertible item) eqn:E; cbn.
  - rewrite E. split; [by apply prefix_cons|done].
  - split; [apply prefix_nil|done].
Qed.

Lemma converted_items_all (items : list resource) :
  forallb convertible items = true → converted_items items = items.
Proof.
  induction items as [|item items IH]; cbn; [done|].
  destruct (convertible item); cbn; [|done]. intros Hrest. by rewrite IH.
Qed.

Lemma converted_items_stop (before after : list resource) (item : resource) :
  forallb convertible before = true →
  convertible item = false →
  converted_items (before ++ item :: after) = before.
Proof.
  intros Hbefore Hitem. induction before as [|first before IH]; cbn in *.
  - by rewrite Hitem.
  - destruct (convertible first); cbn in *; [|done]. by rewrite IH.
Qed.

(** C7, as amended: the models listing never fails, makes its four listing
    calls in order, and returns the entries of the four kinds in that
    order, where a kind whose listing call failed contributes nothing and a
    kind whose call succeeded contributes one entry, its id under the
    prefix of the kind, for each of its items before the first item that
    cannot be converted: for all of its items when each has a name and a
    creation time that is absent or parses, and for none of the items from
    the first that has not. *)
Theorem list_models_partial_failure (w : world) :
  ∃ (agents teams models tools : result (list resource))
    (from_agents from_teams from_models from_tools : list Model),
    trace (run b list_models w)
    = [Event (ArkClient "default" "v1alpha1") agents_a_list agents;
       Event (ArkClient "default" "v1alpha1") teams_a_list teams;
       Event (ArkClient "default" "v1alpha1") models_a_list models;
       Event (ArkClient "default" "v1alpha1") tools_a_list tools]
    ∧ returned (run b list_models w)
      = Ok {| list_object := "list";
              data := from_agents ++ from_teams ++ from_models ++ from_tools |}
    ∧ kind_entries "agent/" agents from_agents
    ∧ kind_entries "team/" teams from_teams
    ∧ kind_entries "model/" models from_models
    ∧ kind_entries "tool/" tools from_tools.
Proof.
  unfold list_models, with_ark_client.
  set (c := ArkClient "default" "v1alpha1").
  destruct (run_list_kind (await c agents_a_list) "agent/" [] w)
    as (ea & w1 & Hrun1 & Hkind1).
  destruct (run_list_kind (await c teams_a_list) "team/" ([] ++ ea) w1)
    as (et & w2 & Hrun2 & Hkind2).
  destruct (run_list_kind (await c models_a_list) "model/" (([] ++ ea) ++ et) w2)
    as (em & w3 & Hrun3 & Hkind3).
  destruct (run_list_kind (await c tools_a_list) "tool/" ((([] ++ ea) ++ et) ++ em) w3)
    as (el & w4 & Hrun4 & Hkind4).
  rewrite (run_await b c agents_a_list) in Hrun1, Hkind1.
  rewrite (run_await b c teams_a_list) in Hrun2, Hkind2.
  rewrite (run_await b c models_a_list) in Hrun3, Hkind3.
  rewrite (run_await b c tools_a_list) in Hrun4, Hkind4.
  cbn [trace returned] in *.
  eexists _, _, _, _, ea, et, em, el.
  rewrite run_bind, Hrun1. cbn [trace returned final].
  rewrite run_bind, Hrun2. cbn [trace returned final].
  rewrite run_bind, Hrun3. cbn [trace returned final].
  rewrite run_bind, Hrun4. cbn.
  rewrite <- !app_assoc. repeat split; done.
Qed.

(** C6, as amended: the creation time is the current server time when the
    metadata has no creation timestamp (or an empty one), and the function
    does not raise then; a timestamp that is there is parsed against the
    fixed format, and a parse failure is raised to the caller. *)
Theorem _parse_timestamp_fallback (metadata : gmap string value) (w : world) :
  (timestamp_of (VDict metadata) = None →
     returned (run b (_parse_timestamp (VDict metadata)) w) = Ok (clock b w).1)
  ∧ (∀ v, timestamp_of (VDict metadata) = Some v →
       returned (run b (_parse_timestamp (VDict metadata)) w) = parse_time v)
  ∧ (∀ s e, metadata !! "creationTimestamp" = Some (VStr s) → s ≠ "" →
       strptime s TIMESTAMP_FORMAT = Raise e →
       returned (run b (_parse_timestamp (VDict metadata)) w) = Raise e).
Proof.
  destruct (run_parse_timestamp (VDict metadata) w) as [_ Hret].
  rewrite Hret. unfold timestamp_of. cbn.
  destruct (metadata !! "creationTimestamp") as [ts|]; cbn.
  - destruct (py_truthy ts) eqn:E; repeat split; try done.
    + by intros v [= <-].
    + intros s e [= ->] Hs Hparse. cbn. by rewrite Hparse.
    + intros s e [= ->] Hs Hparse. by destruct s.
  - repeat split; done.
Qed.
End models.

(** ** The chat completion endpoint *)

Lemma calls_in_fmap {A B : Type} (P : ark_client → op → Prop) (f : A → B) (p : prog A) :
  calls_in P p → calls_in P (f <$> p).
Proof. intros Hp. by apply (calls_in_bind P p (λ a, Ret (f a))). Qed.

Ltac calls_step :=
  match goal with
  | |- calls_in _ (mbind _ _) => apply calls_in_bind; [|intros ?]
  | |- calls_in _ (try_except _ _) => apply calls_in_try_except; [|intros ?]
  | |- calls_in _ (fmap _ _) => apply calls_in_fmap
  | |- calls_in _ (lift _) => apply calls_in_lift
  | |- calls_in _ (await _ _) => by apply calls_in_await
  | |- calls_in _ (mret _) => exact I
  | |- calls_in _ (Throw _) => exact I
  | |- calls_in _ (if ?c then _ else _) => destruct c
  | |- calls_in _ (match ?x with Some _ => _ | None => _ end) => destruct x
  end.

Section chat.
Context `{PyRepr} `{Utils} {world : Type} (b : backend world).

Lemma try_get_streaming_url_calls (c : ark_client) (query_name namespace : string) :
  calls_in (λ c' _, c' = c) (try_get_streaming_url c query_name namespace).
Proof.
  unfold try_get_streaming_url, streaming_url_lookup. repeat calls_step.
Qed.

Lemma chat_completions_calls (request : ChatCompletionRequest) :
  (∀ c query_name model input_text,
     calls_in (λ c' _, c' = c) (poll_query_completion c query_name model input_text)) →
  calls_in (λ c _, c = ArkClient "default" "v1alpha1") (chat_completions request).
Proof.
  intros Hpoll. unfold chat_completions, with_ark_client.
  calls_step; [calls_step|].
  calls_step; [intros u; exact I|].
  repeat calls_step; try apply Hpoll; try apply try_get_streaming_url_calls.
Qed.

Lemma trace_try_except_quiet {A : Type} (p : prog A) (h : exn → prog A) (w : world) :
  (∀ e w', trace (run b (h e) w') = []) →
  trace (run b (try_except p h) w) = trace (run b p w).
Proof.
  intros Hquiet. rewrite run_try_except.
  destruct (returned (run b p w)); cbn; by rewrite ?Hquiet, ?app_nil_r.
Qed.

Lemma run_uuid4_hex_bind {A : Type} (f : string → prog A) (w : world) :
  run b (uuid4_hex ≫= f) w = run b (f (uuid4 b w).1) (uuid4 b w).2.
Proof. cbn. by destruct (uuid4 b w). Qed.

Lemma try_get_streaming_url_trace (c : ark_client) (query_name namespace : string)
    (w : world) :
  Forall (λ ev, ev_client ev = c)
    (trace (run b (try_get_streaming_url c query_name namespace) w)).
Proof.
  apply (calls_in_trace b (λ c' _, c' = c)), try_get_streaming_url_calls.
Qed.

(** The block of [chat_completions] under [with_ark_client]: the creation,
    the resolver's lookups when streaming is asked for, and then either a
    streaming response or the poller, which is handed the same client. *)
Lemma chat_block_trace (c : ark_client) (query_resource : QueryV1alpha1)
    (query_name model input_text : string) (streaming : bool)
    (respond : string → chat_response) (w : world) :
  ∃ response lookups,
    Forall (λ ev, ev_client ev = c) lookups
    ∧ (trace (run b
          (_ ← await c (queries_a_create query_resource);
           if streaming
           then
             streaming_url ← try_get_streaming_url c query_name "default";
             match streaming_url with
             | Some url =>
                 if str_truthy url then mret (respond url)
                 else Completed <$> poll_query_completion c query_name model input_text
             | None => Completed <$> poll_query_completion c query_name model input_text
             end
           else Completed <$> poll_query_completion c query_name model input_text) w)
       = Event c (queries_a_create query_resource) response :: lookups
       ∨ ∃ w',
           trace (run b
             (_ ← await c (queries_a_create query_resource);
              if streaming
              then
                streaming_url ← try_get_streaming_url c query_name "default";
                match streaming_url with
                | Some url =>
                    if str_truthy url then mret (respond url)
                    else Completed <$> poll_query_completion c query_name model input_text
                | None => Completed <$> poll_query_completion c query_name model input_text
                end
              else Completed <$> poll_query_completion c query_name model input_text) w)
           = Event c (queries_a_create query_resource) response :: lookups
             ++ trace (run b (poll_query_completion c query_name model input_text) w')).
Proof.
  rewrite run_bind, (run_await b c (queries_a_create query_resource)).
  cbn [trace returned final].
  exists (serve b c (queries_a_create query_resource) w).1.
  destruct (serve b c (queries_a_create query_resource) w) as [[created|e] w1];
    cbn [fst snd].
  2:{ exists []. split; [constructor|]. by left. }
  destruct streaming.
  - rewrite run_bind.
    pose proof (try_get_streaming_url_trace c query_name "default" w1) as Hlookups.
    set (o := run b (try_get_streaming_url c query_name "default") w1) in *.
    exists (trace o). split; [done|].
    destruct (returned o) as [[url|]|e]; cbn [trace returned final].
    + destruct (str_truthy url); cbn.
      * left. by rewrite app_nil_r.
      * right. exists (final o). by rewrite run_fmap.
    + right. exists (final o). by rewrite run_fmap.
    + left. done.
  - exists []. split; [constructor|]. right. exists w1. by rewrite run_fmap.
Qed.

(** C10: the chat completion endpoint works in the namespace ["default"]
    whatever the request holds.  When the model names a target, the first
    call creates a query whose metadata has that namespace, through the
    client of that namespace; the lookups that follow go through the same
    client; and if the poller is entered it is handed that client.  So
    every call is made in ["default"], provided the poller calls through
    the client it is given. *)
Theorem chat_completions_default_namespace
    (request : ChatCompletionRequest) (w : world) :
  match parse_model_to_query_target (model request) with
  | Raise _ => trace (run b (chat_completions request) w) = []
  | Ok target =>
      ∃ body response lookups,
        query_metadata body !! "namespace" = Some (VStr "default")
        ∧ spec_targets (query_spec body) = [target]
        ∧ Forall (λ ev, ev_client ev = default_client) lookups
        ∧ (trace (run b (chat_completions request) w)
             = Event default_client (queries_a_create body) response :: lookups
           ∨ ∃ query_name w',
               trace (run b (chat_completions request) w)
               = Event default_client (queries_a_create body) response :: lookups
                 ++ trace (run b (poll_query_completion default_client query_name
                                    (model request) (input_text_of request)) w'))
  end
  ∧ ((∀ c query_name model input_text,
        calls_in (λ c' _, c' = c) (poll_query_completion c query_name model input_text)) →
     Forall (λ ev, client_namespace (ev_client ev) = "default")
       (trace (run b (chat_completions request) w))).
Proof.
  split.
  - unfold chat_completions, with_ark_client.
    rewrite run_bind, run_lift. cbn [trace returned final].
    destruct (parse_model_to_query_target (model request)) as [target|e]; [|done].
    cbn zeta. rewrite run_uuid4_hex_bind. cbn [app].
    rewrite trace_try_except_quiet by (intros e w'; by destruct (is_HTTPException e)).
    match goal with
    | |- context [await _ (queries_a_create ?qr)] => set (query_resource := qr)
    end.
    destruct (chat_block_trace default_client query_resource
                ("openai-query-" +:+ take_chars 8 (uuid4 b w).1)
                (model request) (input_text_of request) (stream request)
                (λ url, Streaming
                   {| body_iterator := GenProxyStreamingResponse url;
                      media_type := "text/event-stream";
                      headers := <["Connection" := "keep-alive"]>
                                   (<["Cache-Control" := "no-cache"]> ∅) |})
                (uuid4 b w).2)
      as (response & lookups & Hlookups & Htrace).
    exists query_resource, response, lookups.
    split; [|split; [done|split; [done|]]].
    + subst query_resource. cbn. destruct (stream request); by simplify_map_eq.
    + destruct Htrace as [Htrace|[w' Htrace]]; [left|right; eexists _, w']; exact Htrace.
  - intros Hpoll. eapply Forall_impl.
    + apply calls_in_trace, chat_completions_calls, Hpoll.
    + cbn. by intros ev ->.
Qed.
End chat.

(** ** The relays when the upstream fails *)

Section relay_failures.
Context `{HttpClient}.

(** X1: when the upstream cannot be reached, the relay of the OpenAI path
    raises the connection error without having yielded anything, and the
    relay of the raw path catches it: it yields one error event that
    carries the message, and ends. *)
Theorem relay_connect_failure (url : string) (e : exn) :
  client_stream "GET" url = ConnectError e →
  proxy_streaming_response url = {| yielded := []; raised := Some e |}
  ∧ stream_proxy url =
    {| yielded := [error_event ("Streaming failed: " +:+ exn_str e)];
       raised := None |}.
Proof.
  intros Hconn. unfold proxy_streaming_response, stream_proxy. by rewrite Hconn.
Qed.

(** X2: when the body of a 200 answer breaks while it is read, both relays
    have forwarded what arrived before; the relay of the OpenAI path then
    raises the error, the relay of the raw path yields one last error event
    and ends, and what was left in its buffer is not forwarded. *)
Theorem relay_body_failure (url : string) (r : response) (e e' : exn) :
  client_stream "GET" url = Connected r →
  status_code r = 200 →
  failure (aiter_lines r) = Some e →
  failure (aiter_text r) = Some e' →
  proxy_streaming_response url =
    {| yielded := map (λ line, line +:+ NL +:+ NL)
                    (List.filter not_blank (items (aiter_lines r)));
       raised := Some e |}
  ∧ stream_proxy url =
    {| yielded :=
         map (λ line, line +:+ NL)
           (List.filter not_blank
              (complete_lines (concat_chunks (items (aiter_text r)))))
         ++ [error_event ("Streaming failed: " +:+ exn_str e')];
       raised := None |}.
Proof.
  intros Hconn Hstatus Hlines Htext. split.
  - unfold proxy_streaming_response. rewrite Hconn, Hstatus. cbn.
    by rewrite proxy_lines_filter, Hlines.
  - rewrite (stream_proxy_ok url r) by done. by rewrite Htext.
Qed.
End relay_failures.

(** X3: what the loop of [stream_proxy] yields, and the buffer it is left
    with, depend on the body only and not on how the upstream cuts it into
    chunks. *)
Theorem stream_chunks_chunking (chunks chunks' : list string) :
  concat_chunks chunks = concat_chunks chunks' →
  stream_chunks "" chunks = stream_chunks "" chunks'.
Proof.
  intros Hsame. rewrite !stream_chunks_split_lines by done. by rewrite Hsame.
Qed.

Lemma not_blank_filter_Forall (lines : list string) :
  forallb no_newline lines = true →
  Forall (λ chunk, ∃ line, chunk = line +:+ NL
                           ∧ no_newline line = true ∧ not_blank line = true)
    (map (λ line, line +:+ NL) (List.filter not_blank lines)).
Proof.
  intros Hlines. apply Forall_map, Forall_forall. intros line Hin.
  apply list_elem_of_In, List.filter_In in Hin as [Hin Hnb].
  exists line. split; [done|]. split; [|done].
  rewrite forallb_forall in Hlines. by apply Hlines.
Qed.

(** X4: every chunk the loop of [stream_proxy] yields is one line of the
    body that is not blank, with the newline that ends it and no other; and
    the buffer it keeps never holds a newline. *)
Theorem stream_chunks_whole_lines (chunks : list string) :
  Forall (λ chunk, ∃ line, chunk = line +:+ NL
                           ∧ no_newline line = true ∧ not_blank line = true)
    (stream_chunks "" chunks).1
  ∧ no_newline (stream_chunks "" chunks).2 = true.
Proof.
  rewrite stream_chunks_split_lines by done. cbn.
  destruct (split_lines_unlines ("" +:+ concat_chunks chunks)) as (_ & Hlines & Hrest).
  split; [by apply not_blank_filter_Forall|done].
Qed.

(** ** What the resolver reads *)


(** One expression of the resolver's [try] block: it gives a value, or it
    raises and the block ends there, after the calls made so far. *)
Ltac step_lift :=
  match goal with
  | |- context [lift ?r] =>
      destruct r as [?|?]; cbn;
      [|left; eexists; split; [done|]; intros ?; done]
  end.

Ltac step_lift' :=
  match goal with
  | |- context [lift ?r] =>
      destruct r as [?|?]; cbn;
      [|right; do 3 eexists; split; [done|]; intros ?; done]
  end.

Section resolver_more.
Context `{PyRepr} {world : Type} (b : backend world).

Lemma streaming_url_lookup_run (c : ark_client) (query_name : string) (w : world) :
  let o := run b (streaming_url_lookup c query_name) w in
  (∃ r1, trace o = [Event c (queries_a_get query_name) r1]
         ∧ ∀ url, returned o ≠ Ok (Some url))
  ∨ (∃ query memory_name r2,
       trace o = [Event c (queries_a_get query_name) (Ok query);
                  Event c (memories_a_get memory_name) r2]
       ∧ ∀ url, returned o = Ok (Some url) →
           ∃ memory base_url,
             r2 = Ok memory
             ∧ url = base_url +:+ "/stream/" +:+ query_name
                     +:+ "?from-beginning=true&wait-for-query=30s").
Proof.
  unfold streaming_url_lookup. cbn.
  destruct (serve b c (queries_a_get query_name) w) as [[query|e] w1]; cbn.
  2:{ left. eexists. split; [done|]. intros url. done. }
  step_lift. step_lift. step_lift. step_lift.
  match goal with
  | |- context [serve b c (memories_a_get ?m) w1] =>
      destruct (serve b c (memories_a_get m) w1) as [[memory|e] w2]; cbn
  end.
  2:{ right. do 3 eexists. split; [done|]. intros url. done. }
  repeat step_lift'.
  match goal with
  | |- context [negb (py_eq_str ?a "true")] => destruct (negb (py_eq_str a "true")); cbn
  end.
  { right. do 3 eexists. split; [done|]. intros url. done. }
  repeat step_lift'.
  match goal with
  | |- context [negb (py_truthy ?a)] => destruct (negb (py_truthy a)); cbn
  end.
  { right. do 3 eexists. split; [done|]. intros url. done. }
  right. do 3 eexists. split; [done|]. intros url [= <-]. by eexists _, _.
Qed.

(** X5: the resolver only reads.  It fetches the query, and, only when
    that succeeded, one memory; it makes no other call.  It yields a URL
    only when the memory was fetched too, and every URL it yields ends with
    the stream path of the query and the two parameters. *)
Theorem try_get_streaming_url_reads (c : ark_client) (query_name namespace : string)
    (w : world) :
  let o := run b (try_get_streaming_url c query_name namespace) w in
  (∃ r1, trace o = [Event c (queries_a_get query_name) r1] ∧ returned o = Ok None)
  ∨ (∃ query memory_name r2 streaming_url,
       trace o = [Event c (queries_a_get query_name) (Ok query);
                  Event c (memories_a_get memory_name) r2]
       ∧ returned o = Ok streaming_url
       ∧ ∀ url, streaming_url = Some url →
           ∃ memory base_url,
             r2 = Ok memory
             ∧ url = base_url +:+ "/stream/" +:+ query_name
                     +:+ "?from-beginning=true&wait-for-query=30s").
Proof.
  cbn zeta. unfold try_get_streaming_url. rewrite run_try_except.
  destruct (streaming_url_lookup_run c query_name w) as [(r1 & Htrace & Hnone)|Hboth].
  - left. exists r1.
    destruct (returned (run b (streaming_url_lookup c query_name) w))
      as [[url|]|e] eqn:E; cbn; rewrite ?E, ?app_nil_r; try done.
    by destruct (Hnone url).
  - right. destruct Hboth as (query & memory_name & r2 & Htrace & Hurl).
    exists query, memory_name, r2.
    destruct (returned (run b (streaming_url_lookup c query_name) w))
      as [streaming_url|e] eqn:E; cbn; rewrite ?E, ?app_nil_r.
    + exists streaming_url. split; [done|]. split; [done|].
      intros url ->. by apply Hurl.
    + exists None. split; [done|]. split; [done|]. done.
Qed.

Lemma try_get_streaming_url_truthy (c : ark_client) (query_name namespace : string)
    (w : world) (url : string) :
  returned (run b (try_get_streaming_url c query_name namespace) w) = Ok (Some url) →
  str_truthy url = true.
Proof.
  rewrite try_get_streaming_url_returned.
  destruct (streaming_url_lookup_run c query_name w)
    as [(r1 & _ & Hnone)|(query & memory_name & r2 & _ & Hform)].
  - destruct (returned (run b (streaming_url_lookup c query_name) w))
      as [[url'|]|e]; try done.
    by destruct (Hnone url').
  - destruct (returned (run b (streaming_url_lookup c query_name) w))
      as [[url'|]|e]; try done.
    intros [= ->]. destruct (Hform url eq_refl) as (_ & base_url & _ & ->).
    by destruct base_url.
Qed.
End resolver_more.

(** ** The paths of the chat endpoint *)

Section chat_more.
Context `{PyRepr} `{Utils} {world : Type} (b : backend world).

Lemma run_at_boundary {A : Type} (p : prog A) (w : world) :
  run b (try_except p
           (λ e, if is_HTTPException e then Throw e
                 else Throw (HTTPException 500 (exn_str e)))) w =
  Outcome (trace (run b p w)) (final (run b p w))
    (match returned (run b p w) with
     | Ok a => Ok a
     | Raise e => Raise (at_boundary e)
     end).
Proof. apply (run_handle_k8s_errors b "" "" p w). Qed.

Lemma chat_block_run (c : ark_client) (query_resource : QueryV1alpha1)
    (query_name model input_text : string) (streaming : bool)
    (respond : string → chat_response) (w : world) :
  run b
    (_ ← await c (queries_a_create query_resource);
     if streaming
     then
       streaming_url ← try_get_streaming_url c query_name "default";
       match streaming_url with
       | Some url =>
           if str_truthy url then mret (respond url)
           else Completed <$> poll_query_completion c query_name model input_text
       | None => Completed <$> poll_query_completion c query_name model input_text
       end
     else Completed <$> poll_query_completion c query_name model input_text) w
  = let created := serve b c (queries_a_create query_resource) w in
    let ev := Event c (queries_a_create query_resource) created.1 in
    let polled (lookups : list event) (w' : world) :=
      let o := run b (poll_query_completion c query_name model input_text) w' in
      Outcome (ev :: lookups ++ trace o) (final o)
        (match returned o with Ok x => Ok (Completed x) | Raise e => Raise e end) in
    match created.1 with
    | Raise e => Outcome [ev] created.2 (Raise e)
    | Ok _ =>
        if streaming
        then
          let t := run b (try_get_streaming_url c query_name "default") created.2 in
          match returned t with
          | Ok (Some url) =>
              if str_truthy url
              then Outcome (ev :: trace t) (final t) (Ok (respond url))
              else polled (trace t) (final t)
          | Ok None => polled (trace t) (final t)
          | Raise e => Outcome (ev :: trace t) (final t) (Raise e)
          end
        else polled [] created.2
    end.
Proof.
  rewrite run_bind, (run_await b c (queries_a_create query_resource)).
  cbn [trace returned final].
  destruct (serve b c (queries_a_create query_resource) w) as [[created|e] w1];
    cbn [fst snd]; [|done].
  destruct streaming.
  - rewrite run_bind.
    set (o := run b (try_get_streaming_url c query_name "default") w1).
    destruct (returned o) as [[url|]|e]; cbn [trace returned final].
    + destruct (str_truthy url); cbn.
      * by rewrite app_nil_r.
      * by rewrite run_fmap.
    + by rewrite run_fmap.
    + done.
  - by rewrite run_fmap.
Qed.

Lemma chat_completions_run (request : ChatCompletionRequest) (w : world)
    (target : query_target) :
  parse_model_to_query_target (model request) = Ok target →
  ∃ body,
    query_metadata body !! "name"
      = Some (VStr ("openai-query-" +:+ take_chars 8 (uuid4 b w).1))
    ∧ query_metadata body !! "annotations"
      = (if stream request
         then Some (VDict (<[STREAMING_ENABLED_ANNOTATION := VStr "true"]> ∅))
         else None)
    ∧ query_spec body
      = {| spec_input := input_text_of request; spec_targets := [target] |}
    ∧ run b (chat_completions request) w
      = let query_name := "openai-query-" +:+ take_chars 8 (uuid4 b w).1 in
        let created :=
          serve b default_client (queries_a_create body) (uuid4 b w).2 in
        let ev := Event default_client (queries_a_create body) created.1 in
        let polled (lookups : list event) (w' : world) :=
          let o := run b (poll_query_completion default_client query_name
                            (model request) (input_text_of request)) w' in
          Outcome (ev :: lookups ++ trace o) (final o)
            (match returned o with
             | Ok x => Ok (Completed x)
             | Raise e => Raise (at_boundary e)
             end) in
        match created.1 with
        | Raise e => Outcome [ev] created.2 (Raise (at_boundary e))
        | Ok _ =>
            if stream request
            then
              let t := run b (try_get_streaming_url default_client query_name
                                "default") created.2 in
              match returned t with
              | Ok (Some url) =>
                  if str_truthy url
                  then Outcome (ev :: trace t) (final t)
                         (Ok (Streaming
                                {| body_iterator := GenProxyStreamingResponse url;
                                   media_type := "text/event-stream";
                                   headers := <["Connection" := "keep-alive"]>
                                                (<["Cache-Control" := "no-cache"]> ∅) |}))
                  else polled (trace t) (final t)
              | Ok None => polled (trace t) (final t)
              | Raise e => Outcome (ev :: trace t) (final t) (Raise (at_boundary e))
              end
            else polled [] created.2
        end.
Proof.
  intros Hparse. unfold chat_completions, with_ark_client.
  rewrite run_bind, run_lift, Hparse. cbn [trace returned final]. cbn zeta.
  rewrite run_uuid4_hex_bind. cbn [app].
  match goal with
  | |- context [await _ (queries_a_create ?qr)] => set (query_resource := qr)
  end.
  exists query_resource.
  split; [subst query_resource; cbn; destruct (stream request); by simplify_map_eq|].
  split; [subst query_resource; cbn; destruct (stream request); by simplify_map_eq|].
  split; [done|].
  rewrite run_at_boundary, chat_block_run. cbn zeta.
  change (ArkClient "default" "v1alpha1") with default_client.
  fold (input_text_of request).
  destruct (serve b default_client (queries_a_create query_resource) (uuid4 b w).2)
    as [[created|e] w1]; cbn [fst snd]; [|done].
  assert (Hpolled : ∀ (lookups : list event) (w' : world),
    let o := run b (poll_query_completion default_client
                      ("openai-query-" +:+ take_chars 8 (uuid4 b w).1)
                      (model request) (input_text_of request)) w' in
    let o' := Outcome lookups (final o)
                (match returned o with
                 | Ok x => Ok (Completed x)
                 | Raise e => Raise e
                 end) in
    Outcome (trace o') (final o')
      (match returned o' with Ok a => Ok a | Raise e => Raise (at_boundary e) end)
    = Outcome lookups (final o)
        (match returned o with
         | Ok x => Ok (Completed x)
         | Raise e => Raise (at_boundary e)
         end)).
  { intros lookups w'. cbn.
    by destruct (returned (run b (poll_query_completion _ _ _ _) w')). }
  destruct (stream request); [|apply Hpolled].
  destruct (returned (run b (try_get_streaming_url default_client _ "default") w1))
    as [[url|]|e]; [|apply Hpolled|done].
  destruct (str_truthy url); [done|apply Hpolled].
Qed.

Lemma chat_completions_created (request : ChatCompletionRequest) (w : world)
    (body : QueryV1alpha1) :
  ev_op <$> head (trace (run b (chat_completions request) w))
    = Some (queries_a_create body) →
  ∃ target,
    parse_model_to_query_target (model request) = Ok target
    ∧ query_metadata body !! "annotations"
      = (if stream request
         then Some (VDict (<[STREAMING_ENABLED_ANNOTATION := VStr "true"]> ∅))
         else None)
    ∧ run b (chat_completions request) w
      = let query_name := "openai-query-" +:+ take_chars 8 (uuid4 b w).1 in
        let created :=
          serve b default_client (queries_a_create body) (uuid4 b w).2 in
        let ev := Event default_client (queries_a_create body) created.1 in
        let polled (lookups : list event) (w' : world) :=
          let o := run b (poll_query_completion default_client query_name
                            (model request) (input_text_of request)) w' in
          Outcome (ev :: lookups ++ trace o) (final o)
            (match returned o with
             | Ok x => Ok (Completed x)
             | Raise e => Raise (at_boundary e)
             end) in
        match created.1 with
        | Raise e => Outcome [ev] created.2 (Raise (at_boundary e))
        | Ok _ =>
            if stream request
            then
              let t := run b (try_get_streaming_url default_client query_name
                                "default") created.2 in
              match returned t with
              | Ok (Some url) =>
                  if str_truthy url
                  then Outcome (ev :: trace t) (final t)
                         (Ok (Streaming
                                {| body_iterator := GenProxyStreamingResponse url;
                                   media_type := "text/event-stream";
                                   headers := <["Connection" := "keep-alive"]>
                                                (<["Cache-Control" := "no-cache"]> ∅) |}))
                  else polled (trace t) (final t)
              | Ok None => polled (trace t) (final t)
              | Raise e => Outcome (ev :: trace t) (final t) (Raise (at_boundary e))
              end
            else polled [] created.2
        end.
Proof.
  intros Hhead.
  destruct (parse_model_to_query_target (model request)) as [target|e] eqn:Hparse.
  2:{ exfalso. revert Hhead. unfold chat_completions.
      by rewrite run_bind, run_lift, Hparse. }
  destruct (chat_completions_run request w target Hparse)
    as (body' & _ & Hann & _ & Hrun).
  exists target. split; [done|].
  assert (body = body') as ->; [|done].
  revert Hhead. rewrite Hrun. cbn zeta.
  destruct (serve b default_client (queries_a_create body') (uuid4 b w).2).1;
    [|by intros [= ->]].
  destruct (stream request); [|by intros [= ->]].
  destruct (returned (run b (try_get_streaming_url _ _ _) _)) as [[url|]|e];
    [|by intros [= ->]..].
  destruct (str_truthy url); by intros [= ->].
Qed.

Lemma chat_completions_invalid_target_run (request : ChatCompletionRequest)
    (w : world) (e : exn) :
  parse_model_to_query_target (model request) = Raise e →
  run b (chat_completions request) w = Outcome [] w (Raise e).
Proof.
  intros Hparse. unfold chat_completions. by rewrite run_bind, run_lift, Hparse.
Qed.

(** X6: a model that names no target makes the chat endpoint raise the
    parser's error as it is, outside the boundary that makes a 500 of other
    errors; no identifier is drawn and no call is made. *)
Theorem chat_completions_invalid_target (request : ChatCompletionRequest)
    (w : world) (e : exn) :
  parse_model_to_query_target (model request) = Raise e →
  run b (chat_completions request) w = Outcome [] w (Raise e).
Proof.
  intros Hparse. unfold chat_completions. by rewrite run_bind, run_lift, Hparse.
Qed.

(** X7: the first call of the chat endpoint creates a query named
    [openai-query-] and the first eight characters of a fresh identifier,
    whose input is the flattened conversation, and which carries the
    streaming annotation exactly when the request asks for a stream. *)
Theorem chat_completions_creates_query (request : ChatCompletionRequest)
    (w : world) (target : query_target) :
  parse_model_to_query_target (model request) = Ok target →
  ∃ body rest,
    trace (run b (chat_completions request) w)
      = Event default_client (queries_a_create body)
          (serve b default_client (queries_a_create body) (uuid4 b w).2).1 :: rest
    ∧ query_metadata body !! "name"
      = Some (VStr ("openai-query-" +:+ take_chars 8 (uuid4 b w).1))
    ∧ (query_metadata body !! "annotations"
       = if stream request
         then Some (VDict (<[STREAMING_ENABLED_ANNOTATION := VStr "true"]> ∅))
         else None)
    ∧ spec_input (query_spec body) = input_text_of request.
Proof.
  intros Hparse.
  destruct (chat_completions_run request w target Hparse)
    as (body & Hname & Hann & Hspec & Hrun).
  exists body. rewrite Hrun, Hspec. cbn zeta.
  destruct (serve b default_client (queries_a_create body) (uuid4 b w).2).1;
    [|by eexists].
  destruct (stream request); [|by eexists].
  destruct (returned (run b (try_get_streaming_url _ _ _) _)) as [[url|]|e];
    [|by eexists..].
  destruct (str_truthy url); by eexists.
Qed.

(** X8: when the creation of the query fails, the chat endpoint makes no
    further call, neither a lookup nor a poll, and raises the error as the
    boundary renders it. *)
Theorem chat_completions_create_failure (request : ChatCompletionRequest)
    (w : world) (body : QueryV1alpha1) (e : exn) (w1 : world) :
  ev_op <$> head (trace (run b (chat_completions request) w))
    = Some (queries_a_create body) →
  serve b default_client (queries_a_create body) (uuid4 b w).2 = (Raise e, w1) →
  run b (chat_completions request) w
  = Outcome [Event default_client (queries_a_create body) (Raise e)] w1
      (Raise (at_boundary e)).
Proof.
  intros Hhead Hcreate.
  destruct (chat_completions_created request w body Hhead) as (_ & _ & _ & ->).
  by rewrite Hcreate.
Qed.

(** X9: without [stream], the chat endpoint never consults the resolver:
    the query it creates has no annotations, and after the creation it
    only runs the poller, whose completion it returns and whose error it
    raises as the boundary renders it. *)
Theorem chat_completions_without_stream (request : ChatCompletionRequest)
    (w : world) (body : QueryV1alpha1) (created : resource) (w1 : world) :
  stream request = false →
  ev_op <$> head (trace (run b (chat_completions request) w))
    = Some (queries_a_create body) →
  serve b default_client (queries_a_create body) (uuid4 b w).2 = (Ok created, w1) →
  query_metadata body !! "annotations" = None
  ∧ run b (chat_completions request) w
    = let o := run b (poll_query_completion default_client
                        ("openai-query-" +:+ take_chars 8 (uuid4 b w).1)
                        (model request) (input_text_of request)) w1 in
      Outcome (Event default_client (queries_a_create body) (Ok created) :: trace o)
        (final o)
        (match returned o with
         | Ok completion => Ok (Completed completion)
         | Raise e => Raise (at_boundary e)
         end).
Proof.
  intros Hstream Hhead Hcreate.
  destruct (chat_completions_created request w body Hhead) as (_ & _ & Hann & ->).
  by rewrite Hann, Hcreate, Hstream.
Qed.

(** X10: with [stream], when the resolver yields a URL, the chat endpoint
    answers with an event stream relayed from that URL and the poller is
    never entered: the calls are the creation and the resolver's reads. *)
Theorem chat_completions_streams (request : ChatCompletionRequest)
    (w : world) (body : QueryV1alpha1) (created : resource) (w1 : world)
    (url : string) :
  stream request = true →
  ev_op <$> head (trace (run b (chat_completions request) w))
    = Some (queries_a_create body) →
  serve b default_client (queries_a_create body) (uuid4 b w).2 = (Ok created, w1) →
  returned (run b (try_get_streaming_url default_client
                     ("openai-query-" +:+ take_chars 8 (uuid4 b w).1) "default") w1)
    = Ok (Some url) →
  run b (chat_completions request) w
  = let t := run b (try_get_streaming_url default_client
                      ("openai-query-" +:+ take_chars 8 (uuid4 b w).1) "default") w1 in
    Outcome (Event default_client (queries_a_create body) (Ok created) :: trace t)
      (final t)
      (Ok (Streaming
             {| body_iterator := GenProxyStreamingResponse url;
                media_type := "text/event-stream";
                headers := <["Connection" := "keep-alive"]>
                             (<["Cache-Control" := "no-cache"]> ∅) |})).
Proof.
  intros Hstream Hhead Hcreate Hurl.
  destruct (chat_completions_created request w body Hhead) as (_ & _ & _ & ->).
  rewrite Hcreate, Hstream. cbn [fst snd]. cbn zeta. rewrite Hurl.
  by rewrite (try_get_streaming_url_truthy b _ _ _ _ _ Hurl).
Qed.

(** X11: with [stream], when the resolver yields nothing, the chat
    endpoint falls back to the poller, from the state the resolver's reads
    left, and answers as a request without [stream] does. *)
Theorem chat_completions_falls_back (request : ChatCompletionRequest)
    (w : world) (body : QueryV1alpha1) (created : resource) (w1 : world) :
  stream request = true →
  ev_op <$> head (trace (run b (chat_completions request) w))
    = Some (queries_a_create body) →
  serve b default_client (queries_a_create body) (uuid4 b w).2 = (Ok created, w1) →
  returned (run b (try_get_streaming_url default_client
                     ("openai-query-" +:+ take_chars 8 (uuid4 b w).1) "default") w1)
    = Ok None →
  run b (chat_completions request) w
  = let t := run b (try_get_streaming_url default_client
                      ("openai-query-" +:+ take_chars 8 (uuid4 b w).1) "default") w1 in
    let o := run b (poll_query_completion default_client
                      ("openai-query-" +:+ take_chars 8 (uuid4 b w).1)
                      (model request) (input_text_of request)) (final t) in
    Outcome (Event default_client (queries_a_create body) (Ok created)
               :: trace t ++ trace o)
      (final o)
      (match returned o with
       | Ok completion => Ok (Completed completion)
       | Raise e => Raise (at_boundary e)
       end).
Proof.
  intros Hstream Hhead Hcreate Hnone.
  destruct (chat_completions_created request w body Hhead) as (_ & _ & _ & ->).
  rewrite Hcreate, Hstream. cbn [fst snd]. cbn zeta. by rewrite Hnone.
Qed.

Lemma is_HTTPException_at_boundary (e : exn) : is_HTTPException (at_boundary e) = true.
Proof. unfold at_boundary. by destruct (is_HTTPException e) eqn:E. Qed.

(** X12: whatever the chat endpoint raises is an HTTP error, unless it is
    the parser's error for the model of the request.  (Building the query
    object from a text and a parsed target is taken not to raise.) *)
Theorem chat_completions_raises_http (request : ChatCompletionRequest)
    (w : world) (e : exn) :
  returned (run b (chat_completions request) w) = Raise e →
  parse_model_to_query_target (model request) = Raise e
  ∨ is_HTTPException e = true.
Proof.
  destruct (parse_model_to_query_target (model request)) as [target|e'] eqn:Hparse.
  2:{ rewrite (chat_completions_invalid_target_run request w e' Hparse). cbn.
      intros [= ->]. by left. }
  destruct (chat_completions_run request w target Hparse) as (body & _ & _ & _ & ->).
  cbn zeta. intros Hraise. right. revert Hraise.
  destruct (serve b default_client (queries_a_create body) (uuid4 b w).2).1;
    cbn [returned]; [|intros [= <-]; apply is_HTTPException_at_boundary].
  assert (Hpolled : ∀ o : outcome world ChatCompletion,
    match returned o with
    | Ok completion => Ok (Completed completion)
    | Raise e0 => Raise (at_boundary e0)
    end = Raise e → is_HTTPException e = true).
  { intros o. destruct (returned o); [done|].
    intros [= <-]. apply is_HTTPException_at_boundary. }
  destruct (stream request); [|apply Hpolled].
  destruct (returned (run b (try_get_streaming_url _ _ _) _)) as [[url|]|e''];
    cbn [returned].
  - destruct (str_truthy url); [done|apply Hpolled].
  - apply Hpolled.
  - intros [= <-]. apply is_HTTPException_at_boundary.
Qed.
End chat_more.

(** ** The conversions of queries.py *)

Arguments query_to_detail_response : simpl never.
Arguments query_to_response : simpl never.

Section conversions_facts.
Context `{PyRepr} `{DateTimeLib}.

(** X13: in a listing entry, a creation time that is absent stays absent
    and nothing is parsed; one that is a text is parsed after each [Z] in it
    is replaced by [+00:00], and a text that does not parse makes the
    conversion raise; one that is there but is not a text, [None] included,
    makes it raise an [AttributeError] and does not count as absent. *)
Theorem query_to_response_timestamp (d m s : gmap string value)
    (name namespace input : value) :
  d !! "metadata" = Some (VDict m) →
  d !! "spec" = Some (VDict s) →
  m !! "name" = Some name →
  m !! "namespace" = Some namespace →
  s !! "input" = Some input →
  let response creation_timestamp :=
    {| response_name := name;
       response_namespace := namespace;
       response_input := input;
       response_memory := default VNone (s !! "memory");
       response_sessionId := default VNone (s !! "sessionId");
       response_status := default VNone (d !! "status");
       response_creationTimestamp := creation_timestamp |} in
  query_to_response (VDict d) =
  match m !! "creationTimestamp" with
  | None => Ok (response None)
  | Some (VStr timestamp) =>
      match fromisoformat (replace_char "Z" "+00:00" timestamp) with
      | Ok parsed => Ok (response (Some parsed))
      | Raise e => Raise e
      end
  | Some v => Raise (AttributeError
                       ("'" +:+ type_name v +:+ "' object has no attribute 'replace'"))
  end.
Proof.
  intros Hm Hs Hname Hnamespace Hinput. cbn zeta.
  unfold query_to_response. cbn. rewrite Hm. cbn.
  destruct (m !! "creationTimestamp") as [v|] eqn:Hts; cbn.
  - rewrite ?Hts. cbn.
    destruct v; cbn; try done.
    destruct (fromisoformat _); cbn; [|done].
    rewrite Hname. cbn. rewrite Hnamespace. cbn. rewrite Hs. cbn. by rewrite Hinput.
  - rewrite Hname. cbn. rewrite Hnamespace. cbn. rewrite Hs. cbn. by rewrite Hinput.
Qed.

Lemma annotation_of_dict (d m : gmap string value) (key : string) :
  d !! "metadata" = Some (VDict m) →
  annotation_of (VDict d) key
  = match m !! "annotations" with
    | Some (VDict a) => a !! key
    | _ => None
    end.
Proof.
  intros Hm. unfold annotation_of. cbn. rewrite Hm. cbn.
  destruct (m !! "annotations") as [[]|]; try done. cbn. by destruct (_ !! key).
Qed.

Lemma session_of_dict (d m s : gmap string value) :
  d !! "metadata" = Some (VDict m) →
  d !! "spec" = Some (VDict s) →
  session_of (VDict d)
  = py_or (default VNone (s !! "sessionId"))
      (VStr (py_str (default (VStr "") (m !! "uid")))).
Proof.
  intros Hm Hs. unfold session_of, py_or. cbn. rewrite Hm, Hs. cbn.
  destruct (s !! "sessionId") as [session|]; cbn; [|by destruct (m !! "uid")].
  destruct (py_truthy session); by destruct (m !! "uid").
Qed.

Lemma query_to_detail_response_ok (d m s : gmap string value)
    (name namespace input : value) :
  d !! "metadata" = Some (VDict m) →
  d !! "spec" = Some (VDict s) →
  absent_or_dict (m !! "annotations") = true →
  m !! "name" = Some name →
  m !! "namespace" = Some namespace →
  s !! "input" = Some input →
  query_to_detail_response (VDict d) =
  Ok {| detail_name := name;
        detail_namespace := namespace;
        detail_input := input;
        detail_memory := default VNone (s !! "memory");
        detail_parameters := default VNone (s !! "parameters");
        detail_selector := default VNone (s !! "selector");
        detail_serviceAccount := default VNone (s !! "serviceAccount");
        detail_sessionId := default VNone (s !! "sessionId");
        detail_streaming :=
          if py_eq_str (default VNone (annotation_of (VDict d) "ark.mckinsey.com/streaming-enabled")) "true"
          then Some {| info_enabled := true;
                       info_url := "/api/v1/namespaces/" +:+ py_str namespace
                                   +:+ "/queries/" +:+ py_str name +:+ "/stream";
                       info_sessionId := session_of (VDict d) |}
          else None;
        detail_targets := default VNone (s !! "targets");
        detail_timeout := default VNone (s !! "timeout");
        detail_ttl := default VNone (s !! "ttl");
        detail_cancel := default VNone (s !! "cancel");
        detail_evaluators := default VNone (s !! "evaluators");
        detail_evaluatorSelector := default VNone (s !! "evaluatorSelector");
        detail_status := default VNone (d !! "status") |}.
Proof.
  intros Hm Hs Hann Hname Hnamespace Hinput.
  rewrite (annotation_of_dict d m) by done.
  rewrite (session_of_dict d m s) by done.
  unfold query_to_detail_response, py_or. cbn. rewrite Hs. cbn.
  rewrite Hm. cbn.
  destruct (m !! "annotations") as [[| | | | |a]|]; try done; cbn.
  - destruct (py_eq_str (default VNone (a !! _)) "true"); cbn.
    + rewrite Hnamespace. cbn. rewrite Hname. cbn. rewrite Hinput. cbn.
      by destruct (py_truthy (default VNone (s !! "sessionId"))).
    + rewrite Hname. cbn. rewrite Hnamespace. cbn. by rewrite Hinput.
  - rewrite lookup_empty. cbn.
    rewrite Hname. cbn. rewrite Hnamespace. cbn. by rewrite Hinput.
Qed.

Ltac missing_key key :=
  exists key; split; [reflexivity|auto].

Lemma query_to_detail_response_missing (d m s : gmap string value) :
  d !! "metadata" = Some (VDict m) →
  d !! "spec" = Some (VDict s) →
  absent_or_dict (m !! "annotations") = true →
  m !! "name" = None ∨ m !! "namespace" = None ∨ s !! "input" = None →
  ∃ key, query_to_detail_response (VDict d) = Raise (KeyError ("'" +:+ key +:+ "'"))
         ∧ (key = "name" ∨ key = "namespace" ∨ key = "input").
Proof.
  intros Hm Hs Hann Hmissing.
  unfold query_to_detail_response. cbn. rewrite Hs. cbn. rewrite Hm. cbn.
  assert (Hsome : ¬ (is_Some (m !! "name") ∧ is_Some (m !! "namespace")
                     ∧ is_Some (s !! "input"))).
  { intros ([? Hname] & [? Hnamespace] & [? Hinput]).
    destruct Hmissing as [|[|]]; congruence. }
  destruct (m !! "annotations") as [[| | | | |a]|]; try done; cbn;
    rewrite ?lookup_empty; cbn;
    try destruct (py_eq_str (default VNone (a !! _)) "true"); cbn;
    try destruct (py_truthy (default VNone (s !! "sessionId"))); cbn;
    destruct (m !! "name"), (m !! "namespace"), (s !! "input"); cbn;
    first [ by destruct Hsome; eauto
          | missing_key "name" | missing_key "namespace" | missing_key "input" ].
Qed.

(** X14: the detail of a query advertises a stream exactly when the
    query's streaming annotation is the string ["true"]; the stream it
    advertises is the route [/api/v1/namespaces/<namespace>/queries/<name>/stream]
    of the query's own metadata, with the session the query belongs to:
    its [sessionId], or else its uid. *)
Theorem query_to_detail_response_streaming (d m s : gmap string value)
    (r : QueryDetailResponse) :
  d !! "metadata" = Some (VDict m) →
  d !! "spec" = Some (VDict s) →
  absent_or_dict (m !! "annotations") = true →
  query_to_detail_response (VDict d) = Ok r →
  match detail_streaming r with
  | Some info =>
      annotation_of (VDict d) "ark.mckinsey.com/streaming-enabled" = Some (VStr "true")
      ∧ info_enabled info = true
      ∧ (∃ namespace name,
           m !! "namespace" = Some namespace ∧ m !! "name" = Some name
           ∧ info_url info = "/api/v1/namespaces/" +:+ py_str namespace
                             +:+ "/queries/" +:+ py_str name +:+ "/stream")
      ∧ info_sessionId info = session_of (VDict d)
  | None =>
      annotation_of (VDict d) "ark.mckinsey.com/streaming-enabled" ≠ Some (VStr "true")
  end.
Proof.
  intros Hm Hs Hann Hr.
  destruct (m !! "name") as [name|] eqn:Hname;
    [destruct (m !! "namespace") as [namespace|] eqn:Hnamespace;
       [destruct (s !! "input") as [input|] eqn:Hinput|]|].
  2-4: destruct (query_to_detail_response_missing d m s Hm Hs Hann) as (key & Hkey & _);
    [tauto|congruence].
  rewrite (query_to_detail_response_ok d m s name namespace input) in Hr by done.
  injection Hr as <-. cbn.
  destruct (py_eq_str _ "true") eqn:E.
  - apply py_eq_str_default in E. repeat split; try done. by exists namespace, name.
  - intros Hc. apply py_eq_str_default in Hc. congruence.
Qed.

Lemma query_to_detail_response_annotations (d m s : gmap string value) (v : value) :
  d !! "metadata" = Some (VDict m) →
  d !! "spec" = Some (VDict s) →
  m !! "annotations" = Some v →
  absent_or_dict (Some v) = false →
  query_to_detail_response (VDict d)
  = Raise (AttributeError ("'" +:+ type_name v +:+ "' object has no attribute 'get'")).
Proof.
  intros Hm Hs Hann Hv.
  unfold query_to_detail_response. cbn. rewrite Hs. cbn. rewrite Hm. cbn.
  rewrite Hann. cbn. by destruct v.
Qed.

(** X15: the detail of a query whose metadata and spec are dictionaries
    is given exactly when the annotations of the metadata are absent or a
    dictionary, the metadata has a name and a namespace, and the spec has an
    input.  Annotations that are there and are not a dictionary, [None]
    included, make the conversion raise an [AttributeError], whatever else
    the query holds; with annotations that are absent or a dictionary, what
    it raises is a [KeyError] for one of the three keys.  The other
    attributes of the spec, and the status, are optional and read as [None]
    when they are missing. *)
Theorem query_to_detail_response_required (d m s : gmap string value) :
  d !! "metadata" = Some (VDict m) →
  d !! "spec" = Some (VDict s) →
  ((∃ r, query_to_detail_response (VDict d) = Ok r)
   ↔ absent_or_dict (m !! "annotations") = true
     ∧ is_Some (m !! "name") ∧ is_Some (m !! "namespace") ∧ is_Some (s !! "input"))
  ∧ (∀ e, query_to_detail_response (VDict d) = Raise e →
       match m !! "annotations" with
       | None | Some (VDict _) =>
           e = KeyError "'name'" ∨ e = KeyError "'namespace'" ∨ e = KeyError "'input'"
       | Some v =>
           e = AttributeError ("'" +:+ type_name v +:+ "' object has no attribute 'get'")
       end)
  ∧ (∀ r, query_to_detail_response (VDict d) = Ok r →
       detail_memory r = default VNone (s !! "memory")
       ∧ detail_sessionId r = default VNone (s !! "sessionId")
       ∧ detail_cancel r = default VNone (s !! "cancel")
       ∧ detail_status r = default VNone (d !! "status")).
Proof.
  intros Hm Hs.
  destruct (absent_or_dict (m !! "annotations")) eqn:Hann.
  2:{ destruct (m !! "annotations") as [v|] eqn:Hv; [|done].
      rewrite (query_to_detail_response_annotations d m s v Hm Hs Hv Hann).
      split; [split; [by intros [? ?]|by intros [? _]]|].
      split; [|done]. intros e [= <-]. by destruct v. }
  assert (∀ e : exn,
            e = KeyError "'name'" ∨ e = KeyError "'namespace'" ∨ e = KeyError "'input'" →
            match m !! "annotations" with
            | None | Some (VDict _) =>
                e = KeyError "'name'" ∨ e = KeyError "'namespace'"
                ∨ e = KeyError "'input'"
            | Some v =>
                e = AttributeError
                      ("'" +:+ type_name v +:+ "' object has no attribute 'get'")
            end) as Hkeys.
  { intros e He. by destruct (m !! "annotations") as [[]|]. }
  destruct (m !! "name") as [name|] eqn:Hname;
    [destruct (m !! "namespace") as [namespace|] eqn:Hnamespace;
       [destruct (s !! "input") as [input|] eqn:Hinput|]|].
  2-4: destruct (query_to_detail_response_missing d m s Hm Hs Hann)
         as (key & Hkey & Hwhich); [tauto|]; rewrite Hkey;
       (split; [split; [by intros [? ?]|];
                intros (_ & Hn & Hns & Hi);
                by first [destruct Hn|destruct Hns|destruct Hi]|]);
       (split; [|done]);
       intros e Heq; injection Heq as <-; apply Hkeys;
       destruct Hwhich as [Hk|[Hk|Hk]]; rewrite Hk; auto.
  rewrite (query_to_detail_response_ok d m s name namespace input) by done.
  split; [|split].
  - split; [eauto|]. intros _. eauto.
  - done.
  - by intros r [= <-].
Qed.
End conversions_facts.

Section get_query_facts.
Context `{PyRepr} {world : Type} (b : backend world).

Lemma get_query_run (namespace query_name : string) (w : world) :
  run b (get_query namespace query_name) w =
  let fetched := serve b (ArkClient namespace VERSION) (queries_a_get query_name) w in
  Outcome [Event (ArkClient namespace VERSION) (queries_a_get query_name) fetched.1]
    fetched.2
    (match (query ← (fetched.1 : result resource);
            query_dict ← to_dict query;
            query_to_detail_response query_dict) with
     | Ok r => Ok r
     | Raise e => Raise (at_boundary e)
     end).
Proof.
  unfold get_query. rewrite run_handle_k8s_errors. unfold with_ark_client.
  rewrite run_bind, (run_await b _ (queries_a_get query_name)). cbn zeta.
  cbn [trace final returned].
  destruct (serve b _ (queries_a_get query_name) w) as [[query|e] w1]; cbn; [|done].
  destruct (to_dict query) as [query_dict|e]; cbn; [|done].
  by destruct (query_to_detail_response query_dict).
Qed.

Lemma resource_shaped_parts (query_dict : value) (r : QueryDetailResponse) :
  resource_shaped query_dict = true →
  query_to_detail_response query_dict = Ok r →
  ∃ d m s,
    query_dict = VDict d
    ∧ d !! "metadata" = Some (VDict m)
    ∧ d !! "spec" = Some (VDict s)
    ∧ absent_or_dict (m !! "annotations") = true.
Proof.
  destruct query_dict as [| | | | |d]; try done.
  unfold resource_shaped, query_to_detail_response. cbn.
  destruct (d !! "spec") as [[| | | | |s]|] eqn:Hs; cbn;
    rewrite ?andb_false_r; try done.
  destruct (d !! "metadata") as [[| | | | |m]|] eqn:Hm; cbn;
    rewrite ?andb_false_r; try done.
  intros Hshape _. exists d, m, s. repeat split; try done.
  by destruct (m !! "annotations") as [[]|].
Qed.

Lemma stream_query_body_passes
    (namespace query_name : string) (w : world)
    (query : resource) (w1 : world) (query_dict : value) :
  serve b (ArkClient namespace VERSION) (queries_a_get query_name) w = (Ok query, w1) →
  to_dict query = Ok query_dict →
  resource_shaped query_dict = true →
  annotation_of query_dict "ark.mckinsey.com/streaming-enabled" = Some (VStr "true") →
  ∃ fetched,
    trace (run b (stream_query_body namespace query_name) w)
    = [Event (ArkClient namespace VERSION) (queries_a_get query_name) (Ok query);
       Event (ArkClient namespace VERSION) (memories_a_get (memory_ref query_dict))
         fetched]
    ∧ ∀ response,
        returned (run b (stream_query_body namespace query_name) w) = Ok response →
        ∃ base_url,
          body_iterator response
          = GenStreamProxy (base_url +:+ "/stream/" +:+ py_str (session_of query_dict)).
Proof.
  intros Hq Hqd Hshape Hann.
  destruct (serve b (ArkClient namespace VERSION)
              (memories_a_get (memory_ref query_dict)) w1) as [[memory|e] w2] eqn:Hm.
  2:{ exists (Raise e).
      unfold stream_query_body, with_ark_client. cbn. rewrite Hq. cbn. rewrite Hqd. cbn.
      rewrite lift_bind3.
      fold (read_annotation query_dict "ark.mckinsey.com/streaming-enabled").
      rewrite read_annotation_shaped by done. cbn. rewrite Hann. cbn.
      rewrite lift_bind3. fold (read_memory_name query_dict).
      rewrite read_memory_name_shaped by done. cbn. rewrite Hm. cbn. done. }
  exists (Ok memory).
  destruct (to_dict memory) as [memory_dict|e] eqn:Hmd.
  2:{ unfold stream_query_body, with_ark_client. cbn. rewrite Hq. cbn. rewrite Hqd. cbn.
      rewrite lift_bind3.
      fold (read_annotation query_dict "ark.mckinsey.com/streaming-enabled").
      rewrite read_annotation_shaped by done. cbn. rewrite Hann. cbn.
      rewrite lift_bind3. fold (read_memory_name query_dict).
      rewrite read_memory_name_shaped by done. cbn. rewrite Hm. cbn. rewrite Hmd.
      done. }
  rewrite (stream_query_body_enabled b namespace query_name w query w1 query_dict
             memory w2 memory_dict) by done.
  split; [done|]. cbn. intros response.
  destruct (read_address memory_dict) as [base_url|e]; cbn; [|done].
  destruct (py_truthy base_url); [|done].
  intros [= <-]. by exists (py_str base_url).
Qed.

(** X16: [get_query] and [stream_query] agree on the same server.  When
    the detail [get_query] gives advertises no stream, [stream_query]
    refuses the query with a 400; when it advertises one, [stream_query]
    goes on to fetch the query's memory, and the stream it answers with, if
    it answers, is that of the advertised session. *)
Theorem get_query_advertises_stream
    (namespace query_name : string) (w : world)
    (query : resource) (w1 : world) (query_dict : value) (r : QueryDetailResponse) :
  serve b (ArkClient namespace VERSION) (queries_a_get query_name) w = (Ok query, w1) →
  to_dict query = Ok query_dict →
  resource_shaped query_dict = true →
  returned (run b (get_query namespace query_name) w) = Ok r →
  match detail_streaming r with
  | None =>
      returned (run b (stream_query namespace query_name) w)
      = Raise (HTTPException 400 "Streaming not enabled for this query")
  | Some info =>
      (∃ fetched,
         trace (run b (stream_query namespace query_name) w)
         = [Event (ArkClient namespace VERSION) (queries_a_get query_name) (Ok query);
            Event (ArkClient namespace VERSION)
              (memories_a_get (memory_ref query_dict)) fetched])
      ∧ ∀ response,
          returned (run b (stream_query namespace query_name) w) = Ok response →
          ∃ base_url,
            body_iterator response
            = GenStreamProxy (base_url +:+ "/stream/" +:+ py_str (info_sessionId info))
  end.
Proof.
  intros Hq Hqd Hshape Hget.
  rewrite get_query_run, Hq in Hget. cbn in Hget. rewrite Hqd in Hget. cbn in Hget.
  destruct (query_to_detail_response query_dict) as [r'|e] eqn:Hr; [|done].
  injection Hget as ->.
  destruct (resource_shaped_parts query_dict r Hshape Hr)
    as (d & m & s & -> & Hm & Hs & Hann).
  destruct (m !! "name") as [name|] eqn:Hname;
    [destruct (m !! "namespace") as [name_space|] eqn:Hnamespace;
       [destruct (s !! "input") as [input|] eqn:Hinput|]|].
  2-4: destruct (query_to_detail_response_missing d m s Hm Hs Hann) as (key & Hkey & _);
    [tauto|congruence].
  rewrite (query_to_detail_response_ok d m s name name_space input) in Hr by done.
  injection Hr as <-. cbn [detail_streaming].
  unfold stream_query. rewrite run_handle_k8s_errors. cbn [trace returned].
  destruct (py_eq_str _ "true") eqn:Henabled.
  - apply py_eq_str_default in Henabled. cbn [info_sessionId].
    destruct (stream_query_body_passes namespace query_name w query w1 (VDict d)
                Hq Hqd Hshape Henabled) as (fetched & Htrace & Hbody).
    split; [by exists fetched|].
    intros response.
    destruct (returned (run b (stream_query_body namespace query_name) w))
      as [response'|e] eqn:E; [|done].
    intros [= <-]. by apply Hbody.
  - rewrite (stream_query_body_not_enabled b namespace query_name w query w1 (VDict d));
      try done.
    intros Hc. apply py_eq_str_default in Hc. congruence.
Qed.
End get_query_facts.

(** ** The routes that list and change queries *)

Section route_facts.
Context {world : Type} (b : query_backend world).

Lemma route_outcome_eta {A : Type} (o : route_outcome world A) :
  RouteOutcome (calls o) (left_in o) (answered o) = o.
Proof. by destruct o. Qed.

Lemma route_run_bind {A B : Type} (p : route A) (f : A → route B) (w : world) :
  route_run b (p ≫= f) w =
  match answered (route_run b p w) with
  | Ok a =>
      let o := route_run b (f a) (left_in (route_run b p w)) in
      RouteOutcome (calls (route_run b p w) ++ calls o) (left_in o) (answered o)
  | Raise e =>
      RouteOutcome (calls (route_run b p w)) (left_in (route_run b p w)) (Raise e)
  end.
Proof.
  revert w. induction p as [a|e|c o k IH]; intros w; cbn.
  - by rewrite route_outcome_eta.
  - done.
  - destruct (query_serve b c o w) as [r w']. cbn.
    change (route_bind f (k r)) with (k r ≫= f). rewrite IH.
    by destruct (answered (route_run b (k r) w')).
Qed.

Lemma route_run_handle_k8s_errors {A : Type} (operation resource_type : string)
    (handler : route A) (w : world) :
  route_run b (route_handle_k8s_errors operation resource_type handler) w =
  RouteOutcome (calls (route_run b handler w)) (left_in (route_run b handler w))
    (match answered (route_run b handler w) with
     | Ok a => Ok a
     | Raise e => Raise (at_boundary e)
     end).
Proof.
  revert w. induction handler as [a|e|c o k IH]; intros w; cbn.
  - done.
  - unfold at_boundary. by destruct (is_HTTPException e).
  - destruct (query_serve b c o w) as [r w']. cbn. by rewrite IH.
Qed.

Lemma route_run_evaluate {A : Type} (r : result A) (w : world) :
  route_run b (evaluate r) w = RouteOutcome [] w r.
Proof. by destruct r. Qed.

Lemma route_run_awaiting (c : ark_client) (o : query_op) (w : world) :
  route_run b (awaiting c o) w =
  RouteOutcome [QueryEvent c o (query_serve b c o w).1] (query_serve b c o w).2
    (query_serve b c o w).1.
Proof.
  unfold awaiting. cbn. destruct (query_serve b c o w) as [r w']. cbn.
  by rewrite route_run_evaluate.
Qed.
End route_facts.

Lemma mapM_result_cons {A B : Type} (f : A → result B) (x : A) (l : list A) :
  mapM f (x :: l) = (y ← f x; k ← mapM f l; mret (y :: k)).
Proof. done. Qed.

Lemma mapM_result_Ok {A B : Type} (f : A → result B) (l : list A) (ks : list B) :
  mapM f l = Ok ks ↔ Forall2 (λ x y, f x = Ok y) l ks.
Proof.
  revert ks. induction l as [|x l IH]; intros ks.
  - split; [intros [= <-]; constructor|]. by intros ->%Forall2_nil_inv_l.
  - rewrite mapM_result_cons. split.
    + destruct (f x) as [y|e] eqn:Hx; [|done]. cbn.
      destruct (mapM f l) as [k|e] eqn:Hl; [|done]. cbn.
      intros [= <-]. constructor; [done|]. by apply IH.
    + intros (y & k & Hy & Hk & ->)%Forall2_cons_inv_l.
      apply IH in Hk. by rewrite Hy, Hk.
Qed.

Lemma mapM_result_Raise {A B : Type} (f : A → result B) (l : list A) (x : A) (e : exn) :
  x ∈ l → f x = Raise e → ∃ e', mapM f l = Raise e'.
Proof.
  intros Hin Hx. induction l as [|y l IH]; [by apply elem_of_nil in Hin|].
  rewrite mapM_result_cons. apply elem_of_cons in Hin as [<-|Hin].
  - rewrite Hx. by eexists.
  - destruct (f y); cbn; [|by eexists].
    destruct (IH Hin) as [e' ->]. by eexists.
Qed.

Lemma lookup_with_true (key : string) (x : value) (spec : gmap string value) :
  with_true key x spec !! key = if py_truthy x then Some x else spec !! key.
Proof. unfold with_true. destruct (py_truthy x); by simplify_map_eq. Qed.

Lemma lookup_with_true_ne (key key' : string) (x : value) (spec : gmap string value) :
  key ≠ key' → with_true key x spec !! key' = spec !! key'.
Proof. intros Hne. unfold with_true. destruct (py_truthy x); by simplify_map_eq. Qed.

Lemma lookup_with_given (key : string) (x : value) (spec : gmap string value) :
  with_given key x spec !! key = if is_not_None x then Some x else spec !! key.
Proof. unfold with_given. destruct (is_not_None x); by simplify_map_eq. Qed.

Lemma lookup_with_given_ne (key key' : string) (x : value) (spec : gmap string value) :
  key ≠ key' → with_given key x spec !! key' = spec !! key'.
Proof. intros Hne. unfold with_given. destruct (is_not_None x); by simplify_map_eq. Qed.

Lemma lookup_with_model (key : string) (model : option value)
    (spec : gmap string value) :
  with_model key model spec !! key
  = match model with Some dump => Some dump | None => spec !! key end.
Proof. unfold with_model. destruct model; by simplify_map_eq. Qed.

Lemma lookup_with_model_ne (key key' : string) (model : option value)
    (spec : gmap string value) :
  key ≠ key' → with_model key model spec !! key' = spec !! key'.
Proof. intros Hne. unfold with_model. destruct model; by simplify_map_eq. Qed.

Lemma lookup_with_models (key : string) (models : option (list value))
    (spec : gmap string value) :
  with_models key models spec !! key
  = match models with
    | Some (m :: ms) => Some (VList (m :: ms))
    | _ => spec !! key
    end.
Proof. unfold with_models. destruct models as [[|m ms]|]; by simplify_map_eq. Qed.

Lemma lookup_with_models_ne (key key' : string) (models : option (list value))
    (spec : gmap string value) :
  key ≠ key' → with_models key models spec !! key' = spec !! key'.
Proof.
  intros Hne. unfold with_models. destruct models as [[|m ms]|]; by simplify_map_eq.
Qed.

(** The lookup of a key in the spec [create_query] builds: the statements
    for other keys are passed over. *)
Ltac pass_over :=
  repeat first
    [ rewrite lookup_with_true_ne by first [done|congruence]
    | rewrite lookup_with_given_ne by first [done|congruence]
    | rewrite lookup_with_model_ne by first [done|congruence]
    | rewrite lookup_with_models_ne by first [done|congruence] ].

Ltac spec_lookup :=
  pass_over;
  first [ rewrite lookup_with_true | rewrite lookup_with_given
        | rewrite lookup_with_model | rewrite lookup_with_models | idtac ];
  pass_over; by simplify_map_eq.

Section routes_facts.
Context `{PyRepr} `{DateTimeLib} `{QueryRequests} `{QueryModels}
  {world : Type} (b : query_backend world).

(** X17: [list_queries] makes one call; when it answers, the count is the
    number of queries the server listed, and the items are their
    conversions, in order; one query that cannot be converted makes the
    whole listing fail with an HTTP error, unlike the models listing. *)
Theorem list_queries_all_or_nothing (namespace : string) (w : world)
    (items : list resource) (w1 : world) :
  query_serve b (ArkClient namespace VERSION) queries_a_list w = (Ok items, w1) →
  let o := route_run b (list_queries namespace) w in
  calls o = [QueryEvent (ArkClient namespace VERSION) queries_a_list (Ok items)]
  ∧ (∀ r, answered o = Ok r →
       list_count r = length items
       ∧ Forall2 (λ item q, (item_dict ← to_dict item; query_to_response item_dict) = Ok q)
           items (list_items r))
  ∧ (∀ item e, item ∈ items →
       (item_dict ← to_dict item; query_to_response item_dict) = Raise e →
       ∃ e', answered o = Raise e' ∧ is_HTTPException e' = true).
Proof.
  intros Hlist. unfold list_queries. cbn zeta.
  rewrite route_run_handle_k8s_errors, route_run_bind,
    (route_run_awaiting b _ queries_a_list), Hlist.
  cbn [fst snd calls left_in answered]. cbn zeta.
  rewrite route_run_bind, route_run_evaluate. cbn [calls left_in answered].
  destruct (mapM _ items) as [queries|e] eqn:Hmap; cbn.
  - split; [done|]. split.
    + intros r [= <-]. cbn. apply mapM_result_Ok in Hmap.
      split; [|done]. symmetry. by eapply Forall2_length.
    + intros item e Hin Hitem.
      destruct (mapM_result_Raise
                  (λ item : resource,
                     item_dict ← to_dict item; query_to_response item_dict)
                  items item e Hin Hitem) as [e' He'].
      congruence.
  - split; [done|]. split; [done|].
    intros item e' Hin Hitem. eexists. split; [done|].
    unfold at_boundary. by destruct (is_HTTPException e) eqn:E.
Qed.

Lemma create_query_run (namespace : string) (query : QueryCreateRequest) (w : world) :
  route_run b (create_query namespace query) w =
  let created :=
    query_serve b (ArkClient namespace VERSION)
      (queries_a_create_from (create_metadata namespace query) (create_spec query)) w in
  RouteOutcome
    [QueryEvent (ArkClient namespace VERSION)
       (queries_a_create_from (create_metadata namespace query) (create_spec query))
       created.1]
    created.2
    (match (created ← (created.1 : result resource);
            created_dict ← to_dict created;
            query_to_detail_response created_dict) with
     | Ok r => Ok r
     | Raise e => Raise (at_boundary e)
     end).
Proof.
  unfold create_query. cbn zeta. rewrite route_run_handle_k8s_errors, route_run_bind.
  rewrite (route_run_awaiting b _ (queries_a_create_from _ _)).
  destruct (query_serve b _ (queries_a_create_from _ _) w) as [[created|e] w1];
    cbn [fst snd calls left_in answered mbind result_bind]; [|reflexivity].
  cbn zeta. rewrite route_run_bind, !route_run_evaluate.
  cbn [calls left_in answered].
  destruct (to_dict created) as [created_dict|e];
    cbn [calls left_in answered app]; [|reflexivity].
  rewrite route_run_evaluate. reflexivity.
Qed.

Lemma create_spec_input (query : QueryCreateRequest) :
  create_spec query !! "input" = Some (create_input query).
Proof. unfold create_spec. cbn zeta. spec_lookup. Qed.

Lemma create_spec_true (query : QueryCreateRequest) (key : string) (x : value) :
  (key, x) ∈ [("serviceAccount", create_serviceAccount query);
              ("sessionId", create_sessionId query);
              ("timeout", create_timeout query);
              ("ttl", create_ttl query)] →
  create_spec query !! key = if py_truthy x then Some x else None.
Proof.
  intros Hin. unfold create_spec. cbn zeta.
  repeat (apply elem_of_cons in Hin as [[= -> ->]|Hin]);
    [..|by apply elem_of_nil in Hin]; pass_over; rewrite lookup_with_true;
    destruct (py_truthy _); try done; spec_lookup.
Qed.

Lemma create_spec_cancel (query : QueryCreateRequest) :
  create_spec query !! "cancel"
  = if is_not_None (create_cancel query) then Some (create_cancel query) else None.
Proof. unfold create_spec. cbn zeta. spec_lookup. Qed.

Lemma create_metadata_lookup (namespace : string) (query : QueryCreateRequest) :
  create_metadata namespace query !! "name" = Some (create_name query)
  ∧ create_metadata namespace query !! "namespace" = Some (VStr namespace)
  ∧ create_metadata namespace query !! "uid" = None
  ∧ create_metadata namespace query !! "annotations"
    = (if py_truthy (create_streaming query)
       then Some (VDict (<["ark.mckinsey.com/streaming-enabled" := VStr "true"]> ∅))
       else None).
Proof.
  unfold create_metadata. cbn zeta.
  destruct (py_truthy (create_streaming query)); by simplify_map_eq.
Qed.

(** X18: [create_query] makes one call, the creation of a query in the
    namespace of the route, named as the request says, annotated for
    streaming exactly when [streaming] is true.  Its spec has the input;
    a text that is empty or not given is left out, [cancel] is kept
    whenever it is given, [False] too; a nested model is kept when it is
    given, a list of models when it is given and not empty. *)
Theorem create_query_sends (namespace : string) (query : QueryCreateRequest)
    (w : world) :
  (∃ created,
     calls (route_run b (create_query namespace query) w)
     = [QueryEvent (ArkClient namespace VERSION)
          (queries_a_create_from (create_metadata namespace query) (create_spec query))
          created])
  ∧ create_metadata namespace query !! "name" = Some (create_name query)
  ∧ create_metadata namespace query !! "namespace" = Some (VStr namespace)
  ∧ create_metadata namespace query !! "annotations"
    = (if py_truthy (create_streaming query)
       then Some (VDict (<["ark.mckinsey.com/streaming-enabled" := VStr "true"]> ∅))
       else None)
  ∧ create_spec query !! "input" = Some (create_input query)
  ∧ (∀ key x,
       (key, x) ∈ [("serviceAccount", create_serviceAccount query);
                   ("sessionId", create_sessionId query);
                   ("timeout", create_timeout query);
                   ("ttl", create_ttl query)] →
       create_spec query !! key = if py_truthy x then Some x else None)
  ∧ create_spec query !! "cancel"
    = (if is_not_None (create_cancel query) then Some (create_cancel query) else None)
  ∧ (∀ key given_model,
       (key, given_model) ∈ [("memory", create_memory query);
                             ("selector", create_selector query);
                             ("evaluatorSelector", create_evaluatorSelector query)] →
       create_spec query !! key = given_model)
  ∧ (∀ key models,
       (key, models) ∈ [("parameters", create_parameters query);
                        ("targets", create_targets query);
                        ("evaluators", create_evaluators query)] →
       create_spec query !! key = match models with
                                  | Some (m :: ms) => Some (VList (m :: ms))
                                  | _ => None
                                  end).
Proof.
  split; [rewrite create_query_run; by eexists|].
  destruct (create_metadata_lookup namespace query) as (Hname & Hnamespace & _ & Hann).
  do 3 (split; [done|]).
  split; [apply create_spec_input|].
  split; [apply create_spec_true|].
  split; [apply create_spec_cancel|].
  unfold create_spec. cbn zeta. split.
  - intros key given_model Hin.
    repeat (apply elem_of_cons in Hin as [[= -> ->]|Hin]);
      [..|by apply elem_of_nil in Hin]; pass_over; rewrite lookup_with_model;
      (match goal with |- match ?given with _ => _ end = _ => destruct given end);
      try done; spec_lookup.
  - intros key models Hin.
    repeat (apply elem_of_cons in Hin as [[= -> ->]|Hin]);
      [..|by apply elem_of_nil in Hin]; pass_over; rewrite lookup_with_models;
      (match goal with
       | |- match ?given with _ => _ end = _ => destruct given as [[|? ?]|]
       end);
      try done; spec_lookup.
Qed.

(** X19: on a server that answers a creation with what was sent,
    [create_query] answers with the detail of the request: its name, the
    namespace of the route, its input and [cancel]; and with a stream
    exactly when [streaming] was true, at the stream route of the new
    query. *)
Theorem create_query_round_trip (namespace : string) (query : QueryCreateRequest)
    (w : world) :
  (∀ metadata spec, ∃ created w1 d,
     query_serve b (ArkClient namespace VERSION)
       (queries_a_create_from metadata spec) w = (Ok created, w1)
     ∧ to_dict created = Ok (VDict d)
     ∧ d !! "metadata" = Some (VDict metadata)
     ∧ d !! "spec" = Some (VDict spec)) →
  ∃ r,
    answered (route_run b (create_query namespace query) w) = Ok r
    ∧ detail_name r = create_name query
    ∧ detail_namespace r = VStr namespace
    ∧ detail_input r = create_input query
    ∧ detail_cancel r = create_cancel query
    ∧ detail_streaming r
      = if py_truthy (create_streaming query)
        then Some {| info_enabled := true;
                     info_url := "/api/v1/namespaces/" +:+ namespace +:+ "/queries/"
                                 +:+ py_str (create_name query) +:+ "/stream";
                     info_sessionId :=
                       if py_truthy (create_sessionId query)
                       then create_sessionId query else VStr "" |}
        else None.
Proof.
  intros Hecho.
  destruct (Hecho (create_metadata namespace query) (create_spec query))
    as (created & w1 & d & Hcreate & Hd & Hm & Hs).
  destruct (create_metadata_lookup namespace query)
    as (Hname & Hnamespace & Huid & Hann).
  rewrite create_query_run, Hcreate. cbn [fst snd answered]. cbn. rewrite Hd. cbn.
  rewrite (query_to_detail_response_ok d _ _ (create_name query) (VStr namespace)
             (create_input query) Hm Hs); try done.
  2:{ rewrite Hann. by destruct (py_truthy (create_streaming query)). }
  2:{ apply create_spec_input. }
  eexists. split; [done|]. cbn.
  split; [done|]. split; [done|]. split; [done|]. split.
  - rewrite create_spec_cancel. by destruct (create_cancel query).
  - rewrite (annotation_of_dict d _ _ Hm), Hann, (session_of_dict d _ _ Hm Hs), Huid.
    rewrite (create_spec_true query "sessionId" (create_sessionId query))
      by (apply elem_of_cons; right; apply elem_of_cons; by left).
    unfold py_or.
    destruct (py_truthy (create_streaming query)); cbn; [|done].
    destruct (py_truthy (create_sessionId query)) eqn:Hsid; cbn; by rewrite ?Hsid.
Qed.

Lemma set_given_dict (key : string) (x : option value) (s : gmap string value) :
  set_given key x (VDict s) = Ok (VDict (with_model key x s)).
Proof. by destruct x. Qed.

Lemma update_spec_dict (query : QueryUpdateRequest) (s : gmap string value) :
  ∃ s', update_spec query (VDict s) = Ok (VDict s')
        ∧ ∀ key, s' !! key = match requested query key with
                             | Some x => Some x
                             | None => s !! key
                             end.
Proof.
  unfold update_spec. repeat (rewrite set_given_dict; cbn [mbind result_bind]).
  eexists. split; [done|]. intros key. unfold requested.
  repeat
    match goal with
    | |- context [String.eqb key ?k] =>
        destruct (String.eqb_spec key k) as [->|?]; cbv beta iota;
        [pass_over; rewrite lookup_with_model;
         (match goal with |- match ?given with _ => _ end = _ => destruct given end);
         [done|]; pass_over; done|]
    end.
  pass_over. done.
Qed.

Lemma update_query_run (namespace query_name : string) (query : QueryUpdateRequest)
    (w : world) (current : resource) (w1 : world) (d s : gmap string value) :
  query_serve b (ArkClient namespace VERSION) (reading (queries_a_get query_name)) w
    = (Ok current, w1) →
  to_dict current = Ok (VDict d) →
  d !! "spec" = Some (VDict s) →
  ∃ s',
    (∀ key, s' !! key = match requested query key with
                        | Some x => Some x
                        | None => s !! key
                        end)
    ∧ route_run b (update_query namespace query_name query) w
      = match QueryV1alpha1_kwargs (VDict (<["spec" := VDict s']> d)) with
        | Ok updated_query_obj =>
            let updated :=
              query_serve b (ArkClient namespace VERSION)
                (queries_a_update updated_query_obj) w1 in
            RouteOutcome
              [QueryEvent (ArkClient namespace VERSION)
                 (reading (queries_a_get query_name)) (Ok current);
               QueryEvent (ArkClient namespace VERSION)
                 (queries_a_update updated_query_obj) updated.1]
              updated.2
              (match (updated ← (updated.1 : result resource);
                      updated_dict ← to_dict updated;
                      query_to_detail_response updated_dict) with
               | Ok r => Ok r
               | Raise e => Raise (at_boundary e)
               end)
        | Raise e =>
            RouteOutcome
              [QueryEvent (ArkClient namespace VERSION)
                 (reading (queries_a_get query_name)) (Ok current)]
              w1 (Raise (at_boundary e))
        end.
Proof.
  intros Hget Hd Hs.
  destruct (update_spec_dict query s) as (s' & Hupdate & Hmerge).
  exists s'. split; [done|].
  unfold update_query. cbn zeta. rewrite route_run_handle_k8s_errors, route_run_bind.
  rewrite (route_run_awaiting b _ (reading (queries_a_get query_name))), Hget.
  cbn [fst snd calls left_in answered]. cbn zeta.
  rewrite route_run_bind, route_run_evaluate, Hd. cbn [calls left_in answered]. cbn zeta.
  rewrite route_run_bind, route_run_evaluate. cbn [py_getitem]. rewrite Hs.
  cbn [calls left_in answered]. cbn zeta.
  rewrite route_run_bind, route_run_evaluate, Hupdate. cbn [calls left_in answered].
  cbn zeta.
  rewrite route_run_bind, route_run_evaluate. cbn [calls left_in answered]. cbn zeta.
  rewrite route_run_bind, route_run_evaluate. cbn [py_setitem calls left_in answered].
  cbn zeta. rewrite route_run_bind, route_run_evaluate.
  destruct (QueryV1alpha1_kwargs (VDict (<["spec" := VDict s']> d)))
    as [updated_query_obj|e]; cbn [calls left_in answered app]; [|reflexivity].
  cbn zeta. rewrite route_run_bind.
  rewrite (route_run_awaiting b _ (queries_a_update _)).
  destruct (query_serve b _ (queries_a_update _) w1) as [[updated|e] w2];
    cbn [fst snd calls left_in answered app]; [|reflexivity].
  cbn zeta. rewrite route_run_bind, !route_run_evaluate.
  cbn [calls left_in answered app].
  change (Ok updated ≫= ?f) with (f updated). cbv beta.
  destruct (to_dict updated) as [updated_dict|e];
    cbn [calls left_in answered app]; [|reflexivity].
  rewrite route_run_evaluate. reflexivity.
Qed.

(** X20: [update_query] merges.  For a fetched query whose spec is a
    dictionary, it builds the object to write from the fetched resource
    with a spec in which every attribute the request gives has the
    request's value, and every other key, known to the route or not, has
    the value it had.  When the constructor of the SDK gives the object,
    the calls are the fetch and one update, of that object; when the
    constructor raises, the fetch is the only call, nothing is written, and
    the route raises the error as the boundary renders it. *)
Theorem update_query_merges (namespace query_name : string)
    (query : QueryUpdateRequest) (w : world) (current : resource) (w1 : world)
    (d s : gmap string value) :
  query_serve b (ArkClient namespace VERSION) (reading (queries_a_get query_name)) w
    = (Ok current, w1) →
  to_dict current = Ok (VDict d) →
  d !! "spec" = Some (VDict s) →
  ∃ s',
    (∀ key, s' !! key = match requested query key with
                        | Some x => Some x
                        | None => s !! key
                        end)
    ∧ match QueryV1alpha1_kwargs (VDict (<["spec" := VDict s']> d)) with
      | Ok updated_query_obj =>
          ∃ written,
            calls (route_run b (update_query namespace query_name query) w)
            = [QueryEvent (ArkClient namespace VERSION)
                 (reading (queries_a_get query_name)) (Ok current);
               QueryEvent (ArkClient namespace VERSION)
                 (queries_a_update updated_query_obj) written]
      | Raise e =>
          calls (route_run b (update_query namespace query_name query) w)
          = [QueryEvent (ArkClient namespace VERSION)
               (reading (queries_a_get query_name)) (Ok current)]
          ∧ answered (route_run b (update_query namespace query_name query) w)
            = Raise (at_boundary e)
      end.
Proof.
  intros Hget Hd Hs.
  destruct (update_query_run namespace query_name query w current w1 d s Hget Hd Hs)
    as (s' & Hmerge & Hrun).
  exists s'. split; [done|]. rewrite Hrun.
  destruct (QueryV1alpha1_kwargs (VDict (<["spec" := VDict s']> d)));
    cbn zeta; [by eexists|done].
Qed.

(** X21: [update_query] reads, then writes at most once.  Whatever the
    server answers, either the only call is the fetch and the route raises
    an HTTP error, or the calls are the fetch, which succeeded, and one
    update, of the object that the constructor of the SDK has built from
    the fetched resource with its spec replaced. *)
Theorem update_query_reads_then_writes (namespace query_name : string)
    (query : QueryUpdateRequest) (w : world) :
  let o := route_run b (update_query namespace query_name query) w in
  (∃ fetched e,
     calls o = [QueryEvent (ArkClient namespace VERSION)
                  (reading (queries_a_get query_name)) fetched]
     ∧ answered o = Raise e ∧ is_HTTPException e = true)
  ∨ (∃ current current_dict spec body updated_query_obj written,
       calls o = [QueryEvent (ArkClient namespace VERSION)
                    (reading (queries_a_get query_name)) (Ok current);
                  QueryEvent (ArkClient namespace VERSION)
                    (queries_a_update updated_query_obj) written]
       ∧ to_dict current = Ok current_dict
       ∧ py_setitem current_dict "spec" spec = Ok body
       ∧ QueryV1alpha1_kwargs body = Ok updated_query_obj).
Proof.
  cbn zeta. unfold update_query. cbn zeta.
  rewrite route_run_handle_k8s_errors, route_run_bind.
  rewrite (route_run_awaiting b _ (reading (queries_a_get query_name))).
  destruct (query_serve b _ (reading (queries_a_get query_name)) w)
    as [[current|e] w1]; cbn [fst snd calls left_in answered].
  2:{ left. exists (Raise e), (at_boundary e).
      split; [done|]. split; [done|]. apply is_HTTPException_at_boundary. }
  cbn zeta. rewrite route_run_bind, route_run_evaluate. cbn [calls left_in answered].
  destruct (to_dict current) as [current_dict|e] eqn:Hd;
    cbn [calls left_in answered app].
  2:{ left. exists (Ok current), (at_boundary e).
      split; [done|]. split; [done|]. apply is_HTTPException_at_boundary. }
  cbn zeta. rewrite route_run_bind, route_run_evaluate. cbn [calls left_in answered].
  destruct (py_getitem current_dict "spec") as [spec|e];
    cbn [calls left_in answered app].
  2:{ left. exists (Ok current), (at_boundary e).
      split; [done|]. split; [done|]. apply is_HTTPException_at_boundary. }
  cbn zeta. rewrite route_run_bind, route_run_evaluate. cbn [calls left_in answered].
  destruct (update_spec query spec) as [spec'|e];
    cbn [calls left_in answered app].
  2:{ left. exists (Ok current), (at_boundary e).
      split; [done|]. split; [done|]. apply is_HTTPException_at_boundary. }
  cbn zeta. rewrite route_run_bind, route_run_evaluate. cbn [calls left_in answered].
  cbn zeta. rewrite route_run_bind, route_run_evaluate. cbn [calls left_in answered].
  destruct (py_setitem current_dict "spec" spec') as [body|e] eqn:Hbody;
    cbn [calls left_in answered app].
  2:{ left. exists (Ok current), (at_boundary e).
      split; [done|]. split; [done|]. apply is_HTTPException_at_boundary. }
  cbn zeta. rewrite route_run_bind, route_run_evaluate. cbn [calls left_in answered].
  destruct (QueryV1alpha1_kwargs body) as [updated_query_obj|e] eqn:Hobj;
    cbn [calls left_in answered app].
  2:{ left. exists (Ok current), (at_boundary e).
      split; [done|]. split; [done|]. apply is_HTTPException_at_boundary. }
  right. exists current, current_dict, spec', body, updated_query_obj.
  cbn zeta. rewrite route_run_bind.
  rewrite (route_run_awaiting b _ (queries_a_update updated_query_obj)).
  destruct (query_serve b _ (queries_a_update updated_query_obj) w1)
    as [[updated|e] w2];
    cbn [fst snd calls left_in answered app]; [|by eexists].
  cbn zeta. rewrite route_run_bind, !route_run_evaluate.
  cbn [calls left_in answered app].
  destruct (to_dict updated) as [updated_dict|e];
    cbn [calls left_in answered app]; [|by eexists].
  rewrite route_run_evaluate. by eexists.
Qed.

(** X22: [cancel_query] does not read the query: its one call is a patch
    that holds [spec.cancel = True] and nothing else, and it answers with
    the detail of what the patch returned. *)
Theorem cancel_query_patches (namespace query_name : string) (w : world) :
  route_run b (cancel_query namespace query_name) w =
  let patch := VDict (<["spec" := VDict (<["cancel" := VBool true]> ∅)]> ∅) in
  let patched :=
    query_serve b (ArkClient namespace VERSION) (queries_a_patch query_name patch) w in
  RouteOutcome
    [QueryEvent (ArkClient namespace VERSION) (queries_a_patch query_name patch)
       patched.1]
    patched.2
    (match (updated ← (patched.1 : result resource);
            updated_dict ← to_dict updated;
            query_to_detail_response updated_dict) with
     | Ok r => Ok r
     | Raise e => Raise (at_boundary e)
     end).
Proof.
  unfold cancel_query. cbn zeta. rewrite route_run_handle_k8s_errors, route_run_bind.
  rewrite (route_run_awaiting b _ (queries_a_patch _ _)).
  destruct (query_serve b _ (queries_a_patch _ _) w) as [[updated|e] w1];
    cbn [fst snd calls left_in answered]; [|reflexivity].
  cbn zeta. rewrite route_run_bind, !route_run_evaluate.
  cbn [calls left_in answered app].
  change (Ok updated ≫= ?f) with (f updated). cbv beta.
  destruct (to_dict updated) as [updated_dict|e];
    cbn [calls left_in answered app]; [|reflexivity].
  rewrite route_run_evaluate. reflexivity.
Qed.
End routes_facts.

(** ** The sample tool *)

Lemma string_app_length (a b : string) :
  String.length (a +:+ b) = (String.length a + String.length b)%nat.
Proof. induction a as [|c a IH]; [done|]. rewrite string_app_cons. cbn. by rewrite IH. Qed.

Lemma reverse_message_app (a b : string) :
  reverse_message (a +:+ b) = reverse_message b +:+ reverse_message a.
Proof.
  induction a as [|c a IH].
  - cbn. change ("" +:+ b) with b. by rewrite string_app_nil_r.
  - rewrite string_app_cons. cbn. by rewrite IH, string_app_assoc.
Qed.

(** X23: reversing a message twice gives the message back; the reversed
    message has the length of the message; and the reverse of two texts
    put together is the reverses put together the other way round. *)
Theorem reverse_message_involutive (message : string) :
  reverse_message (reverse_message message) = message
  ∧ String.length (reverse_message message) = String.length message
  ∧ ∀ other, reverse_message (message +:+ other)
             = reverse_message other +:+ reverse_message message.
Proof.
  split; [|split].
  - induction message as [|c rest IH]; [done|]. cbn.
    rewrite reverse_message_app, IH. done.
  - induction message as [|c rest IH]; [done|]. cbn.
    rewrite string_app_length, IH. cbn. lia.
  - intros other. apply reverse_message_app.
Qed.

(** ** The discovery of tools *)

Section discoverer_facts.
Context {constant : Type} `{AstLib constant}.

(** Induction on a syntax tree: a property of the statements below a node
    may be used for the node. *)
Lemma stmt_tree_ind (P : ast.stmt constant → Prop) :
  (∀ module names, P (ast.ImportFrom module names)) →
  (∀ targets value, P (ast.Assign targets value)) →
  (∀ name args body decorator_list returns,
     Forall P body → P (ast.FunctionDef name args body decorator_list returns)) →
  (∀ value, P (ast.Expr value)) →
  (∀ children, Forall P children → P (ast.Other children)) →
  ∀ node, P node.
Proof.
  intros Himport Hassign Hfunction Hexpr Hother.
  fix IH 1.
  intros [module names|targets value|name args body decorator_list returns|value
         |children].
  - apply Himport.
  - apply Hassign.
  - apply Hfunction. induction body as [|node body IHbody]; constructor; [apply IH|done].
  - apply Hexpr.
  - apply Hother. induction children as [|node children IHc]; constructor; [apply IH|done].
Qed.

Lemma record_tools_spec (self : MCPToolDiscoverer constant) (info : tool_info constant)
    (decorator_list : list (ast.expr constant)) :
  record_tools self info decorator_list
  = {| tools := tools self
                ++ map (λ tool_config, tool_config ∪ info)
                     (omap (tool_decorator self) decorator_list);
       mcp_var_name := mcp_var_name self;
       imports := imports self;
       server_name := server_name self |}.
Proof.
  unfold record_tools.
  assert (Hgen : ∀ self',
    foldl (λ self' decorator,
             match tool_decorator self decorator with
             | Some tool_config =>
                 {| tools := tools self' ++ [tool_config ∪ info];
                    mcp_var_name := mcp_var_name self';
                    imports := imports self';
                    server_name := server_name self' |}
             | None => self'
             end) self' decorator_list
    = {| tools := tools self'
                  ++ map (λ tool_config, tool_config ∪ info)
                       (omap (tool_decorator self) decorator_list);
         mcp_var_name := mcp_var_name self';
         imports := imports self';
         server_name := server_name self' |}).
  { induction decorator_list as [|decorator rest IH]; intros self'; cbn.
    - rewrite app_nil_r. by destruct self'.
    - rewrite IH. destruct (tool_decorator self decorator); cbn; [|done].
      by rewrite <- app_assoc. }
  apply Hgen.
Qed.

Lemma tool_decorator_without_instance (self : MCPToolDiscoverer constant)
    (decorator : ast.expr constant) :
  mcp_var_name self = None → tool_decorator self decorator = None.
Proof.
  intros Hnone. unfold tool_decorator, is_mcp_var. rewrite Hnone.
  destruct decorator as [| |[| | |[| | | |]|]| [| | | |] |]; done.
Qed.

Lemma foldl_visit_fixed (P : MCPToolDiscoverer constant → Prop) (Q : ast.stmt constant → Prop)
    (nodes : list (ast.stmt constant)) (self : MCPToolDiscoverer constant) :
  Forall (λ node, Q node ∧ ∀ self, P self → P (visit self node)) nodes →
  P self → P (foldl visit self nodes).
Proof.
  revert self. induction nodes as [|node nodes IH]; intros self Hnodes Hself; [done|].
  apply Forall_cons in Hnodes as [[_ Hnode] Hrest]. cbn. apply IH; [done|].
  by apply Hnode.
Qed.

Lemma visit_ImportFrom_other (self : MCPToolDiscoverer constant) (module : option string)
    (names : list ast.alias) :
  imports_FastMCP (ast.ImportFrom module names : ast.stmt constant) = false →
  visit_ImportFrom self module names = self.
Proof.
  unfold visit_ImportFrom. destruct module as [module|]; [|done]. cbn.
  destruct (String.eqb module "fastmcp"); [|done]. cbn.
  revert self. induction names as [|alias names IH]; intros self; [done|]. cbn.
  destruct (String.eqb (ast.name alias) "FastMCP"); [done|]. cbn. apply IH.
Qed.

Lemma imported_empty (id : string) : imported id ∅ = false.
Proof. unfold imported. by rewrite map_to_list_empty. Qed.

Lemma visit_Assign_without_import (self : MCPToolDiscoverer constant)
    (targets : list (ast.expr constant)) (value : ast.expr constant) :
  imports self = ∅ → visit_Assign self targets value = self.
Proof.
  intros Himports. unfold visit_Assign. rewrite Himports.
  destruct targets as [|[id| | | |] [|]]; try done.
  destruct value as [| |[id'| | | |] args keywords| |]; try done.
Qed.

Lemma record_tools_without_instance (self : MCPToolDiscoverer constant) (info : tool_info constant)
    (decorator_list : list (ast.expr constant)) :
  mcp_var_name self = None → record_tools self info decorator_list = self.
Proof.
  intros Hnone. rewrite record_tools_spec.
  assert (omap (tool_decorator self) decorator_list = []) as ->.
  { induction decorator_list as [|decorator rest IH]; [done|]. cbn.
    by rewrite tool_decorator_without_instance. }
  cbn. rewrite app_nil_r. by destruct self.
Qed.

Lemma foldl_visit_same (nodes : list (ast.stmt constant)) (self : MCPToolDiscoverer constant) :
  Forall (λ node, visit self node = self) nodes → foldl visit self nodes = self.
Proof.
  induction nodes as [|node nodes IH]; [done|].
  intros [Hnode Hrest]%Forall_cons. cbn. rewrite Hnode. by apply IH.
Qed.

Lemma visit_without_import (self : MCPToolDiscoverer constant) (node : ast.stmt constant) :
  mcp_var_name self = None →
  imports self = ∅ →
  imports_FastMCP node = false →
  visit self node = self.
Proof.
  intros Hnone Himports. induction node
    as [module names|targets value|name args body decorator_list returns IH|value
       |children IH]
    using stmt_tree_ind; intros Hnode.
  - by apply visit_ImportFrom_other.
  - by apply visit_Assign_without_import.
  - cbn [visit]. rewrite record_tools_without_instance by done.
    apply foldl_visit_same. cbn in Hnode.
    apply Forall_forall. intros node Hin.
    rewrite Forall_forall in IH. apply IH; [done|].
    destruct (imports_FastMCP node) eqn:E; [|done].
    assert (existsb imports_FastMCP body = true); [|congruence].
    apply existsb_exists. exists node. split; [by apply list_elem_of_In|done].
  - done.
  - cbn [visit]. apply foldl_visit_same. cbn in Hnode.
    apply Forall_forall. intros node Hin.
    rewrite Forall_forall in IH. apply IH; [done|].
    destruct (imports_FastMCP node) eqn:E; [|done].
    assert (existsb imports_FastMCP children = true); [|congruence].
    apply existsb_exists. exists node. split; [by apply list_elem_of_In|done].
Qed.

Lemma visit_ImportFrom_keeps (self : MCPToolDiscoverer constant)
    (module : option string) (names : list ast.alias) :
  tools (visit_ImportFrom self module names) = tools self
  ∧ mcp_var_name (visit_ImportFrom self module names) = mcp_var_name self.
Proof.
  unfold visit_ImportFrom. destruct module as [module|]; [|done].
  destruct (String.eqb module "fastmcp"); [|done].
  revert self. induction names as [|alias names IH]; intros self; [done|].
  cbn. destruct (String.eqb (ast.name alias) "FastMCP"); [|by apply IH].
  match goal with |- context [foldl _ ?self' names] => destruct (IH self') as [Ht Hm] end.
  by rewrite Ht, Hm.
Qed.

Lemma visit_before_instance (node : ast.stmt constant) (self : MCPToolDiscoverer constant) :
  mcp_var_name self = None →
  assigns node = false →
  tools (visit self node) = tools self ∧ mcp_var_name (visit self node) = None.
Proof.
  revert self. induction node
    as [module names|targets value|name args body decorator_list returns IH|value
       |children IH]
    using stmt_tree_ind; intros self Hnone Hnode.
  - cbn [visit]. destruct (visit_ImportFrom_keeps self module names) as [Ht Hm].
    by rewrite Ht, Hm.
  - done.
  - cbn [visit]. rewrite record_tools_without_instance by done.
    cbn in Hnode. clear decorator_list.
    revert self Hnone. induction body as [|node body IHb]; intros self Hnone; [done|].
    apply Forall_cons in IH as [IHnode IHrest]. cbn in Hnode.
    apply orb_false_iff in Hnode as [Hn Hb]. cbn.
    destruct (IHnode self Hnone Hn) as [Ht Hm].
    destruct (IHb IHrest Hb (visit self node) Hm) as [Ht' Hm']. by rewrite Ht', Ht.
  - done.
  - cbn [visit]. cbn in Hnode.
    revert self Hnone. induction children as [|node children IHc]; intros self Hnone;
      [done|].
    apply Forall_cons in IH as [IHnode IHrest]. cbn in Hnode.
    apply orb_false_iff in Hnode as [Hn Hc]. cbn.
    destruct (IHnode self Hnone Hn) as [Ht Hm].
    destruct (IHc IHrest Hc (visit self node) Hm) as [Ht' Hm']. by rewrite Ht', Ht.
Qed.



(** X24: the discoverer finds a tool only after it has met the
    assignment of the instance.  While it knows no instance, statements
    that hold no assignment, however their functions are decorated, add no
    tool and leave it without an instance. *)
Theorem tools_before_instance (nodes : list (ast.stmt constant))
    (self : MCPToolDiscoverer constant) :
  mcp_var_name self = None →
  existsb assigns nodes = false →
  tools (foldl visit self nodes) = tools self
  ∧ mcp_var_name (foldl visit self nodes) = None.
Proof.
  revert self. induction nodes as [|node nodes IH]; intros self Hnone Hnodes; [done|].
  cbn in Hnodes. apply orb_false_iff in Hnodes as [Hnode Hrest]. cbn.
  destruct (visit_before_instance node self Hnone Hnode) as [Ht Hm].
  destruct (IH (visit self node) Hm Hrest) as [Ht' Hm']. by rewrite Ht', Ht.
Qed.


(** X26: an assignment of a call of the imported class to one name makes
    that name the instance, whatever instance was known before: from then
    on only decorators that go through that name make a tool.  The server
    name becomes the first argument when it is a constant, and otherwise
    stays what it was, be it the name of an earlier instance. *)
Theorem visit_Assign_rebinds (self : MCPToolDiscoverer constant)
    (var_name cls : string) (args : list (ast.expr constant))
    (keywords : list (option string * ast.expr constant)) :
  imported cls (imports self) = true →
  let self' :=
    visit self (ast.Assign [ast.Name var_name] (ast.Call (ast.Name cls) args keywords)) in
  mcp_var_name self' = Some var_name
  ∧ tools self' = tools self
  ∧ server_name self'
    = match args with
      | ast.Constant value :: _ => Some value
      | _ => server_name self
      end
  ∧ ∀ decorator tool_config,
      tool_decorator self' decorator = Some tool_config →
      decorator = ast.Attribute (ast.Name var_name) "tool"
      ∨ ∃ arguments keywords',
          decorator = ast.Call (ast.Attribute (ast.Name var_name) "tool")
                        arguments keywords'.
Proof.
  intros Himported. cbn zeta. cbn [visit]. unfold visit_Assign. rewrite Himported.
  cbn [mcp_var_name tools server_name]. repeat split.
  intros decorator tool_config. unfold tool_decorator, is_mcp_var.
  cbn [mcp_var_name].
  destruct decorator as [| |[| | |[id| | | |] attr|] arguments keywords'
                         |[id| | | |] attr|]; try done.
  - destruct (String.eqb_spec id var_name) as [->|]; [|done].
    destruct (String.eqb_spec attr "tool") as [->|]; [|done].
    intros _. right. by eexists _, _.
  - destruct (String.eqb_spec id var_name) as [->|]; [|done].
    destruct (String.eqb_spec attr "tool") as [->|]; [|done].
    intros _. by left.
Qed.
End discoverer_facts.

Section files_facts.
Context {constant : Type} `{AstLib constant} `{!FileSystem (constant := constant)}.

(** X27: a file that nowhere has [from fastmcp import FastMCP] is
    reported without tools, without an instance and as not using FastMCP,
    whatever else it holds: an instance made through [import fastmcp] and
    the functions decorated with its [tool] are not found. *)
Theorem discover_tools_needs_import (filepath : string)
    (tree : list (ast.stmt constant)) :
  parse_file filepath = Ok tree →
  existsb imports_FastMCP tree = false →
  discover_tools_in_file filepath = Discovered filepath [] false None None.
Proof.
  intros Hparse Himport. unfold discover_tools_in_file. rewrite Hparse.
  by rewrite (visit_without_import __init__ (ast.Other tree)).
Qed.

Lemma discover_directory_fold (dirpath : string) (listing : list string)
    (results : directory_result constant) :
  let found :=
    map (λ file, discover_tools_in_file (path_join dirpath file))
      (List.filter (λ file, endswith file ".py" && isfile (path_join dirpath file))
         listing) in
  foldl (λ results file,
           if endswith file ".py"
           then
             let filepath := path_join dirpath file in
             if isfile filepath
             then
               let file_result := discover_tools_in_file filepath in
               {| directory := directory results;
                  files := files results ++ [file_result];
                  total_tools :=
                    (total_tools results + length (get_tools file_result))%nat;
                  uses_fastmcp :=
                    if get_uses_fastmcp file_result then true
                    else uses_fastmcp results |}
             else results
           else results)
    results listing
  = {| directory := directory results;
       files := files results ++ found;
       total_tools :=
         (total_tools results + sum_list (map (λ r, length (get_tools r)) found))%nat;
       uses_fastmcp := existsb get_uses_fastmcp found || uses_fastmcp results |}.
Proof.
  cbn zeta. revert results. induction listing as [|file listing IH]; intros results.
  - cbn. rewrite app_nil_r, Nat.add_0_r. by destruct results.
  - cbn. destruct (endswith file ".py"); cbn; [|apply IH].
    destruct (isfile (path_join dirpath file)); cbn; [|apply IH].
    rewrite IH. cbn. f_equal.
    + by rewrite <- app_assoc.
    + lia.
    + destruct (get_uses_fastmcp (discover_tools_in_file (path_join dirpath file)));
        cbn; [by rewrite orb_true_r|done].
Qed.

(** X28: the result of a directory holds one record for each entry of
    the listing that ends with [.py] and is a file, in the order of the
    listing, a file that could not be read or parsed included; the total
    is the sum of the tools of the records, and the directory uses FastMCP
    when one of its files does. *)
Theorem discover_tools_in_directory_totals (dirpath : string)
    (listing : list string) :
  listdir dirpath = Ok listing →
  ∃ results,
    discover_tools_in_directory dirpath = Ok results
    ∧ directory results = dirpath
    ∧ files results
      = map (λ file, discover_tools_in_file (path_join dirpath file))
          (List.filter (λ file, endswith file ".py" && isfile (path_join dirpath file))
             listing)
    ∧ total_tools results
      = sum_list (map (λ r, length (get_tools r)) (files results))
    ∧ uses_fastmcp results = existsb get_uses_fastmcp (files results).
Proof.
  intros Hlist. unfold discover_tools_in_directory. rewrite Hlist. cbn.
  eexists. split; [done|]. rewrite discover_directory_fold. cbn.
  by rewrite orb_false_r.
Qed.
End files_facts.

(** ** The properties at work on the sample server *)

(** Each theorem above that has premises is applied here to the sample
    server, where its premises are computed. *)

Lemma try_get_streaming_url_never_raises_witness :
  returned (run (fixed_backend sample_fixture)
              (@try_get_streaming_url scalar_repr default_client "q-missing" "default") tt)
  = Ok None.
Proof.
  apply (proj1 (proj2 (proj2
           (@try_get_streaming_url_never_raises scalar_repr unit
              (fixed_backend sample_fixture) default_client "q-missing" "default" tt)))
         (not_found "query") tt).
  reflexivity.
Defined.

Lemma try_get_streaming_url_capability_witness :
  returned (run (fixed_backend sample_fixture)
              (@try_get_streaming_url scalar_repr default_client "q-stream" "default") tt)
  = Ok (Some "https://mem.example/stream/q-stream?from-beginning=true&wait-for-query=30s").
Proof.
  apply (@try_get_streaming_url_capability scalar_repr unit
           (fixed_backend sample_fixture) default_client "q-stream" "default" tt
           (resource_of (query_dict_of "q-stream" (Some "true") (Some "events"))) tt
           (VDict (query_dict_of "q-stream" (Some "true") (Some "events")))
           (resource_of streaming_memory) tt (VDict streaming_memory)
           "https://mem.example/stream/q-stream?from-beginning=true&wait-for-query=30s");
    try (vm_compute; reflexivity).
  split; [vm_compute; reflexivity|].
  exists (VStr "https://mem.example").
  repeat split; try (vm_compute; reflexivity).
  - by exists "", "/stream/q-stream?from-beginning=true&wait-for-query=30s".
  - by exists "https://mem.example/stream/", "?from-beginning=true&wait-for-query=30s".
  - by exists "https://mem.example/stream/q-stream?", "&wait-for-query=30s".
  - by exists "https://mem.example/stream/q-stream?from-beginning=true&", "".
Defined.

Lemma stream_query_gates_witness :
  returned (run (fixed_backend sample_fixture)
              (@stream_query scalar_repr "default" "q-plain") tt)
  = Raise (HTTPException 400 "Streaming not enabled for this query")
  ∧ trace (run (fixed_backend sample_fixture)
             (@stream_query scalar_repr "default" "q-plain") tt)
    = [Event default_client (queries_a_get "q-plain")
         (Ok (resource_of (query_dict_of "q-plain" None None)))].
Proof.
  pose proof (@stream_query_gates scalar_repr unit (fixed_backend sample_fixture)
                "default" "q-plain" tt
                (resource_of (query_dict_of "q-plain" None None)) tt
                (VDict (query_dict_of "q-plain" None None))
                eq_refl eq_refl) as Hgates.
  destruct Hgates as [Hrefused _]; [vm_compute; reflexivity|].
  destruct Hrefused as (Hstatus & _ & Htrace); [vm_compute; discriminate|].
  split; [exact Hstatus|exact Htrace].
Defined.

Lemma relay_upstream_not_success_witness :
  @proxy_streaming_response (upstream_status 503) "http://memory:8080/stream/q"
  = {| yielded := []; raised := None |}
  ∧ @stream_proxy (upstream_status 503) "http://memory:8080/stream/7f3a"
    = {| yielded := [error_event "Memory service returned 503"]; raised := None |}.
Proof.
  split.
  - apply (@relay_upstream_not_success (upstream_status 503) "http://memory:8080/stream/q"
             {| status_code := 503;
                aiter_lines := {| items := []; failure := None |};
                aiter_text := {| items := []; failure := None |} |}).
    + reflexivity.
    + cbn. lia.
  - apply (proj1 (proj2 (@relay_upstream_not_success (upstream_status 503)
             "http://memory:8080/stream/7f3a"
             {| status_code := 503;
                aiter_lines := {| items := []; failure := None |};
                aiter_text := {| items := []; failure := None |} |} eq_refl
             ltac:(cbn; lia)))).
Defined.

Lemma stream_proxy_keeps_partial_line_witness :
  (stream_chunks "" ["data: a" +:+ NL +:+ "da"; "ta: b" +:+ NL +:+ "data: c"]).2 = "data: c"
  ∧ @stream_proxy (upstream_of [] ["data: a" +:+ NL +:+ "da"; "ta: b" +:+ NL +:+ "data: c"])
      "http://memory:8080/stream/7f3a"
    = {| yielded := ["data: a" +:+ NL; "data: b" +:+ NL]; raised := None |}.
Proof.
  pose proof (@stream_proxy_keeps_partial_line
                (upstream_of [] ["data: a" +:+ NL +:+ "da"; "ta: b" +:+ NL +:+ "data: c"])
                "http://memory:8080/stream/7f3a" _ eq_refl eq_refl eq_refl eq_refl)
    as (Hbuffer & _ & Hyielded & _).
  split; [exact Hbuffer|exact Hyielded].
Defined.

Lemma relay_forwards_nonblank_lines_witness :
  @proxy_streaming_response (upstream_of ["data: a"; ""; "   "; "data: b"] [])
    "http://mem.example/stream/q"
  = {| yielded := ["data: a" +:+ NL +:+ NL; "data: b" +:+ NL +:+ NL]; raised := None |}.
Proof.
  apply (proj1 (@relay_forwards_nonblank_lines
                  (upstream_of ["data: a"; ""; "   "; "data: b"] [])
                  "http://mem.example/stream/q" _ eq_refl eq_refl)).
Defined.

Lemma stream_query_ignores_memory_capability_witness :
  (∃ r, returned (run (fixed_backend sample_fixture)
                    (@stream_query scalar_repr "default" "q-raw") tt) = Ok r
        ∧ body_iterator r = GenStreamProxy "http://memory:8080/stream/7f3a")
  ∧ returned (run (fixed_backend sample_fixture)
                (@try_get_streaming_url scalar_repr (ArkClient "default" VERSION)
                   "q-raw" "default") tt) = Ok None.
Proof.
  pose proof (@stream_query_ignores_memory_capability scalar_repr unit
                (fixed_backend sample_fixture) "default" "q-raw" tt
                (resource_of (query_dict_of "q-raw" (Some "true") None)) tt
                (VDict (query_dict_of "q-raw" (Some "true") None))
                (resource_of plain_memory) tt (VDict plain_memory)
                (VStr "http://memory:8080")
                eq_refl eq_refl) as Hraw.
  destruct Hraw as [Hstream Hresolver]; try (vm_compute; reflexivity).
  split; [exact Hstream|]. apply Hresolver. vm_compute. discriminate.
Defined.

Lemma poll_for_calls (attempts : nat) (c : ark_client)
    (query_name model input_text : string) :
  calls_in (λ c' _, c' = c) (poll_for attempts c query_name model input_text).
Proof.
  induction attempts as [|attempts IH]; cbn [poll_for]; [exact I|].
  repeat calls_step. exact IH.
Qed.

Lemma chat_completions_default_namespace_witness :
  Forall (λ ev, client_namespace (ev_client ev) = "default")
    (trace (run (fixed_backend sample_fixture)
              (@chat_completions scalar_repr sample_utils hello_request) tt)).
Proof.
  apply (proj2 (@chat_completions_default_namespace scalar_repr sample_utils unit
                  (fixed_backend sample_fixture) hello_request tt)).
  intros c query_name model input_text. apply poll_for_calls.
Defined.

Lemma _parse_timestamp_fallback_witness :
  returned (run (fixed_backend sample_fixture)
              (@_parse_timestamp utc_time (VDict (<["name" := VStr "coder"]> ∅))) tt)
  = Ok 1700000000.
Proof.
  apply (proj1 (@_parse_timestamp_fallback utc_time unit (fixed_backend sample_fixture)
                  (<["name" := VStr "coder"]> ∅) tt)).
  reflexivity.
Defined.

(** C6, as stated, fails: a creation timestamp that does not parse makes
    [_parse_timestamp] raise; the current time is not returned. *)
Lemma _parse_timestamp_unparsable_raises :
  returned (run (fixed_backend sample_fixture)
              (@_parse_timestamp utc_time
                 (VDict (<["creationTimestamp" := VStr "yesterday"]> ∅))) tt)
  = Raise (ValueError
             "time data 'yesterday' does not match format '%Y-%m-%dT%H:%M:%SZ'")
  ∧ returned (run (fixed_backend sample_fixture)
              (@_parse_timestamp utc_time
                 (VDict (<["creationTimestamp" := VStr "yesterday"]> ∅))) tt)
    ≠ Ok (fx_now sample_fixture).
Proof. split; vm_compute; [reflexivity|discriminate]. Qed.

(** C7, as stated, fails: the listing call of the agents succeeds with
    three agents, the second has a creation time that does not parse, and
    the response holds the entry of the first agent only, before the entry
    of the kind listed next.  The third agent, which the call listed and
    which can be converted, has no entry, so the response does not hold the
    entries of a kind that succeeded. *)
Lemma list_models_drops_listed_agents :
  let o := run (fixed_backend misdated_fixture) (@list_models scalar_repr utc_time) tt in
  trace o
  = [Event default_client agents_a_list (Ok misdated_agents);
     Event default_client teams_a_list
       (Raise (OtherError "ApiException" "(503) teams unavailable"));
     Event default_client models_a_list (Ok [listed "gpt" None]);
     Event default_client tools_a_list (Ok [])]
  ∧ returned o
    = Ok {| list_object := "list";
            data := [ {| id := "agent/planner"; object := "model";
                         created := 1705314600; owned_by := "ark" |};
                      {| id := "model/gpt"; object := "model";
                         created := 1700000000; owned_by := "ark" |} ] |}
  ∧ @convertible utc_time (listed "coder" None) = true
  ∧ (∀ r, returned o = Ok r → "agent/coder" ∉ map id (data r))
  ∧ ¬ (∃ from_agents others,
         returned o = Ok {| list_object := "list"; data := from_agents ++ others |}
         ∧ Forall2 (@entry_of scalar_repr utc_time "agent/") misdated_agents
             from_agents).
Proof.
  assert (returned (run (fixed_backend misdated_fixture)
                      (@list_models scalar_repr utc_time) tt)
          = Ok {| list_object := "list";
                  data := [ {| id := "agent/planner"; object := "model";
                               created := 1705314600; owned_by := "ark" |};
                            {| id := "model/gpt"; object := "model";
                               created := 1700000000; owned_by := "ark" |} ] |})
    as Hreturned by (vm_compute; reflexivity).
  cbn zeta. split; [vm_compute; reflexivity|]. split; [exact Hreturned|].
  split; [vm_compute; reflexivity|]. rewrite Hreturned. split.
  - intros r [= <-]. cbn. intros Hin.
    repeat (apply elem_of_cons in Hin as [Hin|Hin]; [discriminate Hin|]).
    by apply elem_of_nil in Hin.
  - intros (from_agents & others & [= Hdata] & Hall).
    apply Forall2_length in Hall.
    apply (f_equal length) in Hdata. rewrite length_app in Hdata.
    cbn in Hall, Hdata. lia.
Qed.

(** C2, as stated, fails on both paths: a line of one space is not empty,
    and the OpenAI path drops it; the last line of a body that has no
    newline after it is not empty, and the raw path does not forward it. *)
Lemma relay_drops_nonempty_lines :
  (yielded (@proxy_streaming_response (upstream_of ["a"; " "; "b"] [])
              "http://mem.example/stream/q")
     = ["a" +:+ NL +:+ NL; "b" +:+ NL +:+ NL]
   ∧ yielded (@proxy_streaming_response (upstream_of ["a"; " "; "b"] [])
                "http://mem.example/stream/q")
     ≠ map (λ line, line +:+ NL +:+ NL) (List.filter non_empty ["a"; " "; "b"]))
  ∧ (yielded (@stream_proxy (upstream_of [] ["a" +:+ NL +:+ "b"])
                "http://memory:8080/stream/7f3a")
     = ["a" +:+ NL]
     ∧ body_lines ("a" +:+ NL +:+ "b") = ["a"; "b"]
     ∧ yielded (@stream_proxy (upstream_of [] ["a" +:+ NL +:+ "b"])
                  "http://memory:8080/stream/7f3a")
       ≠ map (λ line, line +:+ NL)
           (List.filter non_empty (body_lines ("a" +:+ NL +:+ "b")))).
Proof. repeat split; vm_compute; first [reflexivity | discriminate]. Qed.

Example list_models_sample :
  returned (run (fixed_backend sample_fixture) (@list_models scalar_repr utc_time) tt)
  = Ok {| list_object := "list";
          data := [ {| id := "agent/planner"; object := "model";
                       created := 1705314600; owned_by := "ark" |};
                    {| id := "agent/coder"; object := "model";
                       created := 1700000000; owned_by := "ark" |};
                    {| id := "model/gpt"; object := "model";
                       created := 1700000000; owned_by := "ark" |} ] |}.
Proof. vm_compute. reflexivity. Qed.

Lemma relay_connect_failure_witness :
  @proxy_streaming_response
    (upstream_refusing (OtherError "ConnectError" "All connection attempts failed"))
    "http://mem.example/stream/q"
  = {| yielded := [];
       raised := Some (OtherError "ConnectError" "All connection attempts failed") |}
  ∧ @stream_proxy
      (upstream_refusing (OtherError "ConnectError" "All connection attempts failed"))
      "http://memory:8080/stream/7f3a"
    = {| yielded := [error_event "Streaming failed: All connection attempts failed"];
         raised := None |}.
Proof.
  split.
  - apply (@relay_connect_failure
             (upstream_refusing (OtherError "ConnectError" "All connection attempts failed"))
             "http://mem.example/stream/q").
    reflexivity.
  - apply (proj2 (@relay_connect_failure
             (upstream_refusing (OtherError "ConnectError" "All connection attempts failed"))
             "http://memory:8080/stream/7f3a" _ eq_refl)).
Defined.

Lemma relay_body_failure_witness :
  @proxy_streaming_response
    (upstream_breaking ["data: a"; ""; "data: b"] ["data: a" +:+ NL +:+ "data: b"]
       (OtherError "ReadTimeout" "timed out"))
    "http://mem.example/stream/q"
  = {| yielded := ["data: a" +:+ NL +:+ NL; "data: b" +:+ NL +:+ NL];
       raised := Some (OtherError "ReadTimeout" "timed out") |}
  ∧ @stream_proxy
      (upstream_breaking ["data: a"; ""; "data: b"] ["data: a" +:+ NL +:+ "data: b"]
         (OtherError "ReadTimeout" "timed out"))
      "http://mem.example/stream/q"
    = {| yielded := ["data: a" +:+ NL; error_event "Streaming failed: timed out"];
         raised := None |}.
Proof.
  apply (@relay_body_failure
           (upstream_breaking ["data: a"; ""; "data: b"] ["data: a" +:+ NL +:+ "data: b"]
              (OtherError "ReadTimeout" "timed out"))
           "http://mem.example/stream/q"
           {| status_code := 200;
              aiter_lines := {| items := ["data: a"; ""; "data: b"];
                                failure := Some (OtherError "ReadTimeout" "timed out") |};
              aiter_text := {| items := ["data: a" +:+ NL +:+ "data: b"];
                               failure := Some (OtherError "ReadTimeout" "timed out") |} |}
           (OtherError "ReadTimeout" "timed out") (OtherError "ReadTimeout" "timed out")
           eq_refl eq_refl eq_refl eq_refl).
Defined.

Lemma stream_chunks_chunking_witness :
  stream_chunks "" ["data: a" +:+ NL +:+ "da"; "ta: b" +:+ NL]
  = stream_chunks "" ["da"; "ta: a"; NL +:+ "data: b" +:+ NL].
Proof.
  apply (stream_chunks_chunking ["data: a" +:+ NL +:+ "da"; "ta: b" +:+ NL]
           ["da"; "ta: a"; NL +:+ "data: b" +:+ NL]).
  reflexivity.
Defined.

Lemma chat_completions_invalid_target_witness :
  run (fixed_backend sample_fixture)
    (@chat_completions scalar_repr sample_utils unnamed_request) tt
  = Outcome [] tt (Raise (ValueError "Invalid target: planner")).
Proof.
  apply (@chat_completions_invalid_target scalar_repr sample_utils unit
           (fixed_backend sample_fixture) unnamed_request tt).
  reflexivity.
Defined.

Lemma chat_completions_creates_query_witness :
  ∃ body rest,
    trace (run (fixed_backend sample_fixture)
             (@chat_completions scalar_repr sample_utils hello_request) tt)
      = Event default_client (queries_a_create body)
          (serve (fixed_backend sample_fixture) default_client
             (queries_a_create body) tt).1 :: rest
    ∧ query_metadata body !! "name" = Some (VStr "openai-query-01234567")
    ∧ query_metadata body !! "annotations"
      = Some (VDict (<["ark.mckinsey.com/streaming-enabled" := VStr "true"]> ∅))
    ∧ spec_input (query_spec body) = "user: hello".
Proof.
  apply (@chat_completions_creates_query scalar_repr sample_utils unit
           (fixed_backend sample_fixture) hello_request tt
           (QueryTarget "agent" "planner")).
  reflexivity.
Defined.

Lemma chat_completions_create_failure_witness :
  run (rejecting_backend sample_fixture)
    (@chat_completions scalar_repr sample_utils hello_request) tt
  = Outcome
      [Event default_client (queries_a_create (created_query true "user: hello"))
         (Raise (OtherError "ApiException" "(409) query already exists"))]
      tt (Raise (HTTPException 500 "(409) query already exists")).
Proof.
  apply (@chat_completions_create_failure scalar_repr sample_utils unit
           (rejecting_backend sample_fixture) hello_request tt
           (created_query true "user: hello")
           (OtherError "ApiException" "(409) query already exists") tt).
  - vm_compute. reflexivity.
  - reflexivity.
Defined.

Lemma chat_completions_without_stream_witness :
  query_metadata (created_query false ("system: be brief" +:+ NL +:+ "user: hello"))
    !! "annotations" = None
  ∧ run (fixed_backend chat_fixture)
      (@chat_completions scalar_repr sample_utils quiet_request) tt
    = let o := run (fixed_backend chat_fixture)
                 (poll_for 3 default_client "openai-query-01234567" "agent/planner"
                    ("system: be brief" +:+ NL +:+ "user: hello")) tt in
      Outcome
        (Event default_client
           (queries_a_create
              (created_query false ("system: be brief" +:+ NL +:+ "user: hello")))
           (Ok (created_resource
                  (created_query false ("system: be brief" +:+ NL +:+ "user: hello"))))
         :: trace o)
        (final o)
        (match returned o with
         | Ok completion => Ok (@Completed sample_utils completion)
         | Raise e => Raise (at_boundary e)
         end).
Proof.
  apply (@chat_completions_without_stream scalar_repr sample_utils unit
           (fixed_backend chat_fixture) quiet_request tt
           (created_query false ("system: be brief" +:+ NL +:+ "user: hello"))
           (created_resource
              (created_query false ("system: be brief" +:+ NL +:+ "user: hello"))) tt).
  - reflexivity.
  - vm_compute. reflexivity.
  - reflexivity.
Defined.

Lemma chat_completions_streams_witness :
  returned (run (fixed_backend chat_fixture)
              (@chat_completions scalar_repr sample_utils hello_request) tt)
  = Ok (Streaming
          {| body_iterator :=
               GenProxyStreamingResponse
                 "https://mem.example/stream/openai-query-01234567?from-beginning=true&wait-for-query=30s";
             media_type := "text/event-stream";
             headers := <["Connection" := "keep-alive"]>
                          (<["Cache-Control" := "no-cache"]> ∅) |}).
Proof.
  rewrite (@chat_completions_streams scalar_repr sample_utils unit
             (fixed_backend chat_fixture) hello_request tt
             (created_query true "user: hello")
             (created_resource (created_query true "user: hello")) tt
             "https://mem.example/stream/openai-query-01234567?from-beginning=true&wait-for-query=30s").
  - reflexivity.
  - reflexivity.
  - vm_compute. reflexivity.
  - reflexivity.
  - vm_compute. reflexivity.
Defined.

Lemma chat_completions_falls_back_witness :
  run (fixed_backend sample_fixture)
    (@chat_completions scalar_repr sample_utils hello_request) tt
  = Outcome
      [Event default_client (queries_a_create (created_query true "user: hello"))
         (Ok (created_resource (created_query true "user: hello")));
       Event default_client (queries_a_get "openai-query-01234567")
         (Raise (not_found "query"));
       Event default_client (queries_a_get "openai-query-01234567")
         (Raise (not_found "query"))]
      tt (Raise (HTTPException 500 "(404) query not found")).
Proof.
  rewrite (@chat_completions_falls_back scalar_repr sample_utils unit
             (fixed_backend sample_fixture) hello_request tt
             (created_query true "user: hello")
             (created_resource (created_query true "user: hello")) tt).
  - reflexivity.
  - reflexivity.
  - vm_compute. reflexivity.
  - reflexivity.
  - vm_compute. reflexivity.
Defined.

Lemma chat_completions_raises_http_witness :
  parse_target "agent/planner" = Raise (HTTPException 500 "(404) query not found")
  ∨ is_HTTPException (HTTPException 500 "(404) query not found") = true.
Proof.
  apply (@chat_completions_raises_http scalar_repr sample_utils unit
           (fixed_backend sample_fixture) hello_request tt).
  vm_compute. reflexivity.
Defined.

Lemma query_to_response_timestamp_witness :
  @query_to_response iso_text (VDict (stored_query "q-live" true (Some "s-1")))
  = Ok (@Build_QueryResponse iso_text
          (VStr "q-live") (VStr "default") (VStr "user: hello") VNone (VStr "s-1")
          (VDict (<["phase" := VStr "Done"]> ∅))
          (Some "2024-01-15T10:30:00+00:00")).
Proof.
  apply (@query_to_response_timestamp iso_text
           (stored_query "q-live" true (Some "s-1"))
           (stored_metadata "q-live" true) (stored_spec (Some "s-1"))
           (VStr "q-live") (VStr "default") (VStr "user: hello"));
    reflexivity.
Defined.

Lemma query_to_detail_response_streaming_witness :
  annotation_of (VDict (stored_query "q-live" true (Some "s-1")))
    "ark.mckinsey.com/streaming-enabled" = Some (VStr "true")
  ∧ true = true
  ∧ (∃ namespace name,
       stored_metadata "q-live" true !! "namespace" = Some namespace
       ∧ stored_metadata "q-live" true !! "name" = Some name
       ∧ "/api/v1/namespaces/default/queries/q-live/stream"
         = "/api/v1/namespaces/" +:+ @py_str scalar_repr namespace
           +:+ "/queries/" +:+ @py_str scalar_repr name +:+ "/stream")
  ∧ VStr "s-1" = @session_of scalar_repr (VDict (stored_query "q-live" true (Some "s-1"))).
Proof.
  apply (@query_to_detail_response_streaming scalar_repr
           (stored_query "q-live" true (Some "s-1"))
           (stored_metadata "q-live" true) (stored_spec (Some "s-1"))
           {| detail_name := VStr "q-live";
              detail_namespace := VStr "default";
              detail_input := VStr "user: hello";
              detail_memory := VNone;
              detail_parameters := VNone;
              detail_selector := VNone;
              detail_serviceAccount := VNone;
              detail_sessionId := VStr "s-1";
              detail_streaming :=
                Some {| info_enabled := true;
                        info_url := "/api/v1/namespaces/default/queries/q-live/stream";
                        info_sessionId := VStr "s-1" |};
              detail_targets := VNone;
              detail_timeout := VStr "5m";
              detail_ttl := VNone;
              detail_cancel := VNone;
              detail_evaluators := VNone;
              detail_evaluatorSelector := VNone;
              detail_status := VDict (<["phase" := VStr "Done"]> ∅) |});
    reflexivity.
Defined.

Lemma query_to_detail_response_required_witness :
  (∃ r, @query_to_detail_response scalar_repr
          (VDict (stored_query "q-done" false None)) = Ok r)
  ∧ (∀ e, @query_to_detail_response scalar_repr
            (VDict (query_dict_of "q-plain" None None)) = Raise e →
          e = KeyError "'name'" ∨ e = KeyError "'namespace'" ∨ e = KeyError "'input'")
  ∧ ¬ (∃ r, @query_to_detail_response scalar_repr
              (VDict (<["metadata" :=
                          VDict (<["annotations" := VNone]>
                                   (stored_metadata "q-done" false))]>
                        (stored_query "q-done" false None))) = Ok r).
Proof.
  split; [|split].
  - apply (proj1 (@query_to_detail_response_required scalar_repr
                    (stored_query "q-done" false None)
                    (stored_metadata "q-done" false) (stored_spec None)
                    eq_refl eq_refl)).
    repeat split; by eexists.
  - apply (proj1 (proj2 (@query_to_detail_response_required scalar_repr
                    (query_dict_of "q-plain" None None)
                    (<["uid" := VStr "7f3a"]> (<["name" := VStr "q-plain"]> ∅))
                    (<["input" := VStr "user: hello"]> ∅)
                    eq_refl eq_refl))).
  - intros Hr.
    assert ((<["metadata" :=
                VDict (<["annotations" := VNone]> (stored_metadata "q-done" false))]>
              (stored_query "q-done" false None) : gmap string value) !! "metadata"
            = Some (VDict (<["annotations" := VNone]>
                             (stored_metadata "q-done" false))))
      as Hm by (vm_compute; reflexivity).
    assert ((<["metadata" :=
                VDict (<["annotations" := VNone]> (stored_metadata "q-done" false))]>
              (stored_query "q-done" false None) : gmap string value) !! "spec"
            = Some (VDict (stored_spec None)))
      as Hs by (vm_compute; reflexivity).
    apply (proj1 (@query_to_detail_response_required scalar_repr _ _ _ Hm Hs)) in Hr.
    destruct Hr as [Hann _]. vm_compute in Hann. discriminate Hann.
Defined.

Lemma get_query_advertises_stream_witness :
  (∃ fetched,
     trace (run (fixed_backend stored_fixture)
              (@stream_query scalar_repr "default" "q-live") tt)
     = [Event (ArkClient "default" VERSION) (queries_a_get "q-live")
          (Ok (resource_of (stored_query "q-live" true (Some "s-1"))));
        Event (ArkClient "default" VERSION)
          (memories_a_get (memory_ref (VDict (stored_query "q-live" true (Some "s-1")))))
          fetched])
  ∧ ∀ response,
      returned (run (fixed_backend stored_fixture)
                  (@stream_query scalar_repr "default" "q-live") tt) = Ok response →
      ∃ base_url,
        body_iterator response = GenStreamProxy (base_url +:+ "/stream/" +:+ "s-1").
Proof.
  apply (@get_query_advertises_stream scalar_repr unit (fixed_backend stored_fixture)
           "default" "q-live" tt
           (resource_of (stored_query "q-live" true (Some "s-1"))) tt
           (VDict (stored_query "q-live" true (Some "s-1")))
           {| detail_name := VStr "q-live";
              detail_namespace := VStr "default";
              detail_input := VStr "user: hello";
              detail_memory := VNone;
              detail_parameters := VNone;
              detail_selector := VNone;
              detail_serviceAccount := VNone;
              detail_sessionId := VStr "s-1";
              detail_streaming :=
                Some {| info_enabled := true;
                        info_url := "/api/v1/namespaces/default/queries/q-live/stream";
                        info_sessionId := VStr "s-1" |};
              detail_targets := VNone;
              detail_timeout := VStr "5m";
              detail_ttl := VNone;
              detail_cancel := VNone;
              detail_evaluators := VNone;
              detail_evaluatorSelector := VNone;
              detail_status := VDict (<["phase" := VStr "Done"]> ∅) |});
    vm_compute; reflexivity.
Defined.

Lemma list_queries_all_or_nothing_witness :
  ∃ e, answered (route_run broken_backend
                   (@list_queries iso_text "default") tt) = Raise e
       ∧ is_HTTPException e = true.
Proof.
  apply (proj2 (proj2 (@list_queries_all_or_nothing iso_text unit broken_backend
                         "default" tt
                         [resource_of (stored_query "q-live" true (Some "s-1"));
                          resource_of (query_dict_of "q-plain" None None)] tt
                         eq_refl))
           (resource_of (query_dict_of "q-plain" None None))
           (KeyError "'namespace'")).
  - apply elem_of_cons. right. apply elem_of_cons. by left.
  - reflexivity.
Defined.

Lemma create_query_round_trip_witness :
  ∃ r,
    answered (route_run stored_backend
                (@create_query scalar_repr sample_requests "team-a" tt) tt) = Ok r
    ∧ detail_name r = VStr "q-new"
    ∧ detail_namespace r = VStr "team-a"
    ∧ detail_input r = VStr "user: hello"
    ∧ detail_cancel r = VBool false
    ∧ detail_streaming r
      = Some {| info_enabled := true;
                info_url := "/api/v1/namespaces/team-a/queries/q-new/stream";
                info_sessionId := VStr "" |}.
Proof.
  apply (@create_query_round_trip scalar_repr sample_requests unit stored_backend
           "team-a" tt tt).
  intros metadata spec.
  exists (resource_of (<["spec" := VDict spec]> (<["metadata" := VDict metadata]> ∅))),
    tt, (<["spec" := VDict spec]> (<["metadata" := VDict metadata]> ∅)).
  repeat split; reflexivity.
Defined.

Lemma update_query_merges_witness :
  (∃ s' written,
     (∀ key, s' !! key = match @requested sample_requests tt key with
                         | Some x => Some x
                         | None => stored_spec None !! key
                         end)
     ∧ calls (route_run stored_backend
                (@update_query scalar_repr sample_requests lenient_models
                   "default" "q-done" tt) tt)
       = [QueryEvent (ArkClient "default" VERSION) (reading (queries_a_get "q-done"))
            (Ok (resource_of (stored_query "q-done" false None)));
          QueryEvent (ArkClient "default" VERSION)
            (queries_a_update
               (resource_of (<["spec" := VDict s']> (stored_query "q-done" false None))))
            written])
  ∧ calls (route_run stored_backend
             (@update_query scalar_repr sample_requests strict_models
                "default" "q-done" tt) tt)
    = [QueryEvent (ArkClient "default" VERSION) (reading (queries_a_get "q-done"))
         (Ok (resource_of (stored_query "q-done" false None)))]
  ∧ answered (route_run stored_backend
                (@update_query scalar_repr sample_requests strict_models
                   "default" "q-done" tt) tt)
    = Raise (HTTPException 500 "1 validation error for QueryV1alpha1Spec: timeout").
Proof.
  split.
  - destruct (@update_query_merges scalar_repr sample_requests lenient_models unit
                stored_backend "default" "q-done" tt tt
                (resource_of (stored_query "q-done" false None)) tt
                (stored_query "q-done" false None) (stored_spec None)
                eq_refl eq_refl eq_refl) as (s' & Hmerge & written & Hcalls).
    by exists s', written.
  - destruct (@update_query_merges scalar_repr sample_requests strict_models unit
                stored_backend "default" "q-done" tt tt
                (resource_of (stored_query "q-done" false None)) tt
                (stored_query "q-done" false None) (stored_spec None)
                eq_refl eq_refl eq_refl) as (s' & Hmerge & Hbuilt).
    pose proof (Hmerge "timeout") as Htimeout.
    change (s' !! "timeout" = Some (VStr "")) in Htimeout.
    unfold QueryV1alpha1_kwargs, strict_models in Hbuilt.
    cbn [dict_path dict_field] in Hbuilt.
    rewrite lookup_insert, decide_True in Hbuilt by reflexivity.
    cbn [dict_field] in Hbuilt. rewrite Htimeout in Hbuilt. exact Hbuilt.
Defined.

Lemma discover_tools_needs_import_witness :
  @discover_tools_in_file string sample_ast sample_files "tools/unqualified.py"
  = Discovered "tools/unqualified.py" [] false None None.
Proof.
  apply (@discover_tools_needs_import string sample_ast sample_files
           "tools/unqualified.py" unqualified_tree); reflexivity.
Defined.

Lemma tools_before_instance_witness :
  tools (foldl (@visit string sample_ast)
           {| tools := []; mcp_var_name := None;
              imports := <["FastMCP" := "FastMCP"]> ∅; server_name := None |}
           [ast.FunctionDef "reverse_message" [] []
              [ast.Call (ast.Attribute (ast.Name "mcp") "tool") [] []] None])
  = []
  ∧ mcp_var_name
      (foldl (@visit string sample_ast)
         {| tools := []; mcp_var_name := None;
            imports := <["FastMCP" := "FastMCP"]> ∅; server_name := None |}
         [ast.FunctionDef "reverse_message" [] []
            [ast.Call (ast.Attribute (ast.Name "mcp") "tool") [] []] None])
    = None.
Proof.
  apply (@tools_before_instance string sample_ast
           [ast.FunctionDef "reverse_message" [] []
              [ast.Call (ast.Attribute (ast.Name "mcp") "tool") [] []] None]
           {| tools := []; mcp_var_name := None;
              imports := <["FastMCP" := "FastMCP"]> ∅; server_name := None |});
    reflexivity.
Defined.

Lemma discover_tools_in_directory_totals_witness :
  ∃ results,
    @discover_tools_in_directory string sample_ast sample_files "tools" = Ok results
    ∧ directory results = "tools"
    ∧ files results
      = map (λ file, @discover_tools_in_file string sample_ast sample_files
                       (@path_join string sample_files "tools" file))
          (List.filter
             (λ file, endswith file ".py"
                      && @isfile string sample_files
                           (@path_join string sample_files "tools" file))
             ["reverse_tool.py"; "README.md"; "broken.py"; "cache.py"; "unqualified.py"])
    ∧ total_tools results
      = sum_list (map (λ r, length (get_tools r)) (files results))
    ∧ uses_fastmcp results = existsb get_uses_fastmcp (files results).
Proof.
  apply (@discover_tools_in_directory_totals string sample_ast sample_files "tools").
  reflexivity.
Defined.

(** The tools of the sample directory: the sample tool is found in its own
    file and in no other. *)
Example discover_reverse_tool :
  @discover_tools_in_directory string sample_ast sample_files "tools"
  = Ok {| directory := "tools";
          files :=
            [ Discovered "tools/reverse_tool.py"
                [ <[Some "return_type" := InfoStr "str"]>
                    (<[Some "parameters" := InfoParameters [("message", Some "str")]]>
                       (<[Some "docstring" :=
                            InfoStr
                              (join NL ["Reverses the text of a message"; "";
                                        "Args:";
                                        "    message: The message text to reverse";
                                        "    "; "Returns:";
                                        "    The reversed message text"])]>
                          (<[Some "name" := InfoStr "reverse_message"]> ∅))) ]
                true (Some "mcp") (Some "reverse_tool");
              Failed "tools/broken.py"
                "Syntax error: invalid syntax (<unknown>, line 3)";
              Discovered "tools/unqualified.py" [] false None None ];
          total_tools := 1;
          uses_fastmcp := true |}.
Proof. vm_compute. reflexivity. Qed.

Lemma visit_Assign_rebinds_witness :
  let self' :=
    @visit string sample_ast
      {| tools := []; mcp_var_name := Some "first";
         imports := <["FastMCP" := "Server"]> ∅; server_name := Some "one" |}
      (ast.Assign [ast.Name "second"] (ast.Call (ast.Name "Server") [] [])) in
  mcp_var_name self' = Some "second"
  ∧ tools self' = []
  ∧ server_name self' = Some "one"
  ∧ ∀ decorator tool_config,
      tool_decorator self' decorator = Some tool_config →
      decorator = ast.Attribute (ast.Name "second") "tool"
      ∨ ∃ arguments keywords',
          decorator = ast.Call (ast.Attribute (ast.Name "second") "tool")
                        arguments keywords'.
Proof.
  apply (@visit_Assign_rebinds string sample_ast
           {| tools := []; mcp_var_name := Some "first";
              imports := <["FastMCP" := "Server"]> ∅; server_name := Some "one" |}
           "second" "Server" [] []).
  reflexivity.
Defined.
